(** * HandTracking: gesture interpreter, chart animation and data-join engine

    A shallow embedding of the [HandTracking] React component
    (components/HandTracking.tsx): the per-frame gesture state machine of
    [renderLoop], the animation arithmetic of [renderChartView] and
    [hideChartWithAnimation], and the data functions
    [detectTableRelationships] and [fetchTableData].

    Line numbers in the comments are those of the source listing of the
    component (src/unnamed/part_000).

    Conventions of the embedding.
    - A JavaScript number is an exact rational ([Q]); rounding of binary
      floating point, NaN and the infinities are outside the model (the
      canvas is taken to have a non-zero width and height).  [Math.sqrt]
      has no rational value, so its result is kept as a [Root] (the
      radicand) and compared through [root_ltb]; [root_ltb_real] relates
      that comparison to the real square root.
    - A hand is the detector's array of 21 landmarks, read by index.
    - [useRef] cells and React state are the fields of [State]; the
      pending [setTimeout] callbacks are an explicit timer queue.
    - A JavaScript object used as a record is the list of its own
      (key, value) pairs in [Object.keys] order. *)

From Stdlib Require Import QArith Qabs Qround Qreals Reals Lra Lqa.
From Stdlib Require Import ZArith List String Ascii Bool Lia.
From Stdlib Require Import Decimal DecimalString.
Import ListNotations.
Open Scope Q_scope.

(* ================================================================== *)
(** ** JavaScript primitives used by the component *)

Module JS.

(** [a < b], [a <= b], [a > b], [a >= b] on numbers. *)
Definition ltb (a b : Q) : bool := negb (Qle_bool b a).
Definition leb (a b : Q) : bool := Qle_bool a b.
Definition gtb (a b : Q) : bool := ltb b a.
Definition geb (a b : Q) : bool := leb b a.

Definition Math_max (a b : Q) : Q := if ltb a b then b else a.
Definition Math_min (a b : Q) : Q := if ltb b a then b else a.
Definition Math_abs (a : Q) : Q := Qabs a.
Definition Math_floor (a : Q) : Z := Qfloor a.

(** [Math.pow(b, e)]; the component only uses the literal exponents 2, 3. *)
Definition Math_pow (b : Q) (e : Z) : Q := Qpower b e.

(** [Math.sqrt(s)]: the value is the non-negative real root of the
    radicand; a negative radicand is NaN, which compares false. *)
Record Root : Set := mkRoot { radicand : Q }.
Definition Math_sqrt (s : Q) : Root := mkRoot s.
Definition root_ltb (r : Root) (t : Q) : bool :=
  leb 0 (radicand r) && ltb 0 t && ltb (radicand r) (t * t).
Definition root_val (r : Root) : R := sqrt (Q2R (radicand r)).

(** Truthiness of a [string | null] reference. *)
Definition truthy (r : option string) : bool :=
  match r with
  | Some s => negb (String.eqb s EmptyString)
  | None => false
  end.

(** [String.prototype.toLowerCase] on the ASCII letters. *)
Definition lower_ascii (c : ascii) : ascii :=
  let n := nat_of_ascii c in
  if (Nat.leb 65 n && Nat.leb n 90)%bool then ascii_of_nat (n + 32) else c.

Fixpoint toLowerCase (s : string) : string :=
  match s with
  | EmptyString => EmptyString
  | String c r => String (lower_ascii c) (toLowerCase r)
  end.

(** [String.prototype.toUpperCase] on the ASCII letters. *)
Definition upper_ascii (c : ascii) : ascii :=
  let n := nat_of_ascii c in
  if (Nat.leb 97 n && Nat.leb n 122)%bool then ascii_of_nat (n - 32) else c.

Fixpoint toUpperCase (s : string) : string :=
  match s with
  | EmptyString => EmptyString
  | String c r => String (upper_ascii c) (toUpperCase r)
  end.

(** [s.startsWith(p)]. *)
Definition startsWith (s p : string) : bool := String.prefix p s.

(** [s.includes(sub)]: [sub] occurs somewhere in [s]. *)
Fixpoint includes (s sub : string) : bool :=
  String.prefix sub s ||
  match s with
  | EmptyString => false
  | String _ r => includes r sub
  end.

(** Decimal rendering of a non-negative integer inside a template
    literal. *)
Definition string_of_nat (n : nat) : string :=
  NilEmpty.string_of_uint (Nat.to_uint n).

(** [arr.includes(name)] on an array of strings. *)
Definition array_includes (arr : list string) (s : string) : bool :=
  existsb (String.eqb s) arr.

End JS.
Import JS.

(* ================================================================== *)
(** ** Data model *)

(** A landmark of the detector: normalized [(x, y)]. *)
Module Landmark.
Record t : Set := mk { x : Q; y : Q }.
End Landmark.

(** A hand is the detector's fixed-length array of 21 landmarks, read by
    index ([landmarks[4]], [landmarks[6]], [landmarks[8]]). *)
Definition Hand : Set := nat -> Landmark.t.

(** [results.multiHandLandmarks] of the latest detector result;
    [None] is a null [handResultsRef] (or a result without landmarks). *)
Definition Results : Set := option (list Hand).

Module TableObject.
Record t : Set := mk {
  id : string;
  name : string;
  x : Q;
  y : Q;
  isDragging : bool
}.
Definition set_isDragging (b : bool) (o : t) : t :=
  mk (id o) (name o) (x o) (y o) b.
Definition set_xy (nx ny : Q) (o : t) : t :=
  mk (id o) (name o) nx ny (isDragging o).
End TableObject.

Module PinchState.
Record t : Set := mk { isPinching : bool; x : Q; y : Q }.
End PinchState.

Module SwipeState.
Record t : Set := mk {
  isTracking : bool;
  startX : Q;
  startY : Q;
  currentX : Q;
  currentY : Q;
  startTime : Z
}.
Definition set_isTracking (b : bool) (s : t) : t :=
  mk b (startX s) (startY s) (currentX s) (currentY s) (startTime s).
Definition set_current (cx cy : Q) (s : t) : t :=
  mk (isTracking s) (startX s) (startY s) cx cy (startTime s).
End SwipeState.

(** The static drop zone. *)
Module dropZone.
Definition x : Q := 0.5.
Definition y : Q := 0.7.
Definition width : Q := 0.3.
Definition height : Q := 0.2.
End dropZone.

(** Values stored in a fetched or synthesized record. *)
Inductive Value : Set :=
| VNum (q : Q)
| VStr (s : string)
| VBool (b : bool)
| VNull
| VArray (len : nat).   (* an array value; only its [length] is read *)

(** A [ChartDataItem]: own properties in [Object.keys] order. *)
Definition ChartDataItem : Set := list (string * Value).

(** The [chartData] React state. *)
Module ChartData.
Record t : Set := mk {
  tables : list string;
  data : list ChartDataItem;
  isEventsRegistrations : option bool;
  joinType : option string;
  joinTitle : option string;
  joinSubtitle : option string;
  xAxisField : option string;
  yAxisField : option string;
  yAxisLabel : option string
}.
(** [{ tables, data }] with every optional field absent. *)
Definition plain (ts : list string) (d : list ChartDataItem) : t :=
  mk ts d None None None None None None None.
Definition empty : t := plain [] [].
End ChartData.

Inductive ChartAnimationState : Set := entering | visible | exiting | hidden.

Inductive ToastType : Set := info | error.

(** Callbacks handed to [setTimeout]. *)
Inductive TimerAction : Set :=
| ClearToast            (* showToast: setToast(null) after 3000ms *)
| ShowChart             (* generate: showChartWithAnimation() after 500ms *)
| BecomeVisible         (* showChartWithAnimation: "visible" after 800ms *)
| FinishHide.           (* hideChartWithAnimation: reset after 600ms *)

(** The component: its [useRef] cells, its React state, the pending
    timers, the [fetchTableData] calls issued so far and the render
    loop's [lastFrameTime]. *)
Record State : Set := mkState {
  tablesRef : list TableObject.t;
  draggedTableRef : option string;
  droppedTablesRef : list string;
  generateButtonHoverRef : bool;
  buttonClickedRef : bool;
  pinchStateRef : PinchState.t;
  swipeStateRef : SwipeState.t;
  chartAnimationStartRef : Z;
  showChart : bool;
  chartAnimationState : ChartAnimationState;
  chartData : ChartData.t;
  toast : option (string * ToastType);
  timers : list (Z * TimerAction);
  fetchCalls : list (list string);
  lastFrameTime : Q
}.

Definition set_tablesRef v s :=
  mkState v (draggedTableRef s) (droppedTablesRef s)
    (generateButtonHoverRef s) (buttonClickedRef s) (pinchStateRef s)
    (swipeStateRef s) (chartAnimationStartRef s) (showChart s)
    (chartAnimationState s) (chartData s) (toast s) (timers s)
    (fetchCalls s) (lastFrameTime s).
Definition set_draggedTableRef v s :=
  mkState (tablesRef s) v (droppedTablesRef s)
    (generateButtonHoverRef s) (buttonClickedRef s) (pinchStateRef s)
    (swipeStateRef s) (chartAnimationStartRef s) (showChart s)
    (chartAnimationState s) (chartData s) (toast s) (timers s)
    (fetchCalls s) (lastFrameTime s).
Definition set_droppedTablesRef v s :=
  mkState (tablesRef s) (draggedTableRef s) v
    (generateButtonHoverRef s) (buttonClickedRef s) (pinchStateRef s)
    (swipeStateRef s) (chartAnimationStartRef s) (showChart s)
    (chartAnimationState s) (chartData s) (toast s) (timers s)
    (fetchCalls s) (lastFrameTime s).
Definition set_generateButtonHoverRef v s :=
  mkState (tablesRef s) (draggedTableRef s) (droppedTablesRef s)
    v (buttonClickedRef s) (pinchStateRef s)
    (swipeStateRef s) (chartAnimationStartRef s) (showChart s)
    (chartAnimationState s) (chartData s) (toast s) (timers s)
    (fetchCalls s) (lastFrameTime s).
Definition set_buttonClickedRef v s :=
  mkState (tablesRef s) (draggedTableRef s) (droppedTablesRef s)
    (generateButtonHoverRef s) v (pinchStateRef s)
    (swipeStateRef s) (chartAnimationStartRef s) (showChart s)
    (chartAnimationState s) (chartData s) (toast s) (timers s)
    (fetchCalls s) (lastFrameTime s).
Definition set_pinchStateRef v s :=
  mkState (tablesRef s) (draggedTableRef s) (droppedTablesRef s)
    (generateButtonHoverRef s) (buttonClickedRef s) v
    (swipeStateRef s) (chartAnimationStartRef s) (showChart s)
    (chartAnimationState s) (chartData s) (toast s) (timers s)
    (fetchCalls s) (lastFrameTime s).
Definition set_swipeStateRef v s :=
  mkState (tablesRef s) (draggedTableRef s) (droppedTablesRef s)
    (generateButtonHoverRef s) (buttonClickedRef s) (pinchStateRef s)
    v (chartAnimationStartRef s) (showChart s)
    (chartAnimationState s) (chartData s) (toast s) (timers s)
    (fetchCalls s) (lastFrameTime s).
Definition set_chartAnimationStartRef v s :=
  mkState (tablesRef s) (draggedTableRef s) (droppedTablesRef s)
    (generateButtonHoverRef s) (buttonClickedRef s) (pinchStateRef s)
    (swipeStateRef s) v (showChart s)
    (chartAnimationState s) (chartData s) (toast s) (timers s)
    (fetchCalls s) (lastFrameTime s).
Definition set_showChart v s :=
  mkState (tablesRef s) (draggedTableRef s) (droppedTablesRef s)
    (generateButtonHoverRef s) (buttonClickedRef s) (pinchStateRef s)
    (swipeStateRef s) (chartAnimationStartRef s) v
    (chartAnimationState s) (chartData s) (toast s) (timers s)
    (fetchCalls s) (lastFrameTime s).
Definition set_chartAnimationState v s :=
  mkState (tablesRef s) (draggedTableRef s) (droppedTablesRef s)
    (generateButtonHoverRef s) (buttonClickedRef s) (pinchStateRef s)
    (swipeStateRef s) (chartAnimationStartRef s) (showChart s)
    v (chartData s) (toast s) (timers s)
    (fetchCalls s) (lastFrameTime s).
Definition set_chartData v s :=
  mkState (tablesRef s) (draggedTableRef s) (droppedTablesRef s)
    (generateButtonHoverRef s) (buttonClickedRef s) (pinchStateRef s)
    (swipeStateRef s) (chartAnimationStartRef s) (showChart s)
    (chartAnimationState s) v (toast s) (timers s)
    (fetchCalls s) (lastFrameTime s).
Definition set_toast v s :=
  mkState (tablesRef s) (draggedTableRef s) (droppedTablesRef s)
    (generateButtonHoverRef s) (buttonClickedRef s) (pinchStateRef s)
    (swipeStateRef s) (chartAnimationStartRef s) (showChart s)
    (chartAnimationState s) (chartData s) v (timers s)
    (fetchCalls s) (lastFrameTime s).
Definition set_timers v s :=
  mkState (tablesRef s) (draggedTableRef s) (droppedTablesRef s)
    (generateButtonHoverRef s) (buttonClickedRef s) (pinchStateRef s)
    (swipeStateRef s) (chartAnimationStartRef s) (showChart s)
    (chartAnimationState s) (chartData s) (toast s) v
    (fetchCalls s) (lastFrameTime s).
Definition set_fetchCalls v s :=
  mkState (tablesRef s) (draggedTableRef s) (droppedTablesRef s)
    (generateButtonHoverRef s) (buttonClickedRef s) (pinchStateRef s)
    (swipeStateRef s) (chartAnimationStartRef s) (showChart s)
    (chartAnimationState s) (chartData s) (toast s) (timers s)
    v (lastFrameTime s).
Definition set_lastFrameTime v s :=
  mkState (tablesRef s) (draggedTableRef s) (droppedTablesRef s)
    (generateButtonHoverRef s) (buttonClickedRef s) (pinchStateRef s)
    (swipeStateRef s) (chartAnimationStartRef s) (showChart s)
    (chartAnimationState s) (chartData s) (toast s) (timers s)
    (fetchCalls s) v.

(** [setTimeout(cb, ms)] at wall-clock time [now]. *)
Definition setTimeout (now : Z) (cb : TimerAction) (ms : Z) (s : State) : State :=
  set_timers (timers s ++ [((now + ms)%Z, cb)]) s.

(* ================================================================== *)
(** ** Toasts and the chart animation director *)

(** [showToast(message, type)] (lines 302-305). *)
Definition showToast (now : Z) (message : string) (type : ToastType)
    (s : State) : State :=
  setTimeout now ClearToast 3000 (set_toast (Some (message, type)) s).

(** [showChartWithAnimation()] (lines 308-317). *)
Definition showChartWithAnimation (now : Z) (s : State) : State :=
  setTimeout now BecomeVisible 800
    (set_chartAnimationStartRef now
       (set_chartAnimationState entering (set_showChart true s))).

(** [hideChartWithAnimation()] (lines 319-330). *)
Definition hideChartWithAnimation (now : Z) (s : State) : State :=
  setTimeout now FinishHide 600
    (set_chartAnimationStartRef now (set_chartAnimationState exiting s)).

(** The body of each [setTimeout] callback. *)
Definition runTimer (now : Z) (cb : TimerAction) (s : State) : State :=
  match cb with
  | ClearToast => set_toast None s
  | ShowChart => showChartWithAnimation now s
  | BecomeVisible => set_chartAnimationState visible s
  | FinishHide =>
      set_droppedTablesRef []
        (set_chartData ChartData.empty
           (set_chartAnimationState hidden (set_showChart false s)))
  end.

(** The event loop running, at wall-clock time [now], the [k]-th pending
    timer: it runs only once its delay has elapsed, and leaves the queue. *)
Definition fireTimer (now : Z) (k : nat) (s : State) : State :=
  match nth_error (timers s) k with
  | Some (due, cb) =>
      if (due <=? now)%Z
      then runTimer now cb
             (set_timers (firstn k (timers s) ++ skipn (S k) (timers s)) s)
      else s
  | None => s
  end.

(** The [scale] and [opacity] computed by [renderChartView] (lines
    1476-1494) when the animation state is [phase] and [elapsed] is
    [Date.now() - chartAnimationStartRef.current]. *)
Definition chartTransform (phase : ChartAnimationState) (elapsed : Z)
    : Q * Q :=
  match phase with
  | entering =>
      let animationProgress := Math_min (inject_Z elapsed / 800) 1 in
      let eased := 1 - Math_pow (1 - animationProgress) 3 in
      (0.3 + 0.7 * eased, eased)
  | exiting =>
      let animationProgress := Math_min (inject_Z elapsed / 600) 1 in
      let eased := 1 - Math_pow (1 - animationProgress) 2 in
      (1 - 0.7 * eased, 1 - eased)
  | _ => (1, 1)
  end.

Definition renderChartView (now : Z) (s : State) : Q * Q :=
  chartTransform (chartAnimationState s) (now - chartAnimationStartRef s).

(* ================================================================== *)
(** ** The gesture interpreter of [renderLoop] *)

Definition pinchThreshold : Q := 0.05.

(** The thumb-tip / index-tip distance of a hand (lines 2479-2490). *)
Definition pinchDistance (landmarks : Hand) : Root :=
  let thumbTip := landmarks 4%nat in
  let indexTip := landmarks 8%nat in
  Math_sqrt
    (Math_pow (Landmark.x thumbTip - Landmark.x indexTip) 2 +
     Math_pow (Landmark.y thumbTip - Landmark.y indexTip) 2).

Definition isPinchingHand (landmarks : Hand) : bool :=
  root_ltb (pinchDistance landmarks) pinchThreshold.

(** The mirrored pinch centre. *)
Definition pinchCenter (landmarks : Hand) : Q * Q :=
  let thumbTip := landmarks 4%nat in
  let indexTip := landmarks 8%nat in
  (1 - (Landmark.x thumbTip + Landmark.x indexTip) / 2,
   (Landmark.y thumbTip + Landmark.y indexTip) / 2).

(** The hit test of the Generate button at pinch start (lines
    2500-2517). *)
Definition hitsButton (W H pinchX pinchY : Q) : bool :=
  let dropZoneX := dropZone.x * W in
  let dropZoneY := dropZone.y * H in
  let dropZoneWidth := dropZone.width * W in
  let buttonX := (dropZoneX + dropZoneWidth / 2 + 60) / W in
  let buttonY := dropZoneY / H in
  let buttonWidth := 120 / W in
  let buttonHeight := 40 / H in
  let buttonLeft := buttonX - buttonWidth / 2 in
  let buttonRight := buttonX + buttonWidth / 2 in
  let buttonTop := buttonY - buttonHeight / 2 in
  let buttonBottom := buttonY + buttonHeight / 2 in
  geb pinchX buttonLeft && leb pinchX buttonRight &&
  geb pinchY buttonTop && leb pinchY buttonBottom.

(** [for (const table of currentTables) { if (distToTable < tableSize)
    { draggedTableRef.current = table.id; table.isDragging = true; break } }]:
    the tables after the loop and the id assigned, if any. *)
Fixpoint grabTable (pinchX pinchY tableSize : Q) (ts : list TableObject.t)
    : list TableObject.t * option string :=
  match ts with
  | [] => ([], None)
  | table :: rest =>
      let distToTable :=
        Math_sqrt (Math_pow (pinchX - TableObject.x table) 2 +
                   Math_pow (pinchY - TableObject.y table) 2) in
      if root_ltb distToTable tableSize
      then (TableObject.set_isDragging true table :: rest,
            Some (TableObject.id table))
      else let r := grabTable pinchX pinchY tableSize rest in
           (table :: fst r, snd r)
  end.

(** [currentTables.find((t) => t.id === ref)]. *)
Definition findTable (ref : string) (ts : list TableObject.t)
    : option TableObject.t :=
  find (fun t => String.eqb (TableObject.id t) ref) ts.

(** Assignment to fields of the object returned by [find]: the first table
    with that id is replaced by [f] of it. *)
Fixpoint updateTable (ref : string) (f : TableObject.t -> TableObject.t)
    (ts : list TableObject.t) : list TableObject.t :=
  match ts with
  | [] => []
  | t :: rest =>
      if String.eqb (TableObject.id t) ref then f t :: rest
      else t :: updateTable ref f rest
  end.

Definition refId (r : option string) : string :=
  match r with Some s => s | None => EmptyString end.

(** The drop-zone membership test of a released table. *)
Definition inDropZone (tableX tableY : Q) : bool :=
  let dropZoneLeft := dropZone.x - dropZone.width / 2 in
  let dropZoneRight := dropZone.x + dropZone.width / 2 in
  let dropZoneTop := dropZone.y - dropZone.height / 2 in
  let dropZoneBottom := dropZone.y + dropZone.height / 2 in
  geb tableX dropZoneLeft && leb tableX dropZoneRight &&
  geb tableY dropZoneTop && leb tableY dropZoneBottom.

(** Pinch start on the Generate button (lines 2519-2546). *)
Definition pressGenerate (now : Z) (s : State) : State :=
  let s := set_generateButtonHoverRef true s in
  if negb (buttonClickedRef s) then
    let s := set_buttonClickedRef true s in
    if (List.length (droppedTablesRef s) =? 0)%nat then
      showToast now "Please drop at least one table into the drop zone"
        error s
    else
      let s :=
        showToast now
          ("Creating chart with " ++
           string_of_nat (List.length (droppedTablesRef s)) ++ " table(s)")
          info s in
      let s := set_fetchCalls (fetchCalls s ++ [droppedTablesRef s]) s in
      setTimeout now ShowChart 500 s
  else s.

(** Pinch start: the false -> true transition (lines 2498-2575). *)
Definition pinchStart (now : Z) (W H pinchX pinchY : Q) (s : State) : State :=
  let s :=
    if hitsButton W H pinchX pinchY then pressGenerate now s
    else
      let tableSize := 60 / Math_min W H in
      let r := grabTable pinchX pinchY tableSize (tablesRef s) in
      let s := set_tablesRef (fst r) s in
      match snd r with
      | Some tid => set_draggedTableRef (Some tid) s
      | None => s
      end in
  set_pinchStateRef (PinchState.mk true pinchX pinchY) s.

(** The clamped translation of the dragged table (lines 2586-2593). *)
Definition dragBy (deltaX deltaY : Q) (t : TableObject.t) : TableObject.t :=
  TableObject.set_xy
    (Math_max 0.05 (Math_min 0.95 (TableObject.x t + deltaX)))
    (Math_max 0.05 (Math_min 0.95 (TableObject.y t + deltaY))) t.

(** Pinch continues: the dragged table follows the pinch centre (lines
    2577-2601). *)
Definition pinchMove (pinchX pinchY : Q) (s : State) : State :=
  let pinchState := pinchStateRef s in
  let s :=
    if truthy (draggedTableRef s) then
      let deltaX := pinchX - PinchState.x pinchState in
      let deltaY := pinchY - PinchState.y pinchState in
      set_tablesRef
        (updateTable (refId (draggedTableRef s)) (dragBy deltaX deltaY)
           (tablesRef s)) s
    else s in
  set_pinchStateRef (PinchState.mk true pinchX pinchY) s.

(** Pinch release with a hand in view: the true -> false transition
    (lines 2645-2683). *)
Definition pinchRelease (s : State) : State :=
  let s := set_generateButtonHoverRef false s in
  let s := set_buttonClickedRef false s in
  let s :=
    if truthy (draggedTableRef s) then
      let s :=
        match findTable (refId (draggedTableRef s)) (tablesRef s) with
        | Some draggedTable =>
            let s :=
              set_tablesRef
                (updateTable (refId (draggedTableRef s))
                   (TableObject.set_isDragging false) (tablesRef s)) s in
            if inDropZone (TableObject.x draggedTable)
                 (TableObject.y draggedTable)
            then
              if negb (array_includes (droppedTablesRef s)
                         (TableObject.name draggedTable))
              then set_droppedTablesRef
                     (droppedTablesRef s ++ [TableObject.name draggedTable]) s
              else s
            else s
        | None => s
        end in
      set_draggedTableRef None s
    else s in
  set_pinchStateRef (PinchState.mk false 0 0) s.

(** No hands in the frame while a pinch was in progress (lines
    2685-2698). *)
Definition handsLost (s : State) : State :=
  let s := set_generateButtonHoverRef false s in
  let s :=
    if truthy (draggedTableRef s) then
      let s :=
        match findTable (refId (draggedTableRef s)) (tablesRef s) with
        | Some _ =>
            set_tablesRef
              (updateTable (refId (draggedTableRef s))
                 (TableObject.set_isDragging false) (tablesRef s)) s
        | None => s
        end in
      set_draggedTableRef None s
    else s in
  set_pinchStateRef (PinchState.mk false 0 0) s.

(** The body of the loop over [results.multiHandLandmarks] (lines
    2400-2684; the drawing is left out). *)
Definition processHand (now : Z) (W H : Q) (s : State) (landmarks : Hand)
    : State :=
  let isPinching := isPinchingHand landmarks in
  let pinchState := pinchStateRef s in
  if isPinching then
    let pinchX := fst (pinchCenter landmarks) in
    let pinchY := snd (pinchCenter landmarks) in
    if negb (PinchState.isPinching pinchState)
    then pinchStart now W H pinchX pinchY s
    else pinchMove pinchX pinchY s
  else if PinchState.isPinching pinchState then pinchRelease s
  else s.

(** "Process hand landmarks if available": the scene branch of a tick. *)
Definition processLandmarks (now : Z) (W H : Q) (results : Results)
    (s : State) : State :=
  match results with
  | Some (hand :: hands) => fold_left (processHand now W H) (hand :: hands) s
  | _ => if PinchState.isPinching (pinchStateRef s) then handsLost s else s
  end.

(** Swipe detection on the first hand while the chart is showing (lines
    1984-2057); the boolean tells whether [hideChartWithAnimation] was
    invoked. *)
Definition detectSwipe (now : Z) (s : State) (landmarks : Hand)
    : State * bool :=
  let indexTip := landmarks 8%nat in
  let currentTime := now in
  let indexExtended :=
    ltb (Landmark.y indexTip) (Landmark.y (landmarks 6%nat)) in
  if indexExtended then
    let currentX := 1 - Landmark.x indexTip in
    let currentY := Landmark.y indexTip in
    if negb (SwipeState.isTracking (swipeStateRef s)) then
      (set_swipeStateRef
         (SwipeState.mk true currentX currentY currentX currentY currentTime)
         s, false)
    else
      let s :=
        set_swipeStateRef
          (SwipeState.set_current currentX currentY (swipeStateRef s)) s in
      let deltaX := currentX - SwipeState.startX (swipeStateRef s) in
      let deltaY :=
        Math_abs (currentY - SwipeState.startY (swipeStateRef s)) in
      let timeElapsed :=
        (currentTime - SwipeState.startTime (swipeStateRef s))%Z in
      if gtb (Math_abs deltaX) 0.3 && ltb deltaY 0.2
         && (timeElapsed <? 1000)%Z
      then
        let s := hideChartWithAnimation now s in
        (set_swipeStateRef
           (SwipeState.set_isTracking false (swipeStateRef s)) s, true)
      else if (timeElapsed >? 1000)%Z then
        (set_swipeStateRef
           (SwipeState.set_isTracking false (swipeStateRef s)) s, false)
      else (s, false)
  else
    (set_swipeStateRef (SwipeState.set_isTracking false (swipeStateRef s)) s,
     false).

(** The chart branch of a tick. *)
Definition processSwipe (now : Z) (results : Results) (s : State)
    : State * bool :=
  match results with
  | Some (landmarks :: _) => detectSwipe now s landmarks
  | _ => (s, false)
  end.

Definition targetFPS : Q := 30.
Definition frameInterval : Q := 1000 / targetFPS.

(** One call of [renderLoop(currentTime)] (lines 1921-2702): [now] is
    [Date.now()], [W], [H] the canvas size and [results] the content of
    [handResultsRef].  The loop reads [showChart] as of the latest render
    of the component. *)
Definition renderLoop (currentTime : Q) (now : Z) (W H : Q)
    (results : Results) (s : State) : State :=
  if ltb (currentTime - lastFrameTime s) frameInterval then s
  else
    let s := set_lastFrameTime currentTime s in
    if showChart s then fst (processSwipe now results s)
    else processLandmarks now W H results s.


(* ================================================================== *)
(** ** Start-up and the event loop *)

(** The table objects built once at start-up, laid out along the top row
    (lines 1844-1865). *)
Fixpoint tableObjectsFrom (now : Z) (index : nat) (displayTables : list string)
    : list TableObject.t :=
  match displayTables with
  | [] => []
  | tableName :: rest =>
      TableObject.mk
        (tableName ++ "-" ++ string_of_nat (Z.to_nat now) ++ "-" ++
         string_of_nat index)
        tableName
        (0.1 + inject_Z (Z.of_nat index) * 0.15)
        0.1
        false
      :: tableObjectsFrom now (S index) rest
  end.

Definition initTables (now : Z) (availableTables : list string)
    : list TableObject.t :=
  let displayTables :=
    if (0 <? List.length availableTables)%nat then availableTables
    else ["users"; "posts"; "comments"; "products"]%string in
  tableObjectsFrom now 0 displayTables.

(** The component right after the tables were initialised. *)
Definition initialState (now : Z) (availableTables : list string) : State :=
  mkState (initTables now availableTables) None [] false false
    (PinchState.mk false 0 0) (SwipeState.mk false 0 0 0 0 0)
    0 false hidden ChartData.empty None [] [] 0.

(** What can happen to the component: a call of [renderLoop], a pending
    timer running, [fetchTableData] delivering its dataset through
    [setChartData], and the camera effect being set up again after a state
    change (which starts a new render loop with [lastFrameTime = 0]). *)
Inductive Event : Set :=
| Frame (currentTime : Q) (now : Z) (W H : Q) (results : Results)
| TimerFires (now : Z) (k : nat)
| DataLoaded (d : ChartData.t)
| EffectRestarts.

Definition step (s : State) (e : Event) : State :=
  match e with
  | Frame currentTime now W H results =>
      renderLoop currentTime now W H results s
  | TimerFires now k => fireTimer now k s
  | DataLoaded d => set_chartData d s
  | EffectRestarts => set_lastFrameTime 0 s
  end.

Definition run (es : list Event) (s : State) : State := fold_left step es s.

(** The region the drag clamp confines a table to. *)
Definition inVisibleArea (t : TableObject.t) : Prop :=
  (0.05 <= TableObject.x t /\ TableObject.x t <= 0.95) /\
  (0.05 <= TableObject.y t /\ TableObject.y t <= 0.95).

(** Same place on the canvas. *)
Definition samePosition (a b : TableObject.t) : Prop :=
  TableObject.x a = TableObject.x b /\ TableObject.y a = TableObject.y b.

(** The hands of a detector result. *)
Definition handsOf (results : Results) : list Hand :=
  match results with
  | Some hands => hands
  | None => []
  end.

(** What a pinch release is allowed to change in the tables and the
    dropped tables: nothing, or the [isDragging] flag of the one table the
    drag reference names, with that table's name possibly appended to the
    dropped tables. *)
Definition releaseFrame (s s' : State) : Prop :=
  (tablesRef s' = tablesRef s /\ droppedTablesRef s' = droppedTablesRef s) \/
  (exists before t after,
      tablesRef s = before ++ t :: after /\
      draggedTableRef s = Some (TableObject.id t) /\
      tablesRef s' = before ++ TableObject.set_isDragging false t :: after /\
      (droppedTablesRef s' = droppedTablesRef s \/
       droppedTablesRef s' = droppedTablesRef s ++ [TableObject.name t])).

(** Everything outside the gesture interpreter's own cells is as before:
    swipe state, chart state and data, toast, timers and fetch calls. *)
Definition sameOutsideInterpreter (s s' : State) : Prop :=
  swipeStateRef s' = swipeStateRef s /\
  chartAnimationStartRef s' = chartAnimationStartRef s /\
  showChart s' = showChart s /\
  chartAnimationState s' = chartAnimationState s /\
  chartData s' = chartData s /\
  toast s' = toast s /\
  timers s' = timers s /\
  fetchCalls s' = fetchCalls s /\
  lastFrameTime s' = lastFrameTime s.

(** The successive values of [pinchStateRef.current.isPinching] during the
    loop over the hands of one tick. *)
Fixpoint flagsDuring (now : Z) (W H : Q) (s : State) (hands : list Hand)
    : list bool :=
  match hands with
  | [] => []
  | landmarks :: rest =>
      let s' := processHand now W H s landmarks in
      PinchState.isPinching (pinchStateRef s')
      :: flagsDuring now W H s' rest
  end.

(** How often a flag changes value along [values], starting from [b]. *)
Fixpoint changes (b : bool) (values : list bool) : nat :=
  match values with
  | [] => 0
  | c :: rest => (if Bool.eqb b c then 0 else 1) + changes c rest
  end.

(** ** Sample frames *)

(** A hand whose thumb tip and index tip both sit at [(px, py)] (a closed
    pinch), with the index PIP joint below the tip. *)
Definition pinchedHandAt (px py : Q) : Hand :=
  fun i =>
    match i with
    | 6%nat => Landmark.mk px (py + 0.05)
    | _ => Landmark.mk px py
    end.

(** An open hand: thumb tip and index tip far apart, index finger raised. *)
Definition openHand : Hand :=
  fun i =>
    match i with
    | 4%nat => Landmark.mk 0.2 0.5
    | 6%nat => Landmark.mk 0.3 0.5
    | 8%nat => Landmark.mk 0.3 0.4
    | _ => Landmark.mk 0.25 0.6
    end.

(** A hand with the index finger raised, its tip at [(px, py)]. *)
Definition pointingHandAt (px py : Q) : Hand :=
  fun i =>
    match i with
    | 4%nat => Landmark.mk (px + 0.2) (py + 0.2)
    | 6%nat => Landmark.mk px (py + 0.1)
    | _ => Landmark.mk px py
    end.

(** ** Sample runs *)

(** The default tables on a 1280x720 canvas; the table "users" sits at
    (0.1, 0.1). *)
Definition freshState : State := initialState 0 [].

(** A hand pinches "users" (mirrored x: 1 - 0.9 = 0.1) and carries it to
    the centre of the drop zone (0.5, 0.7), still pinching. *)
Definition carryUsersToDropZone : list Event :=
  [ Frame 100 100 1280 720 (Some [pinchedHandAt 0.9 0.1]);
    Frame 200 200 1280 720 (Some [pinchedHandAt 0.5 0.7]) ].

Definition draggingState : State := run carryUsersToDropZone freshState.

(** The same table dropped, picked up again and dropped again. *)
Definition dropUsersTwice : list Event :=
  carryUsersToDropZone ++
  [ Frame 300 300 1280 720 (Some [openHand]);
    Frame 400 400 1280 720 (Some [pinchedHandAt 0.5 0.7]);
    Frame 500 500 1280 720 (Some [openHand]) ].

(** A pinch on the Generate button (centre x = 0.696875, y = 0.7). *)
Definition pinchGenerate : Event :=
  Frame 100 100 1280 720 (Some [pinchedHandAt 0.303125 0.7]).

(* ================================================================== *)
(** ** The data-join engine *)

(** *** Records *)

(** [item[key]]; [None] is [undefined]. *)
Fixpoint getField (key : string) (item : ChartDataItem) : option Value :=
  match item with
  | [] => None
  | (k, v) :: rest => if String.eqb k key then Some v else getField key rest
  end.

(** [{ ...item, key: v }]: an existing key keeps its place. *)
Fixpoint setField (key : string) (v : Value) (item : ChartDataItem)
    : ChartDataItem :=
  match item with
  | [] => [(key, v)]
  | (k, w) :: rest =>
      if String.eqb k key then (k, v) :: rest
      else (k, w) :: setField key v rest
  end.

Definition Object_keys (item : ChartDataItem) : list string := map fst item.

(** [item._table === table]. *)
Definition fromTable (table : string) (item : ChartDataItem) : bool :=
  match getField "_table" item with
  | Some (VStr t) => String.eqb t table
  | _ => false
  end.

(** Truthiness of a possibly-undefined value. *)
Definition truthyValue (v : option Value) : bool :=
  match v with
  | Some (VNum q) => negb (Qeq_bool q 0)
  | Some (VStr s) => negb (String.eqb s EmptyString)
  | Some (VBool b) => b
  | Some (VArray _) => true
  | Some VNull | None => false
  end.

(** [a || b] on possibly-undefined values. *)
Definition orElse (a b : option Value) : option Value :=
  if truthyValue a then a else b.

(** Key equality of a [Map] (SameValueZero). *)
Definition sameValue (a b : option Value) : bool :=
  match a, b with
  | None, None => true
  | Some (VNum p), Some (VNum q) => Qeq_bool p q
  | Some (VStr s), Some (VStr t) => String.eqb s t
  | Some (VBool x), Some (VBool y) => Bool.eqb x y
  | Some VNull, Some VNull => true
  | _, _ => false
  end.

(** The columns of a record set: the keys of its first record that do not
    start with the table-tag marker. *)
Definition columnsOf (rows : list ChartDataItem) : list string :=
  filter (fun key => negb (startsWith key "_")) (Object_keys (hd [] rows)).

(** *** Relationship detection *)

Module Detected.
Record t : Set := mk {
  foreignKey : string;
  referencingTable : string;
  referencedTable : string;
  referencingData : list ChartDataItem;
  referencedData : list ChartDataItem
}.
End Detected.

(** The test applied to a column [col] when looking for a reference to
    [table]. *)
Definition refersTo (table col : string) : bool :=
  includes (toLowerCase col) (toLowerCase table) ||
  String.eqb (toLowerCase col) (toLowerCase table ++ "_id") ||
  String.eqb (toLowerCase col) (toLowerCase table ++ "id").

Definition isEmptyString (s : string) : bool := String.eqb s EmptyString.

(** [detectTableRelationships] (lines 530-602). *)
Definition detectTableRelationships (tableNames : list string)
    (allData : list ChartDataItem) : option Detected.t :=
  match tableNames with
  | [table1; table2] =>
      let table1Data := filter (fromTable table1) allData in
      let table2Data := filter (fromTable table2) allData in
      if (List.length table1Data =? 0)%nat || (List.length table2Data =? 0)%nat
      then None
      else
        let table1Columns := columnsOf table1Data in
        let table2Columns := columnsOf table2Data in
        let table2RefColumns := filter (refersTo table2) table1Columns in
        let found :=
          match table2RefColumns with
          | c :: _ => Some (c, table1, table2)
          | [] =>
              let table1RefColumns :=
                filter (refersTo table1) table2Columns in
              match table1RefColumns with
              | c :: _ => Some (c, table2, table1)
              | [] => None
              end
          end in
        match found with
        | Some (foreignKey, referencingTable, referencedTable) =>
            if isEmptyString foreignKey || isEmptyString referencingTable
               || isEmptyString referencedTable
            then None
            else
              Some (Detected.mk foreignKey referencingTable referencedTable
                      (if String.eqb referencingTable table1
                       then table1Data else table2Data)
                      (if String.eqb referencedTable table1
                       then table1Data else table2Data))
        | None => None
        end
  | _ => None
  end.

(** *** Best x-axis field *)

Definition dateFields : list string :=
  ["created"; "createdAt"; "created_at"; "updatedAt"; "updated_at"; "date";
   "timestamp"]%string.

(** [getBestXAxisField] (lines 344-380). *)
Definition getBestXAxisField (data : list ChartDataItem) : string :=
  match data with
  | [] => "id"
  | sampleItem :: _ =>
      let fields :=
        filter (fun key => negb (startsWith key "_")) (Object_keys sampleItem) in
      match find (fun field => array_includes fields field) dateFields with
      | Some field => field
      | None =>
          match find (fun f => includes (toLowerCase f) "title") fields with
          | Some titleField => titleField
          | None =>
              match find (fun f => includes (toLowerCase f) "name") fields with
              | Some nameField => nameField
              | None =>
                  if array_includes fields "id" then "id"
                  else match fields with
                       | f :: _ => if isEmptyString f then "id" else f
                       | [] => "id"
                       end
              end
          end
      end
  end.

(** *** The outside world of one fetch *)

(** What awaiting [supabase.from(table).select(columns)] yields: the
    promise rejects, or it resolves to [{ data, error }]. *)
Inductive Response : Set :=
| Rejected
| Reply (data : option (list ChartDataItem)) (error : bool).

(** The four places that await [import("../lib/supabase")]. *)
Inductive ImportSite : Set :=
| AtEventsJoin        (* fetchEventsRegistrationsData *)
| AtEventsSeparate    (* fetchSeparateEventsRegistrations *)
| AtJoinQuery         (* createJoinQuery *)
| AtGenericFetch.     (* fetchTableData *)

(** Everything a fetch reads from outside: whether each dynamic import
    resolves, the reply to each query (the column list is written without
    the template literal's white space), and the successive results of
    [Math.random()]. *)
Record World : Set := mkWorld {
  importSupabase : ImportSite -> bool;
  select : string -> string -> Response;
  random : nat -> Q
}.

(** The schema relationships reported by [useSupabaseTables]. *)
Module Rel.
Record t : Set := mk {
  table1 : string;
  table2 : string;
  referencingTable : string;
  referencedTable : string;
  foreignKey : string
}.
End Rel.

(** An awaited computation either returns or throws. *)
Inductive Outcome (A : Type) : Type :=
| Returned (a : A)
| Thrown.
Arguments Returned {A} a.
Arguments Thrown {A}.

Definition bind {A B : Type} (m : Outcome A) (k : A -> Outcome B)
    : Outcome B :=
  match m with
  | Returned a => k a
  | Thrown => Thrown
  end.

Notation "x <- m ;; k" := (bind m (fun x => k))
  (at level 61, m at next level, right associativity).

(** [try { body } catch { handler }]. *)
Definition try_catch {A : Type} (body handler : Outcome A) : Outcome A :=
  match body with
  | Returned a => Returned a
  | Thrown => handler
  end.

Definition awaitImport (w : World) (site : ImportSite) : Outcome unit :=
  if importSupabase w site then Returned tt else Thrown.

Definition awaitSelect (w : World) (table columns : string)
    : Outcome (option (list ChartDataItem) * bool) :=
  match select w table columns with
  | Rejected => Thrown
  | Reply data err => Returned (data, err)
  end.

(** *** Maps keyed by a record value, in insertion order *)

Definition JsMap : Set := list (option Value * ChartDataItem).

Definition mapHas (key : option Value) (m : JsMap) : bool :=
  existsb (fun e => sameValue (fst e) key) m.

(** [m.set(key, v)]: an existing key keeps its place. *)
Fixpoint mapSet (key : option Value) (v : ChartDataItem) (m : JsMap) : JsMap :=
  match m with
  | [] => [(key, v)]
  | (k, old) :: rest =>
      if sameValue k key then (k, v) :: rest
      else (k, old) :: mapSet key v rest
  end.

(** Mutation of the object [m.get(key)] returns. *)
Fixpoint mapAdjust (key : option Value) (f : ChartDataItem -> ChartDataItem)
    (m : JsMap) : JsMap :=
  match m with
  | [] => []
  | (k, v) :: rest =>
      if sameValue k key then (k, f v) :: rest
      else (k, v) :: mapAdjust key f rest
  end.

Definition mapValues (m : JsMap) : list ChartDataItem := map snd m.

(** [item.key++] on a numeric field. *)
Definition increment (key : string) (item : ChartDataItem) : ChartDataItem :=
  match getField key item with
  | Some (VNum q) => setField key (VNum (q + 1)) item
  | _ => item
  end.

(** The value [createJoinQuery] resolves to. *)
Module JoinResult.
Record t : Set := mk {
  type : string;
  title : string;
  subtitle : string;
  data : list ChartDataItem;
  xAxisField : string;
  yAxisField : string;
  yAxisLabel : string
}.
End JoinResult.

(** *** The fetch functions *)

Section Fetch.

(** JavaScript's [Number(v)] ([None] is NaN) and the string a value
    renders as inside a template literal, for values that are not already
    a number, respectively a string. *)
Variable ToNumber : option Value -> option Q.
Variable ToString : option Value -> string.

Variable relationships : list Rel.t.
Variable w : World.

(** [Number(v) || 0]. *)
Definition numberOr0 (v : option Value) : Q :=
  match v with
  | Some (VNum q) => q
  | _ => match ToNumber v with Some q => q | None => 0 end
  end.

Definition render (v : option Value) : string :=
  match v with
  | Some (VStr s) => s
  | _ => ToString v
  end.

(** [findSchemaRelationship] (lines 333-341). *)
Definition findSchemaRelationship (table1 table2 : string) : option Rel.t :=
  find
    (fun rel =>
       (String.eqb (toLowerCase (Rel.table1 rel)) (toLowerCase table1) &&
        String.eqb (toLowerCase (Rel.table2 rel)) (toLowerCase table2)) ||
       (String.eqb (toLowerCase (Rel.table1 rel)) (toLowerCase table2) &&
        String.eqb (toLowerCase (Rel.table2 rel)) (toLowerCase table1)))
    relationships.

(** The rows of [data.map(...)] in the first two join strategies:
    [{ ...row, id: <numeric id>, <counter>: 0, _table: referencedTable }]. *)
Definition joinRow (counter referencedTable : string) (row : ChartDataItem)
    : ChartDataItem :=
  setField "_table" (VStr referencedTable)
    (setField counter (VNum 0)
       (setField "id" (VNum (numberOr0 (getField "id" row))) row)).

(** Strategy 3 of [createJoinQuery]: group the referencing rows by the
    value of their foreign key and count them. *)
Definition countReference (referencingTable foreignKey : string)
    (counts : JsMap) (item : ChartDataItem) : JsMap :=
  let referencedItemId := getField foreignKey item in
  if truthyValue referencedItemId then
    let key := referencedItemId in
    let displayName :=
      (referencingTable ++ " " ++ render referencedItemId)%string in
    let counts :=
      if negb (mapHas key counts) then
        mapSet key
          [("id"%string, VNum (numberOr0 referencedItemId));
           ("name"%string, VStr displayName);
           ("count"%string, VNum 0);
           ("_table"%string, VStr referencingTable)]
          counts
      else counts in
    mapAdjust key (increment "count") counts
  else counts.

(** [!error && data]. *)
Definition usable (reply : option (list ChartDataItem) * bool)
    : option (list ChartDataItem) :=
  if snd reply then None else fst reply.

(** [createJoinQuery] (lines 383-527). *)
Definition createJoinQuery (tableNames : list string)
    : Outcome (option JoinResult.t) :=
  match tableNames with
  | [table1; table2] =>
      match findSchemaRelationship table1 table2 with
      | None => Returned None
      | Some relationship =>
          let referencingTable := Rel.referencingTable relationship in
          let referencedTable := Rel.referencedTable relationship in
          let foreignKey := Rel.foreignKey relationship in
          try_catch
            (_ <- awaitImport w AtJoinQuery ;;
             userActivity <-
               (if includes (toLowerCase referencedTable) "user" ||
                   includes (toLowerCase referencedTable) "customer"
                then
                  reply <- awaitSelect w referencedTable
                    "id,name,email,title,created,createdAt,created_at,date" ;;
                  match usable reply with
                  | Some data =>
                      let processedData :=
                        map (joinRow "activity_count" referencedTable) data in
                      Returned
                        (Some
                           (JoinResult.mk "user_activity"
                              (toUpperCase referencedTable ++ " ACTIVITY")
                              (referencingTable ++ " per " ++ referencedTable)
                              processedData
                              (getBestXAxisField processedData)
                              "activity_count"
                              (toUpperCase referencingTable)))
                  | None => Returned None
                  end
                else Returned None) ;;
             match userActivity with
             | Some result => Returned (Some result)
             | None =>
             categoryDistribution <-
               (if includes (toLowerCase referencedTable) "categor" ||
                   includes (toLowerCase referencingTable) "product" ||
                   includes (toLowerCase referencingTable) "item"
                then
                  reply <- awaitSelect w referencedTable
                    "id,name,title,created,createdAt,created_at,date" ;;
                  match usable reply with
                  | Some data =>
                      let processedData :=
                        map (joinRow "item_count" referencedTable) data in
                      Returned
                        (Some
                           (JoinResult.mk "category_distribution"
                              "CATEGORY DISTRIBUTION"
                              (referencingTable ++ " per " ++ referencedTable)
                              processedData
                              (getBestXAxisField processedData)
                              "item_count"
                              (toUpperCase referencingTable)))
                  | None => Returned None
                  end
                else Returned None) ;;
             match categoryDistribution with
             | Some result => Returned (Some result)
             | None =>
             reply <- awaitSelect w referencingTable foreignKey ;;
             match usable reply with
             | Some data =>
                 let counts :=
                   fold_left (countReference referencingTable foreignKey)
                     data [] in
                 let processedData := mapValues counts in
                 Returned
                   (Some
                      (JoinResult.mk "relationship_count"
                         "RELATIONSHIP ANALYSIS"
                         (referencingTable ++ " → " ++ referencedTable)
                         processedData
                         (getBestXAxisField processedData)
                         "count"
                         "COUNT"))
             | None => Returned None
             end
             end
             end)
            (Returned None)
      end
  | _ => Returned None
  end.

(** [{ tables: ["events", "registrations"], data, isEventsRegistrations:
    true }]. *)
Definition eventsChart (data : list ChartDataItem) : ChartData.t :=
  ChartData.mk ["events"; "registrations"]%string data (Some true)
    None None None None None None.

(** The [i]-th of the 8 demo events; its count is the [i]-th random
    draw. *)
Definition demoEvent (i : nat) : ChartDataItem :=
  [("id"%string, VNum (inject_Z (Z.of_nat (i + 1))));
   ("title"%string, VStr ("Event " ++ string_of_nat (i + 1)));
   ("name"%string, VStr ("Conference " ++ string_of_nat (i + 1)));
   ("registration_count"%string,
    VNum (inject_Z (Math_floor (random w i * 50) + 5)));
   ("_table"%string, VStr "events")].

Definition demoEvents : list ChartDataItem := map demoEvent (seq 0 8).

(** [registration.event_id || registration.eventId ||
    registration.events_id]. *)
Definition registrationEventId (registration : ChartDataItem)
    : option Value :=
  orElse (orElse (getField "event_id" registration)
                 (getField "eventId" registration))
         (getField "events_id" registration).

Definition countRegistration (eventCounts : JsMap)
    (registration : ChartDataItem) : JsMap :=
  let eventId := registrationEventId registration in
  if truthyValue eventId && mapHas eventId eventCounts
  then mapAdjust eventId (increment "registration_count") eventCounts
  else eventCounts.

Definition orEmpty (data : option (list ChartDataItem))
    : list ChartDataItem :=
  match data with Some rows => rows | None => [] end.

(** [fetchSeparateEventsRegistrations] (lines 645-712). *)
Definition fetchSeparateEventsRegistrations : Outcome ChartData.t :=
  try_catch
    (_ <- awaitImport w AtEventsSeparate ;;
     eventsReply <- awaitSelect w "events" "*" ;;
     registrationsReply <- awaitSelect w "registrations" "*" ;;
     if snd eventsReply || snd registrationsReply then Thrown
     else
       let eventCounts :=
         fold_left
           (fun m event =>
              mapSet (getField "id" event)
                (setField "registration_count" (VNum 0) event) m)
           (orEmpty (fst eventsReply)) [] in
       let eventCounts :=
         fold_left countRegistration (orEmpty (fst registrationsReply))
           eventCounts in
       let eventsWithCounts :=
         map (setField "_table" (VStr "events")) (mapValues eventCounts) in
       Returned (eventsChart eventsWithCounts))
    (Returned (eventsChart demoEvents)).

(** [event.registrations?.length || 0]. *)
Definition lengthOr0 (v : option Value) : Q :=
  match v with
  | Some (VArray n) => inject_Z (Z.of_nat n)
  | Some (VStr s) => inject_Z (Z.of_nat (String.length s))
  | _ => 0
  end.

(** [fetchEventsRegistrationsData] (lines 605-642). *)
Definition fetchEventsRegistrationsData : Outcome ChartData.t :=
  try_catch
    (_ <- awaitImport w AtEventsJoin ;;
     reply <- awaitSelect w "events"
       "id,title,name,registrations:registrations(count)" ;;
     if snd reply then fetchSeparateEventsRegistrations
     else
       let eventsWithCounts :=
         map (fun event =>
                setField "_table" (VStr "events")
                  (setField "registration_count"
                     (VNum (lengthOr0 (getField "registrations" event)))
                     event))
             (orEmpty (fst reply)) in
       Returned (eventsChart eventsWithCounts))
    fetchSeparateEventsRegistrations.

(** One demo row; [k] counts the random draws made so far. *)
Definition demoRecord (tableNames : list string) (table : string)
    (tableIndex i k : nat) : ChartDataItem * nat :=
  let baseRecord :=
    [("id"%string, VNum (inject_Z (Z.of_nat (i + 1))));
     ("value"%string, VNum (random w k * 100));
     ("name"%string, VStr (table ++ " Item " ++ string_of_nat (i + 1)));
     ("title"%string, VStr (table ++ " Title " ++ string_of_nat (i + 1)));
     ("_table"%string, VStr table)] in
  if (List.length tableNames =? 2)%nat && (tableIndex =? 1)%nat then
    let foreignKeyField := (nth 0 tableNames EmptyString ++ "_id")%string in
    (setField foreignKeyField
       (VNum (inject_Z (Math_floor (random w (k + 1) * 5) + 1)))
       baseRecord,
     (k + 2)%nat)
  else (baseRecord, (k + 1)%nat).

(** [Array.from({ length: n }, (_, i) => ...)], continuing at index [i]. *)
Fixpoint demoRecordsFrom (tableNames : list string) (table : string)
    (tableIndex i n k : nat) : list ChartDataItem * nat :=
  match n with
  | O => ([], k)
  | S n' =>
      let r := demoRecord tableNames table tableIndex i k in
      let rest :=
        demoRecordsFrom tableNames table tableIndex (S i) n' (snd r) in
      (fst r :: fst rest, snd rest)
  end.

(** [tableNames.flatMap((table, tableIndex) => ...)] over the tables from
    [tableIndex] on. *)
Fixpoint demoDataFrom (tableNames tables : list string)
    (tableIndex k : nat) : list ChartDataItem :=
  match tables with
  | [] => []
  | table :: rest =>
      let r := demoRecordsFrom tableNames table tableIndex 0 5 k in
      fst r ++ demoDataFrom tableNames rest (S tableIndex) (snd r)
  end.

Definition demoData (tableNames : list string) : list ChartDataItem :=
  demoDataFrom tableNames tableNames 0 0.

(** One iteration of the loop over table names in the generic fetch. *)
Definition fetchInto (allData : list ChartDataItem) (tableName : string)
    : list ChartDataItem :=
  match awaitSelect w tableName "*" with
  | Thrown => allData
  | Returned (data, err) =>
      if err then allData
      else
        match data with
        | Some rows =>
            if (0 <? List.length rows)%nat
            then allData ++ map (setField "_table" (VStr tableName)) rows
            else allData
        | None => allData
        end
  end.

(** [fetchTableData] (lines 715-801): the dataset it hands to
    [setChartData], or the exception it lets escape. *)
Definition fetchTableData (tableNames : list string) : Outcome ChartData.t :=
  let hasEvents :=
    existsb (fun name => includes (toLowerCase name) "event") tableNames in
  let hasRegistrations :=
    existsb (fun name => includes (toLowerCase name) "registration")
      tableNames in
  if hasEvents && hasRegistrations && (List.length tableNames =? 2)%nat
  then fetchEventsRegistrationsData
  else
    joinResult <-
      (if (List.length tableNames =? 2)%nat
          && (0 <? List.length relationships)%nat
       then createJoinQuery tableNames
       else Returned None) ;;
    match joinResult with
    | Some j =>
        Returned
          (ChartData.mk tableNames (JoinResult.data j) None
             (Some (JoinResult.type j)) (Some (JoinResult.title j))
             (Some (JoinResult.subtitle j)) (Some (JoinResult.xAxisField j))
             (Some (JoinResult.yAxisField j))
             (Some (JoinResult.yAxisLabel j)))
    | None =>
        try_catch
          (_ <- awaitImport w AtGenericFetch ;;
           let allData := fold_left fetchInto tableNames [] in
           Returned (ChartData.plain tableNames allData))
          (Returned (ChartData.plain tableNames (demoData tableNames)))
    end.

End Fetch.

(** ** Sample data *)

(** A "posts" record that references "users" through [users_id]. *)
Definition postsRow : ChartDataItem :=
  [("id", VNum 10); ("title", VStr "Hello"); ("users_id", VNum 1);
   ("_table", VStr "posts")]%string.

(** A "users" record. *)
Definition usersRow : ChartDataItem :=
  [("id", VNum 1); ("name", VStr "Ada"); ("_table", VStr "users")]%string.

(** A "users" record that also carries a denormalised counter. *)
Definition usersRowWithCounter : ChartDataItem :=
  [("id", VNum 1); ("name", VStr "Ada"); ("posts_count", VNum 2);
   ("_table", VStr "users")]%string.

(** The three fields of a detected relationship the chart relies on. *)
Definition relationshipTuple (d : Detected.t) : string * string * string :=
  (Detected.referencingTable d, Detected.referencedTable d,
   Detected.foreignKey d).

(** ** Failure of a fetch, and sample worlds *)

(** The branch test of [fetchTableData] for the events + registrations
    pair. *)
Definition isEventsPair (tableNames : list string) : bool :=
  existsb (fun name => includes (toLowerCase name) "event") tableNames &&
  existsb (fun name => includes (toLowerCase name) "registration") tableNames
  && (List.length tableNames =? 2)%nat.

(** A query fails: its promise rejects, or it resolves with an error. *)
Definition queryFails (w : World) (table columns : string) : Prop :=
  select w table columns = Rejected \/
  exists data, select w table columns = Reply data true.

(** The single join query of the events path fails. *)
Definition eventsJoinFails (w : World) : Prop :=
  importSupabase w AtEventsJoin = false \/
  queryFails w "events" "id,title,name,registrations:registrations(count)".

(** The two separate queries of the events path fail. *)
Definition eventsSeparateFails (w : World) : Prop :=
  importSupabase w AtEventsSeparate = false \/
  queryFails w "events" "*" \/ queryFails w "registrations" "*".

(** [Math.random()] yields numbers in [0, 1). *)
Definition randomInUnitInterval (w : World) : Prop :=
  forall n, 0 <= random w n /\ random w n < 1.

(** The fields of a demo row before any foreign key is added. *)
Definition baseKeys : list string :=
  ["id"; "value"; "name"; "title"; "_table"]%string.

(** The numeric value of a field, if it has one. *)
Definition numField (key : string) (item : ChartDataItem) : option Q :=
  match getField key item with
  | Some (VNum q) => Some q
  | _ => None
  end.

(** The data client loads, and every query resolves with an error. *)
Definition erroringWorld : World :=
  mkWorld (fun _ => true) (fun _ _ => Reply None true) (fun _ => 0.5).

(** The data client cannot be loaded. *)
Definition offlineWorld : World :=
  mkWorld (fun _ => false) (fun _ _ => Rejected)
    (fun n => inject_Z (Z.of_nat (n mod 10)) / 10).

(** Conversions that are never reached by the sample fetches. *)
Definition noNumber (_ : option Value) : option Q := None.
Definition noString (_ : option Value) : string := EmptyString.

(* ================================================================== *)
(** ** Vocabulary for the properties of the data functions *)

(** The keys of a record that do not start with the table-tag marker. *)
Definition visibleKeys (sample : ChartDataItem) : list string :=
  filter (fun key => negb (startsWith key "_")) (Object_keys sample).

(** A key whose lower-cased name contains [word]. *)
Definition mentions (word key : string) : bool :=
  includes (toLowerCase key) word.

(** A value that is not an array (a number, a string, a boolean, null or
    undefined): as a [Map] key it is found again by value. *)
Definition scalarValue (v : option Value) : bool :=
  match v with
  | Some (VArray _) => false
  | _ => true
  end.

(** The sum of a numeric field over a list of records. *)
Definition sumField (key : string) (rows : list ChartDataItem) : Q :=
  fold_right
    (fun row acc =>
       match numField key row with
       | Some q => q + acc
       | None => acc
       end)
    0 rows.

(** The number of elements, as a JavaScript number. *)
Definition count {A : Type} (l : list A) : Q :=
  inject_Z (Z.of_nat (List.length l)).

(** A group of strategy 3 as the chart reads it: a positive numeric
    [count], tagged with the table it was counted from. *)
Definition countedGroup (table : string) (group : ChartDataItem) : Prop :=
  exists q, numField "count" group = Some q /\ 1 <= q /\
            fromTable table group = true.

(** ** A sample schema with its replies *)

(** [String(v)] for the values of the sample replies: non-negative whole
    numbers print as their digits. *)
Definition sampleString (v : option Value) : string :=
  match v with
  | Some (VNum q) => string_of_nat (Z.to_nat (Qfloor q))
  | _ => EmptyString
  end.

(** Four comments: two on post 1, one on post 2, one on no post. *)
Definition commentRows : list ChartDataItem :=
  [[("post_id", VNum 1)]; [("post_id", VNum 1)]; [("post_id", VNum 2)];
   [("post_id", VNull)]]%string.

(** "comments" references "posts" through [post_id]. *)
Definition blogSchema : list Rel.t :=
  [Rel.mk "comments" "posts" "comments" "posts" "post_id"].

(** The data client loads; only the foreign-key column of "comments" can
    be read. *)
Definition blogWorld : World :=
  mkWorld (fun _ => true)
    (fun table columns =>
       if String.eqb table "comments" && String.eqb columns "post_id"
       then Reply (Some commentRows) false
       else Reply None true)
    (fun _ => 0.5).

(** ** Vocabulary for the events path *)

(** A record of the events chart as the renderer reads it: tagged
    "events", with a non-negative numeric [registration_count]. *)
Definition countedEvent (event : ChartDataItem) : Prop :=
  fromTable "events" event = true /\
  exists q, numField "registration_count" event = Some q /\ 0 <= q.


(** ** Sample events with their registrations *)

Definition eventRows : list ChartDataItem :=
  [[("id", VNum 1); ("title", VStr "Launch")];
   [("id", VNum 2); ("title", VStr "Retro")]]%string.

(** Two registrations for event 1, one for event 2 (under another column
    name), one for an event that does not exist. *)
Definition registrationRows : list ChartDataItem :=
  [[("id", VNum 10); ("event_id", VNum 1)];
   [("id", VNum 11); ("event_id", VNum 1)];
   [("id", VNum 12); ("eventId", VNum 2)];
   [("id", VNum 13); ("event_id", VNum 7)]]%string.

(** The data client loads; the join query of the events path is answered
    with an error, the two separate queries with the sample rows. *)
Definition eventsWorld : World :=
  mkWorld (fun _ => true)
    (fun table columns =>
       if String.eqb columns "*" then
         if String.eqb table "events" then Reply (Some eventRows) false
         else if String.eqb table "registrations"
              then Reply (Some registrationRows) false
              else Reply None true
       else Reply None true)
    (fun _ => 0.5).

(** ** Vocabulary for the generic fetch *)

(** What the generic fetch keeps of one table: the rows of its reply, each
    tagged with the table, when the query is answered without an error;
    nothing otherwise. *)
Definition keptRows (w : World) (table : string) : list ChartDataItem :=
  match select w table "*" with
  | Reply (Some rows) false => map (setField "_table" (VStr table)) rows
  | _ => []
  end.

(** ** Vocabulary for the requests the interpreter issues *)

(** The names [initTables] puts on display. *)
Definition displayedNames (availableTables : list string) : list string :=
  map TableObject.name (initTables 0 availableTables).

(** A request to [fetchTableData] for tables on display: at least one
    name, no name twice, every name on display. *)
Definition wellFormedRequest (shown request : list string) : Prop :=
  request <> [] /\ NoDup request /\ incl request shown.

(** The names on display never change, the dropped tables are distinct
    names on display, and so was every request issued so far. *)
Definition requestsInvariant (shown : list string) (s : State) : Prop :=
  map TableObject.name (tablesRef s) = shown /\
  NoDup (droppedTablesRef s) /\
  incl (droppedTablesRef s) shown /\
  Forall (wellFormedRequest shown) (fetchCalls s).

(** An event during which one hand keeps pinching: a tick whose frame
    holds exactly one hand, pinching; timers, data deliveries and effect
    restarts may happen in between. *)
Definition holdsPinch (e : Event) : bool :=
  match e with
  | Frame _ _ _ _ (Some [hand]) => isPinchingHand hand
  | Frame _ _ _ _ _ => false
  | _ => true
  end.

(** ** Vocabulary for the drag state *)

(** The drag reference and the [isDragging] flags agree: the tables have
    the ids [ids]; without a pinch in progress nothing is referenced; a
    referenced id is the id of a table; and a table is flagged exactly
    when the reference names it. *)
Definition dragInvariant (ids : list string) (s : State) : Prop :=
  map TableObject.id (tablesRef s) = ids /\
  (PinchState.isPinching (pinchStateRef s) = false ->
   draggedTableRef s = None) /\
  (forall i, draggedTableRef s = Some i -> In i ids) /\
  Forall (fun t => TableObject.isDragging t = true <->
                   draggedTableRef s = Some (TableObject.id t))
    (tablesRef s).

(* ================================================================== *)
(** ** The chart layouts *)

(** The layouts are modelled by what they compute: the message or the
    bars they draw.  Titles, labels, legends, colours of the three special
    layouts and the statistics boxes are left out. *)

(** *** Arrays and numbers *)

(** [Array.prototype.sort(compare)], which is stable: an element stays
    before the later elements it does not compare greater than. *)
Fixpoint insertSorted {A : Type} (compare : A -> A -> Q) (a : A)
    (sorted : list A) : list A :=
  match sorted with
  | [] => [a]
  | b :: rest =>
      if leb (compare a b) 0 then a :: sorted
      else b :: insertSorted compare a rest
  end.

Definition Array_sort {A : Type} (compare : A -> A -> Q) (arr : list A)
    : list A :=
  fold_right (insertSorted compare) [] arr.

(** [arr.map((a, i) => f(a, i))], also used for [arr.forEach]. *)
Fixpoint mapFrom {A B : Type} (f : A -> nat -> B) (index : nat)
    (arr : list A) : list B :=
  match arr with
  | [] => []
  | a :: rest => f a index :: mapFrom f (S index) rest
  end.

Definition Array_mapi {A B : Type} (f : A -> nat -> B) (arr : list A)
    : list B :=
  mapFrom f 0 arr.

(** [arr.indexOf(s)]. *)
Fixpoint indexFrom (index : Z) (arr : list string) (s : string) : Z :=
  match arr with
  | [] => (-1)%Z
  | a :: rest =>
      if String.eqb a s then index else indexFrom (index + 1) rest s
  end.

Definition Array_indexOf (arr : list string) (s : string) : Z :=
  indexFrom 0 arr s.

(** [arr.join(sep)]. *)
Fixpoint Array_join (sep : string) (arr : list string) : string :=
  match arr with
  | [] => EmptyString
  | [a] => a
  | a :: rest => (a ++ sep ++ Array_join sep rest)%string
  end.

(** [s.split(", ")[0]]: [s] up to its first ", ". *)
Fixpoint beforeSeparator (s : string) : string :=
  match s with
  | EmptyString => EmptyString
  | String c rest =>
      if startsWith s ", " then EmptyString
      else String c (beforeSeparator rest)
  end.

(** [Math.max(...values)].  Of no values JavaScript gives -Infinity; the
    layouts use the maximum only when there is a value. *)
Definition Math_max_list (values : list Q) : Q :=
  match values with
  | [] => 0
  | a :: rest => fold_left Math_max rest a
  end.

Definition Q_of_nat (n : nat) : Q := inject_Z (Z.of_nat n).

(** [key in item]; for a fetched record also [item[key] !== undefined]. *)
Definition hasField (key : string) (item : ChartDataItem) : bool :=
  match getField key item with
  | Some _ => true
  | None => false
  end.

(** [typeof item[key] === "number" ? item[key] : 0]; for a field that
    holds a number or a falsy value also [item[key] || 0]. *)
Definition numberField (key : string) (item : ChartDataItem) : Q :=
  match numField key item with
  | Some q => q
  | None => 0
  end.

(** [field || fallback] on an optional string. *)
Definition orDefault (field : option string) (fallback : string) : string :=
  match field with
  | Some f => if isEmptyString f then fallback else f
  | None => fallback
  end.

(** [if (!m.has(key)) m.set(key, init); update(m.get(key))] on a [Map]
    with string keys, in insertion order. *)
Fixpoint upsert {V : Type} (key : string) (init : V) (update : V -> V)
    (m : list (string * V)) : list (string * V) :=
  match m with
  | [] => [(key, update init)]
  | (k, v) :: rest =>
      if String.eqb k key then (k, update v) :: rest
      else (k, v) :: upsert key init update rest
  end.

(** [group[key] += amount] on a numeric field. *)
Definition addTo (key : string) (amount : Q) (item : ChartDataItem)
    : ChartDataItem :=
  match getField key item with
  | Some (VNum q) => setField key (VNum (q + amount)) item
  | _ => item
  end.

(** *** What a layout draws *)

(** A bar handed to [fillRect(x, y, width, height)], with the number
    printed above it. *)
Module Bar.
Record t : Set := mk {
  x : Q;
  y : Q;
  width : Q;
  height : Q;
  value : Q
}.
End Bar.

Inductive Drawing : Set :=
| Message (text : string)
| Bars (bars : list Bar.t).

(** *** The events layout *)

(** Every record holds a number at [key], as the declared type of the
    records says. *)
Definition numbersAt (key : string) (items : list ChartDataItem) : bool :=
  forallb (fun item => match numField key item with
                       | Some _ => true
                       | None => false
                       end) items.

(** [renderEventsRegistrationsChart] (lines 1074-1250).  [None]: a
    record that has a [registration_count] holds no number there, against
    the type the filter asserts; such records are outside the model. *)
Definition renderEventsRegistrationsChart (width height : Q)
    (chartData : ChartData.t) : option Drawing :=
  let events :=
    filter (hasField "registration_count") (ChartData.data chartData) in
  if negb (numbersAt "registration_count" events) then None
  else if (List.length events =? 0)%nat then
    Some (Message "NO EVENTS WITH REGISTRATIONS FOUND")
  else
    let sortedEvents :=
      Array_sort
        (fun a b => numberField "registration_count" b -
                    numberField "registration_count" a)
        events in
    let maxItems := Nat.min (List.length sortedEvents) 20 in
    let barWidth := (width * 0.7) / Q_of_nat maxItems in
    let barSpacing := barWidth * 0.1 in
    let chartHeight := height * 0.4 in
    let chartY := height * 0.75 in
    let startX := width * 0.15 in
    let maxCount :=
      Math_max_list (map (numberField "registration_count") sortedEvents) in
    Some
      (Bars
         (Array_mapi
            (fun event i =>
               let barHeight :=
                 if gtb maxCount 0
                 then (numberField "registration_count" event / maxCount)
                      * chartHeight * 0.8
                 else 0 in
               let x := startX + Q_of_nat i * (barWidth + barSpacing) in
               let y := chartY - barHeight in
               Bar.mk x y (barWidth * 0.8) barHeight
                 (numberField "registration_count" event))
            (firstn maxItems sortedEvents))).

(** *** The layouts that read dates or print values *)

(** A generic group: [{ label, count, table }]. *)
Module Group.
Record t : Set := mk {
  label : string;
  count : Q;
  table : option Value
}.
End Group.

(** A bar of the generic layout with the index of its colour set. *)
Module TableBar.
Record t : Set := mk {
  bar : Bar.t;
  colorSet : nat
}.
End TableBar.

(** How the x-axis field of the generic layout was found. *)
Inductive XAxisType : Set := XDate | XName | XId | XOther.

Section Charts.

(** [String(v)] for a value that is no string, the short date
    [new Date(v).toLocaleDateString("en-US", { month: "short", day:
    "numeric" })] and the time [new Date(v).getTime()]. *)
Variable ToString : option Value -> string.
Variable dateKey : option Value -> string.
Variable dateTime : option Value -> Q.

(** [dateValue && (typeof dateValue === "string" || typeof dateValue ===
    "number" || dateValue instanceof Date)]. *)
Definition groupableDate (dateValue : option Value) : bool :=
  truthyValue dateValue &&
  match dateValue with
  | Some (VStr _) | Some (VNum _) => true
  | _ => false
  end.

(** **** The join layout *)

(** Every record holds at [key] a number or a falsy value, so that
    [item[key] || 0] is a number. *)
Definition numbersOrNothingAt (key : string) (items : list ChartDataItem)
    : bool :=
  forallb (fun item => match getField key item with
                       | Some (VNum _) => true
                       | v => negb (truthyValue v)
                       end) items.

(** One round of the grouping by date of the join layout. *)
Definition joinDateGroup (xField yField : string) (dateGroups : JsMap)
    (item : ChartDataItem) : JsMap :=
  let dateValue := getField xField item in
  if groupableDate dateValue then
    let key := Some (VStr (dateKey dateValue)) in
    let dateGroups :=
      if negb (mapHas key dateGroups) then
        mapSet key
          (setField "count" (VNum 0)
             (setField yField (VNum 0)
                [(xField, VStr (dateKey dateValue))]))
          dateGroups
      else dateGroups in
    mapAdjust key
      (fun group =>
         increment "count" (addTo yField (numberField yField item) group))
      dateGroups
  else dateGroups.

(** [renderJoinQueryChart] (lines 832-1068).  [None]: a record holds a
    truthy value that is no number at the y-axis field; such records are
    outside the model. *)
Definition renderJoinQueryChart (width height : Q) (chartData : ChartData.t)
    : option Drawing :=
  let data := ChartData.data chartData in
  let xField := orDefault (ChartData.xAxisField chartData) "name" in
  let yField := orDefault (ChartData.yAxisField chartData) "count" in
  if negb (numbersOrNothingAt yField data) then None
  else if (List.length data =? 0)%nat then
    Some (Message "NO DATA FOUND IN JOIN QUERY")
  else
    let isDateField := array_includes dateFields xField in
    let processedData :=
      if isDateField then
        Array_sort
          (fun a b => dateTime (getField xField a) -
                      dateTime (getField xField b))
          (mapValues (fold_left (joinDateGroup xField yField) data []))
      else
        Array_sort
          (fun a b => numberField yField b - numberField yField a) data in
    let maxItems := Nat.min (List.length processedData) 25 in
    let barWidth := (width * 0.7) / Q_of_nat maxItems in
    let barSpacing := barWidth * 0.1 in
    let chartHeight := height * 0.4 in
    let chartY := height * 0.75 in
    let startX := width * 0.15 in
    let maxValue := Math_max_list (map (numberField yField) processedData) in
    Some
      (Bars
         (Array_mapi
            (fun item i =>
               let barHeight :=
                 if gtb maxValue 0
                 then (numberField yField item / maxValue)
                      * chartHeight * 0.8
                 else 0 in
               let x := startX + Q_of_nat i * (barWidth + barSpacing) in
               let y := chartY - barHeight in
               Bar.mk x y (barWidth * 0.8) barHeight
                 (numberField yField item))
            (firstn maxItems processedData))).

(** **** The relationship layout *)

(** [a === b] on the values of records. *)
Definition strictEquals (a b : option Value) : bool :=
  match a, b with
  | None, None => true
  | Some (VNum p), Some (VNum q) => Qeq_bool p q
  | Some (VStr s), Some (VStr t) => String.eqb s t
  | Some (VBool x), Some (VBool y) => Bool.eqb x y
  | Some VNull, Some VNull => true
  | _, _ => false
  end.

(** The string a value is printed as. *)
Definition print (v : option Value) : string :=
  match v with
  | Some (VStr s) => s
  | _ => ToString v
  end.

(** [getTitleField] of [renderRelationshipChart]. *)
Definition getTitleField (data : list ChartDataItem) : option string :=
  match data with
  | [] => None
  | first :: _ =>
      let fields :=
        filter (fun key => negb (startsWith key "_")) (Object_keys first) in
      Some (orDefault (find (mentions "title") fields)
              (orDefault (find (mentions "name") fields) "id"))
  end.

(** One round of counting in the relationship layout (the list of
    referencing titles kept with each entry is never read and left
    out). *)
Definition countRelationship (relationship : Detected.t)
    (referencedTitleField : option string) (relationshipCounts : JsMap)
    (item : ChartDataItem) : JsMap :=
  let foreignKeyValue := getField (Detected.foreignKey relationship) item in
  match find (fun ref => strictEquals (getField "id" ref) foreignKeyValue)
          (Detected.referencedData relationship) with
  | Some referencedItem =>
      let referencedTitle :=
        orElse
          (match referencedTitleField with
           | Some field => getField field referencedItem
           | None => Some VNull
           end)
          (Some (VStr (Detected.referencedTable relationship ++ " " ++
                       print (getField "id" referencedItem)))) in
      let key := Some (VStr (print referencedTitle)) in
      let relationshipCounts :=
        if negb (mapHas key relationshipCounts) then
          mapSet key
            [("referencedTitle"%string,
              match referencedTitle with Some v => v | None => VNull end);
             ("count"%string, VNum 0)]
            relationshipCounts
        else relationshipCounts in
      mapAdjust key (increment "count") relationshipCounts
  | None => relationshipCounts
  end.

(** [renderRelationshipChart] (lines 1256-1465). *)
Definition renderRelationshipChart (width height : Q)
    (relationship : Detected.t) : Drawing :=
  let referencedTitleField :=
    getTitleField (Detected.referencedData relationship) in
  let relationshipCounts :=
    fold_left (countRelationship relationship referencedTitleField)
      (Detected.referencingData relationship) [] in
  let relationships :=
    Array_sort (fun a b => numberField "count" b - numberField "count" a)
      (mapValues relationshipCounts) in
  if (List.length relationships =? 0)%nat then
    Message "NO VALID RELATIONSHIPS FOUND"
  else
    let maxItems := Nat.min (List.length relationships) 25 in
    let barWidth := (width * 0.7) / Q_of_nat maxItems in
    let barSpacing := barWidth * 0.1 in
    let chartHeight := height * 0.4 in
    let chartY := height * 0.75 in
    let startX := width * 0.15 in
    let maxCount := Math_max_list (map (numberField "count") relationships) in
    Bars
      (Array_mapi
         (fun rel i =>
            let barHeight :=
              (numberField "count" rel / maxCount) * chartHeight * 0.8 in
            let x := startX + Q_of_nat i * (barWidth + barSpacing) in
            let y := chartY - barHeight in
            Bar.mk x y (barWidth * 0.8) barHeight (numberField "count" rel))
         (firstn maxItems relationships)).

(** **** The generic layout *)

(** The choice of the x-axis field (lines 1592-1643), on the first
    record. *)
Definition chooseXAxis (first : ChartDataItem) : string * XAxisType :=
  match find (fun field => hasField field first) dateFields with
  | Some field => (field, XDate)
  | None =>
      let nameFields :=
        filter (fun key => mentions "name" key || mentions "title" key)
          (Object_keys first) in
      match nameFields with
      | firstName :: _ =>
          (orDefault (find (mentions "title") nameFields) firstName, XName)
      | [] =>
          if hasField "id" first then ("id"%string, XId)
          else
            let availableFields :=
              filter (fun key => negb (startsWith key "_") &&
                                 negb (String.eqb key "id"))
                (Object_keys first) in
            match availableFields with
            | field :: _ => (field, XOther)
            | [] => ("id"%string, XId)
            end
      end
  end.

(** [set.add(v)] on a [Set] in insertion order. *)
Definition setAdd (v : option Value) (s : list (option Value))
    : list (option Value) :=
  if existsb (fun u => sameValue u v) s then s else s ++ [v].

(** An element of [Array.prototype.join]: null and undefined print as
    the empty string. *)
Definition joined (v : option Value) : string :=
  match v with
  | None | Some VNull => EmptyString
  | _ => print v
  end.

(** The grouping by date (lines 1648-1685). *)
Definition groupByDate (xAxisField : string) (data : list ChartDataItem)
    : list Group.t :=
  let dateGroups :=
    fold_left
      (fun dateGroups item =>
         let dateValue := getField xAxisField item in
         if groupableDate dateValue then
           upsert (dateKey dateValue) (0, [])
             (fun group =>
                (fst group + 1, setAdd (getField "_table" item) (snd group)))
             dateGroups
         else dateGroups)
      data [] in
  Array_sort
    (fun a b => dateTime (Some (VStr (Group.label a))) -
                dateTime (Some (VStr (Group.label b))))
    (map (fun entry =>
            Group.mk (fst entry) (fst (snd entry))
              (Some (VStr (Array_join ", " (map joined (snd (snd entry)))))))
       dateGroups).

(** The grouping by value (lines 1686-1705). *)
Definition groupByValue (xAxisField : string) (data : list ChartDataItem)
    : list Group.t :=
  let valueGroups :=
    fold_left
      (fun valueGroups item =>
         let value :=
           print (orElse (getField xAxisField item) (Some (VStr "Unknown")))
         in
         upsert value (0, getField "_table" item)
           (fun group => (fst group + 1, snd group))
           valueGroups)
      data [] in
  map (fun entry => Group.mk (fst entry) (fst (snd entry)) (snd (snd entry)))
    valueGroups.

(** [chartData.tables.indexOf(group.table.split(", ")[0]) || 0] and the
    choice [colors[tableIndex % colors.length]] among the four colour
    sets, whose first entry is then read.  A table that is no string has
    no [split]; an index of -1 is truthy, stays -1 and selects no colour
    set: both throw a [TypeError]. *)
Definition colorSetOf (tables : list string) (group : Group.t)
    : Outcome nat :=
  match Group.table group with
  | Some (VStr table) =>
      let index := Array_indexOf tables (beforeSeparator table) in
      let tableIndex := if (index =? 0)%Z then 0%Z else index in
      if (tableIndex <? 0)%Z then Thrown
      else Returned (Z.to_nat (tableIndex mod 4))
  | _ => Thrown
  end.

(** [results.push(...)] inside a loop that may throw. *)
Fixpoint collect {A : Type} (items : list (Outcome A)) : Outcome (list A) :=
  match items with
  | [] => Returned []
  | item :: rest =>
      a <- item ;;
      others <- collect rest ;;
      Returned (a :: others)
  end.

(** The generic layout (lines 1592-1790): the bars it draws, or the
    exception that escapes. *)
Definition renderGenericChart (width height : Q) (chartData : ChartData.t)
    : Outcome (list TableBar.t) :=
  match ChartData.data chartData with
  | [] => Returned []
  | first :: _ =>
      let xAxis := chooseXAxis first in
      let xAxisField := fst xAxis in
      let groupedData :=
        match snd xAxis with
        | XDate => groupByDate xAxisField (ChartData.data chartData)
        | _ => groupByValue xAxisField (ChartData.data chartData)
        end in
      let maxItems := Nat.min (List.length groupedData) 30 in
      let barWidth := (width * 0.8) / Q_of_nat maxItems in
      let barSpacing := barWidth * 0.1 in
      let chartHeight := height * 0.5 in
      let chartY := height * 0.7 in
      let startX := width * 0.1 in
      let maxValue := Math_max_list (map Group.count groupedData) in
      collect
        (Array_mapi
           (fun group i =>
              colorSet <- colorSetOf (ChartData.tables chartData) group ;;
              let barHeight :=
                (Group.count group / maxValue) * chartHeight * 0.8 in
              let x := startX + Q_of_nat i * (barWidth + barSpacing) in
              let y := chartY - barHeight in
              Returned
                (TableBar.mk
                   (Bar.mk x y (barWidth * 0.8) barHeight
                      (Group.count group))
                   colorSet))
           groupedData)
  end.

(** **** The choice of the layout *)

Inductive Layout : Set :=
| LoadingLayout
| EventsLayout (drawing : option Drawing)
| JoinLayout (drawing : option Drawing)
| RelationshipLayout (drawing : Drawing)
| GenericLayout (bars : Outcome (list TableBar.t))
| NoDataLayout.

(** What [renderChartView] draws below the heading (lines 1543-1823):
    "LOADING DATA...", one of the four layouts, or "NO DATA AVAILABLE". *)
Definition chartContent (width height : Q) (loadingData : bool)
    (chartData : ChartData.t) : Layout :=
  if loadingData then LoadingLayout
  else if (0 <? List.length (ChartData.data chartData))%nat then
    if match ChartData.isEventsRegistrations chartData with
       | Some flag => flag
       | None => false
       end
    then EventsLayout
           (renderEventsRegistrationsChart width height chartData)
    else if truthy (ChartData.joinType chartData)
    then JoinLayout (renderJoinQueryChart width height chartData)
    else
      match detectTableRelationships (ChartData.tables chartData)
              (ChartData.data chartData) with
      | Some relationship =>
          if (List.length (ChartData.tables chartData) =? 2)%nat
          then RelationshipLayout
                 (renderRelationshipChart width height relationship)
          else GenericLayout (renderGenericChart width height chartData)
      | None => GenericLayout (renderGenericChart width height chartData)
      end
  else NoDataLayout.

End Charts.

(** ** Sample data for the layouts *)

(** The two sample events with the registrations counted. *)
Definition countedEventRows : list ChartDataItem :=
  [[("id", VNum 1); ("title", VStr "Launch");
    ("registration_count", VNum 2); ("_table", VStr "events")];
   [("id", VNum 2); ("title", VStr "Retro");
    ("registration_count", VNum 1); ("_table", VStr "events")]]%string.

(** "posts" references "users" through [user_id]; the data client loads
    and answers the query for the users. *)
Definition forumSchema : list Rel.t :=
  [Rel.mk "posts" "users" "posts" "users" "user_id"].

Definition userRows : list ChartDataItem :=
  [[("id", VNum 1); ("name", VStr "Ada"); ("email", VStr "ada@example.org")];
   [("id", VNum 2); ("name", VStr "Grace");
    ("email", VStr "grace@example.org")]]%string.

Definition forumWorld : World :=
  mkWorld (fun _ => true)
    (fun table columns =>
       if String.eqb table "users" then Reply (Some userRows) false
       else Reply None true)
    (fun _ => 0.5).

(** Date conversions that are never reached by the samples. *)
Definition noDateKey (_ : option Value) : string := EmptyString.
Definition noDateTime (_ : option Value) : Q := 0.

(** ** Vocabulary for the generic layout *)

(** The sum of a list of numbers. *)
Definition total (values : list Q) : Q := fold_right Qplus 0 values.

(** A record tagged with one of the tables. *)
Definition taggedWith (tables : list string) (item : ChartDataItem) : Prop :=
  exists table, getField "_table" item = Some (VStr table) /\ In table tables.

(** A table name that holds no ", ". *)
Definition plainName (table : string) : Prop := beforeSeparator table = table.

(** A group the generic layout can draw: it counts at least one record
    and the first table it names is one of the tables. *)
Definition drawableGroup (tables : list string) (group : Group.t) : Prop :=
  1 <= Group.count group /\
  exists table,
    Group.table group = Some (VStr table) /\
    In (beforeSeparator table) tables.

(** The tagged rows of the sample generic fetch. *)
Definition sampleGenericChart : ChartData.t :=
  ChartData.plain ["registrations"; "events"; "users"]%string
    (map (setField "_table" (VStr "registrations")) registrationRows ++
     map (setField "_table" (VStr "events")) eventRows).

(** ** Vocabulary for the relationship layout *)

(** A referencing record whose foreign key is the id of a referenced
    record. *)
Definition references (relationship : Detected.t) (item : ChartDataItem)
    : bool :=
  existsb
    (fun ref =>
       strictEquals (getField "id" ref)
         (getField (Detected.foreignKey relationship) item))
    (Detected.referencedData relationship).

(** The bars of the three special layouts lie between 15% and 92% of the
    canvas width, stand on the base line at 75% of its height and are at
    most 32% of it tall. *)
Definition insideChartArea (width height : Q) (bar : Bar.t) : Prop :=
  0.15 * width <= Bar.x bar /\
  Bar.x bar + Bar.width bar <= 0.92 * width /\
  0 <= Bar.height bar /\ Bar.height bar <= 0.32 * height /\
  Bar.y bar + Bar.height bar == 0.75 * height.


(** ** Vocabulary for the demo dataset of two tables *)

(** A table name for which the demo rows carry no accidental reference:
    it does not start with the tag marker and its lower-cased form occurs
    in none of the four base columns. *)
Definition demoName (table : string) : bool :=
  negb (startsWith table "_") &&
  forallb (fun col => negb (includes col (toLowerCase table)))
    ["id"; "value"; "name"; "title"]%string.

(** ** Vocabulary for the two x-axis heuristics *)

(** A record whose keys starting with the tag marker mention neither a
    name nor a title (as [_table] does not), and that has no empty key. *)
Definition plainKeys (item : ChartDataItem) : bool :=
  forallb
    (fun key =>
       negb (startsWith key "_") ||
       (negb (mentions "name" key) && negb (mentions "title" key)))
    (Object_keys item) &&
  negb (array_includes (Object_keys item) EmptyString).

(** The dataset the fetch delivers for the sample blog: the comments
    counted per post. *)
Definition blogJoinChart : ChartData.t :=
  match fetchTableData noNumber sampleString blogSchema blogWorld
          ["posts"; "comments"]%string with
  | Returned d => d
  | Thrown => ChartData.empty
  end.

(* ================================================================== *)
(** ** Facts about the primitives *)

Section Comparisons.

Lemma ltb_lt (a b : Q) : ltb a b = true <-> a < b.
Proof.
  unfold ltb. rewrite negb_true_iff, <- not_true_iff_false, Qle_bool_iff.
  split; [apply Qnot_le_lt | apply Qlt_not_le].
Qed.

Lemma ltb_ge (a b : Q) : ltb a b = false <-> b <= a.
Proof.
  unfold ltb. rewrite negb_false_iff. apply Qle_bool_iff.
Qed.

Lemma leb_le (a b : Q) : leb a b = true <-> a <= b.
Proof. apply Qle_bool_iff. Qed.

Lemma Math_max_lower (a b : Q) : a <= Math_max a b.
Proof.
  unfold Math_max. destruct (ltb a b) eqn:E.
  - apply ltb_lt in E. lra.
  - lra.
Qed.

Lemma Math_max_upper (a b c : Q) : a <= c -> b <= c -> Math_max a b <= c.
Proof. unfold Math_max. destruct (ltb a b); auto. Qed.

Lemma Math_min_upper (a b : Q) : Math_min a b <= a.
Proof.
  unfold Math_min. destruct (ltb b a) eqn:E.
  - apply ltb_lt in E. lra.
  - lra.
Qed.

Lemma square_nonneg (a : Q) : 0 <= Math_pow a 2.
Proof. unfold Math_pow. simpl. nra. Qed.

End Comparisons.

(** The comparison [Math.sqrt(s) < t] of the model is the comparison of the
    real square root. *)
Lemma root_ltb_real (r : Root) (t : Q) :
  0 <= radicand r ->
  (root_ltb r t = true <-> (root_val r < Q2R t)%R).
Proof.
  intros Hr. unfold root_ltb, root_val.
  assert (Hr' : (0 <= Q2R (radicand r))%R).
  { rewrite <- RMicromega.Q2R_0. now apply Qle_Rle. }
  apply leb_le in Hr. rewrite Hr. simpl.
  destruct (ltb 0 t) eqn:Ht; simpl.
  - apply ltb_lt in Ht.
    assert (Ht' : (0 < Q2R t)%R).
    { rewrite <- RMicromega.Q2R_0. now apply Qlt_Rlt. }
    rewrite ltb_lt. split; intros H.
    + apply Qlt_Rlt in H. rewrite Q2R_mult in H.
      rewrite <- (sqrt_square (Q2R t)) by (apply Rlt_le; exact Ht').
      apply sqrt_lt_1; try assumption.
      apply Rmult_le_pos; apply Rlt_le; exact Ht'.
    + apply Rlt_Qlt. rewrite Q2R_mult.
      rewrite <- (sqrt_square (Q2R t)) in H by (apply Rlt_le; exact Ht').
      apply sqrt_lt_0_alt in H. exact H.
  - apply ltb_ge in Ht.
    assert (Ht' : (Q2R t <= 0)%R).
    { rewrite <- RMicromega.Q2R_0. now apply Qle_Rle. }
    split; [discriminate|]. intros H.
    pose proof (sqrt_pos (Q2R (radicand r))) as Hp.
    exfalso. apply (Rlt_irrefl 0).
    eapply Rle_lt_trans; [exact Hp|]. eapply Rlt_le_trans; eassumption.
Qed.

(** Projections of a state built by the setters, and nothing else. *)
Ltac st :=
  cbn [tablesRef draggedTableRef droppedTablesRef generateButtonHoverRef
       buttonClickedRef pinchStateRef swipeStateRef chartAnimationStartRef
       showChart chartAnimationState chartData toast timers fetchCalls
       lastFrameTime
       set_tablesRef set_draggedTableRef set_droppedTablesRef
       set_generateButtonHoverRef set_buttonClickedRef set_pinchStateRef
       set_swipeStateRef set_chartAnimationStartRef set_showChart
       set_chartAnimationState set_chartData set_toast set_timers
       set_fetchCalls set_lastFrameTime
       setTimeout showToast showChartWithAnimation hideChartWithAnimation
       PinchState.isPinching PinchState.x PinchState.y
       SwipeState.isTracking SwipeState.startX SwipeState.startY
       SwipeState.currentX SwipeState.currentY SwipeState.startTime
       SwipeState.set_isTracking SwipeState.set_current
       fst snd negb].

Tactic Notation "st" "in" hyp(H) :=
  cbn [tablesRef draggedTableRef droppedTablesRef generateButtonHoverRef
       buttonClickedRef pinchStateRef swipeStateRef chartAnimationStartRef
       showChart chartAnimationState chartData toast timers fetchCalls
       lastFrameTime
       set_tablesRef set_draggedTableRef set_droppedTablesRef
       set_generateButtonHoverRef set_buttonClickedRef set_pinchStateRef
       set_swipeStateRef set_chartAnimationStartRef set_showChart
       set_chartAnimationState set_chartData set_toast set_timers
       set_fetchCalls set_lastFrameTime
       setTimeout showToast showChartWithAnimation hideChartWithAnimation
       PinchState.isPinching PinchState.x PinchState.y
       SwipeState.isTracking SwipeState.startX SwipeState.startY
       SwipeState.currentX SwipeState.currentY SwipeState.startTime
       SwipeState.set_isTracking SwipeState.set_current
       fst snd negb] in H.

(* ================================================================== *)
(** ** The pinch flag *)

(** Whatever branch a hand takes, the stored flag ends up equal to the
    frame's own distance test. *)
Lemma processHand_isPinching now W H s (landmarks : Hand) :
  PinchState.isPinching (pinchStateRef (processHand now W H s landmarks))
  = isPinchingHand landmarks.
Proof.
  unfold processHand.
  destruct (isPinchingHand landmarks) eqn:Hp.
  - destruct (PinchState.isPinching (pinchStateRef s)); reflexivity.
  - destruct (PinchState.isPinching (pinchStateRef s)) eqn:Hs;
      [reflexivity | exact Hs].
Qed.

Lemma pinchDistance_nonneg (landmarks : Hand) :
  0 <= radicand (pinchDistance landmarks).
Proof.
  unfold pinchDistance, Math_sqrt. cbn [radicand].
  apply (Qle_trans _ (0 + 0)); [lra|].
  apply Qplus_le_compat; apply square_nonneg.
Qed.

(** The value of [distance] is the Euclidean distance of the two tips. *)
Lemma pinchDistance_euclidean (landmarks : Hand) :
  let dx := (Q2R (Landmark.x (landmarks 4%nat))
             - Q2R (Landmark.x (landmarks 8%nat)))%R in
  let dy := (Q2R (Landmark.y (landmarks 4%nat))
             - Q2R (Landmark.y (landmarks 8%nat)))%R in
  root_val (pinchDistance landmarks) = sqrt (dx * dx + dy * dy).
Proof.
  unfold root_val, pinchDistance, Math_sqrt, Math_pow. simpl.
  now rewrite Q2R_plus, !Q2R_mult, !Q2R_minus.
Qed.

Lemma Q2R_pinchThreshold : Q2R pinchThreshold = (5 / 100)%R.
Proof. unfold pinchThreshold, Q2R. cbn [Qnum Qden]. Lra.lra. Qed.

(** C5. For every landmark frame, with [d] the Euclidean distance between
    landmark 4 (thumb tip) and landmark 8 (index tip), the pinch flag left
    by the interpreter is set exactly when [d < 0.05]; the comparison is
    strict, so [d = 0.05] (and anything above) leaves it clear. *)
Theorem isPinching_iff_distance_below_threshold :
  forall now W H s (landmarks : Hand),
    let dx := (Q2R (Landmark.x (landmarks 4%nat))
               - Q2R (Landmark.x (landmarks 8%nat)))%R in
    let dy := (Q2R (Landmark.y (landmarks 4%nat))
               - Q2R (Landmark.y (landmarks 8%nat)))%R in
    let d := sqrt (dx * dx + dy * dy) in
    let flag :=
      PinchState.isPinching
        (pinchStateRef (processHand now W H s landmarks)) in
    (flag = true <-> (d < 5 / 100)%R) /\
    (flag = false <-> (5 / 100 <= d)%R).
Proof.
  intros now W H s landmarks dx dy d flag.
  assert (Hiff : flag = true <-> (d < 5 / 100)%R).
  { unfold flag. rewrite processHand_isPinching. unfold isPinchingHand.
    rewrite (root_ltb_real _ _ (pinchDistance_nonneg landmarks)).
    rewrite pinchDistance_euclidean, Q2R_pinchThreshold. reflexivity. }
  split; [exact Hiff|].
  split.
  - intros Hf. apply Rnot_lt_le. intros Hlt.
    apply Hiff in Hlt. congruence.
  - intros Hle. destruct flag eqn:E; [|reflexivity].
    exfalso. apply (Rlt_irrefl d).
    eapply Rlt_le_trans; [apply Hiff; reflexivity | exact Hle].
Qed.

(** At distance exactly 0.05 (a 3-4-5 triangle) the hand does not pinch;
    a hair closer it does. *)
Example pinch_threshold_is_strict :
  let hand (tx ty : Q) : Hand :=
    fun i => match i with
             | 4%nat => Landmark.mk tx ty
             | _ => Landmark.mk 0 0
             end in
  isPinchingHand (hand 0.03 0.04) = false /\
  isPinchingHand (hand 0.03 0.0399) = true /\
  isPinchingHand (hand 0.05 0) = false /\
  isPinchingHand (hand 0.0499 0) = true.
Proof. vm_compute. repeat split. Qed.

(* ================================================================== *)
(** ** Tables under the interpreter *)

Section TableLists.

Variable P : TableObject.t -> TableObject.t -> Prop.
Hypothesis P_refl : forall t, P t t.

Lemma Forall2_P_refl (ts : list TableObject.t) : Forall2 P ts ts.
Proof. induction ts; constructor; auto. Qed.

Lemma updateTable_Forall2 ref f ts :
  (forall t, P t (f t)) -> Forall2 P ts (updateTable ref f ts).
Proof.
  intros Hf. induction ts as [|t ts IH]; simpl; [constructor|].
  destruct (String.eqb (TableObject.id t) ref).
  - constructor; [apply Hf | apply Forall2_P_refl].
  - constructor; [apply P_refl | exact IH].
Qed.

Lemma grabTable_Forall2 pinchX pinchY tableSize ts :
  (forall t, P t (TableObject.set_isDragging true t)) ->
  Forall2 P ts (fst (grabTable pinchX pinchY tableSize ts)).
Proof.
  intros Hf. induction ts as [|t ts IH]; simpl; [constructor|].
  destruct (root_ltb _ tableSize); simpl.
  - constructor; [apply Hf | apply Forall2_P_refl].
  - constructor; [apply P_refl | exact IH].
Qed.

End TableLists.

Lemma Forall2_compose {A} (P : A -> A -> Prop) :
  (forall a b c, P a b -> P b c -> P a c) ->
  forall l1 l2 l3, Forall2 P l1 l2 -> Forall2 P l2 l3 -> Forall2 P l1 l3.
Proof.
  intros Ht l1 l2 l3 H12. revert l3.
  induction H12; intros l3 H23; inversion H23; subst; constructor; eauto.
Qed.

(** [find] after an in-place update of the found object. *)
Lemma findTable_updateTable ref f ts t :
  (forall u, TableObject.id (f u) = TableObject.id u) ->
  findTable ref ts = Some t ->
  findTable ref (updateTable ref f ts) = Some (f t).
Proof.
  intros Hid. unfold findTable.
  induction ts as [|u ts IH]; simpl; [discriminate|].
  destruct (String.eqb (TableObject.id u) ref) eqn:E; simpl.
  - intros [= ->]. now rewrite Hid, E.
  - rewrite E. exact IH.
Qed.

(** The simple effects leave the tables alone. *)
Lemma tablesRef_pressGenerate now s :
  tablesRef (pressGenerate now s) = tablesRef s.
Proof.
  unfold pressGenerate. st.
  destruct (buttonClickedRef s); st; [reflexivity|].
  destruct (List.length (droppedTablesRef s) =? 0)%nat; reflexivity.
Qed.

Lemma tablesRef_runTimer now cb s :
  tablesRef (runTimer now cb s) = tablesRef s.
Proof. destruct cb; reflexivity. Qed.

Lemma tablesRef_fireTimer now k s :
  tablesRef (fireTimer now k s) = tablesRef s.
Proof.
  unfold fireTimer. destruct (nth_error (timers s) k) as [[due cb]|]; auto.
  destruct (due <=? now)%Z; auto. now rewrite tablesRef_runTimer.
Qed.

Lemma tablesRef_processSwipe now results s :
  tablesRef (fst (processSwipe now results s)) = tablesRef s.
Proof.
  unfold processSwipe. destruct results as [[|h r]|]; try reflexivity.
  unfold detectSwipe.
  repeat match goal with
         | |- context [if ?c then _ else _] => destruct c
         end; reflexivity.
Qed.

(** Any relation on tables that is reflexive, transitive and kept by the
    two assignments the interpreter makes to a table ([isDragging] and the
    clamped position) relates the tables before and after any run. *)
Section TableRelation.

Variable P : TableObject.t -> TableObject.t -> Prop.
Hypothesis P_refl : forall t, P t t.
Hypothesis P_trans : forall a b c, P a b -> P b c -> P a c.
Hypothesis P_flag : forall b t, P t (TableObject.set_isDragging b t).
Hypothesis P_drag : forall dx dy t, P t (dragBy dx dy t).

Lemma pinchStart_tables now W H px py s :
  Forall2 P (tablesRef s) (tablesRef (pinchStart now W H px py s)).
Proof.
  unfold pinchStart. destruct (hitsButton W H px py); st.
  - rewrite tablesRef_pressGenerate. now apply Forall2_P_refl.
  - destruct (snd (grabTable px py (60 / Math_min W H) (tablesRef s)));
      st; apply grabTable_Forall2; auto.
Qed.

Lemma pinchMove_tables px py s :
  Forall2 P (tablesRef s) (tablesRef (pinchMove px py s)).
Proof.
  unfold pinchMove. destruct (truthy (draggedTableRef s)); st.
  - apply updateTable_Forall2; auto.
  - now apply Forall2_P_refl.
Qed.

Lemma pinchRelease_tables s :
  Forall2 P (tablesRef s) (tablesRef (pinchRelease s)).
Proof.
  unfold pinchRelease. st.
  destruct (truthy (draggedTableRef s)); st;
    [|now apply Forall2_P_refl].
  destruct (findTable (refId (draggedTableRef s)) (tablesRef s)) as [t|];
    st; [|now apply Forall2_P_refl].
  destruct (inDropZone (TableObject.x t) (TableObject.y t)); st;
    [destruct (array_includes (droppedTablesRef s) (TableObject.name t));
     st|];
    apply updateTable_Forall2; auto.
Qed.

Lemma handsLost_tables s :
  Forall2 P (tablesRef s) (tablesRef (handsLost s)).
Proof.
  unfold handsLost. st.
  destruct (truthy (draggedTableRef s)); st;
    [|now apply Forall2_P_refl].
  destruct (findTable (refId (draggedTableRef s)) (tablesRef s)) as [t|];
    st; [|now apply Forall2_P_refl].
  apply updateTable_Forall2; auto.
Qed.

Lemma processHand_tables now W H s landmarks :
  Forall2 P (tablesRef s) (tablesRef (processHand now W H s landmarks)).
Proof.
  unfold processHand.
  destruct (isPinchingHand landmarks);
    destruct (PinchState.isPinching (pinchStateRef s)); st.
  - apply pinchMove_tables.
  - apply pinchStart_tables.
  - apply pinchRelease_tables.
  - now apply Forall2_P_refl.
Qed.

Lemma fold_processHand_tables now W H hands s :
  Forall2 P (tablesRef s)
    (tablesRef (fold_left (processHand now W H) hands s)).
Proof.
  revert s. induction hands as [|h r IH]; intros s; simpl.
  - now apply Forall2_P_refl.
  - eapply Forall2_compose; [exact P_trans| |apply IH].
    apply processHand_tables.
Qed.

Lemma processLandmarks_tables now W H results s :
  Forall2 P (tablesRef s) (tablesRef (processLandmarks now W H results s)).
Proof.
  unfold processLandmarks. destruct results as [[|h r]|].
  - destruct (PinchState.isPinching (pinchStateRef s));
      [apply handsLost_tables | now apply Forall2_P_refl].
  - apply fold_processHand_tables.
  - destruct (PinchState.isPinching (pinchStateRef s));
      [apply handsLost_tables | now apply Forall2_P_refl].
Qed.

Lemma renderLoop_tables currentTime now W H results s :
  Forall2 P (tablesRef s)
    (tablesRef (renderLoop currentTime now W H results s)).
Proof.
  unfold renderLoop.
  destruct (ltb (currentTime - lastFrameTime s) frameInterval);
    [now apply Forall2_P_refl|].
  destruct (showChart (set_lastFrameTime currentTime s)).
  - rewrite tablesRef_processSwipe. now apply Forall2_P_refl.
  - apply (processLandmarks_tables now W H results
             (set_lastFrameTime currentTime s)).
Qed.

Lemma step_tables s e : Forall2 P (tablesRef s) (tablesRef (step s e)).
Proof.
  destruct e; simpl.
  - apply renderLoop_tables.
  - rewrite tablesRef_fireTimer. now apply Forall2_P_refl.
  - now apply Forall2_P_refl.
  - now apply Forall2_P_refl.
Qed.

Lemma run_tables es s : Forall2 P (tablesRef s) (tablesRef (run es s)).
Proof.
  unfold run. revert s. induction es as [|e es IH]; intros s; simpl.
  - now apply Forall2_P_refl.
  - eapply Forall2_compose; [exact P_trans|apply step_tables|apply IH].
Qed.

End TableRelation.

(* ================================================================== *)
(** ** The drag clamp *)

Lemma clamp_bounds (v : Q) :
  0.05 <= Math_max 0.05 (Math_min 0.95 v) /\
  Math_max 0.05 (Math_min 0.95 v) <= 0.95.
Proof.
  split.
  - apply Math_max_lower.
  - apply Math_max_upper; [lra | apply Math_min_upper].
Qed.

Lemma dragBy_inVisibleArea deltaX deltaY t :
  inVisibleArea (dragBy deltaX deltaY t).
Proof.
  unfold inVisibleArea, dragBy. st. split; apply clamp_bounds.
Qed.

(** While a pinch continues, the object [find] returns for the drag
    reference is moved by the pinch delta through the clamp. *)
Lemma pinchMove_drags px py s t :
  truthy (draggedTableRef s) = true ->
  findTable (refId (draggedTableRef s)) (tablesRef s) = Some t ->
  findTable (refId (draggedTableRef s)) (tablesRef (pinchMove px py s))
  = Some (dragBy (px - PinchState.x (pinchStateRef s))
                 (py - PinchState.y (pinchStateRef s)) t).
Proof.
  intros Ht Hf. unfold pinchMove. rewrite Ht. st.
  now apply findTable_updateTable.
Qed.

(** C2. Whatever the drag delta, the position written to the dragged table
    lies in [0.05, 0.95] on both axes; on a tick that continues a pinch the
    dragged table receives exactly that clamped position; and along any
    sequence of frames, timers and data deliveries, a table whose position
    is no longer its initial one lies in that region. *)
Theorem drag_confined_to_visible_area :
  (forall deltaX deltaY t, inVisibleArea (dragBy deltaX deltaY t)) /\
  (forall now W H s (landmarks : Hand) t,
      isPinchingHand landmarks = true ->
      PinchState.isPinching (pinchStateRef s) = true ->
      truthy (draggedTableRef s) = true ->
      findTable (refId (draggedTableRef s)) (tablesRef s) = Some t ->
      exists t',
        findTable (refId (draggedTableRef s))
          (tablesRef (processHand now W H s landmarks)) = Some t' /\
        inVisibleArea t') /\
  (forall es s,
      Forall2 (fun t0 t => samePosition t t0 \/ inVisibleArea t)
        (tablesRef s) (tablesRef (run es s))).
Proof.
  split; [exact dragBy_inVisibleArea|]. split.
  - intros now W H s landmarks t Hp Hs Ht Hf.
    unfold processHand. rewrite Hp, Hs. st.
    eexists. split; [apply pinchMove_drags; eassumption|].
    apply dragBy_inVisibleArea.
  - intros es s. apply run_tables.
    + intros t. left. split; reflexivity.
    + intros a b c [[Hx Hy]|Hb] [[Hx' Hy']|Hc]; try (right; exact Hc).
      * left. split; congruence.
      * right. unfold inVisibleArea in *. rewrite Hx', Hy'. exact Hb.
    + intros b t. left. split; reflexivity.
    + intros dx dy t. right. apply dragBy_inVisibleArea.
Qed.

(** A pinch that grabs "products" at (0.55, 0.1) and runs off to the
    corner (1, 0) leaves the table at the edge of the region. *)
Example drag_stops_at_the_edge :
  let s :=
    run [ Frame 100 100 1280 720 (Some [pinchedHandAt 0.45 0.1]);
          Frame 200 200 1280 720 (Some [pinchedHandAt 0 0]) ] freshState in
  option_map
    (fun t => (Qred (TableObject.x t), Qred (TableObject.y t)))
    (findTable "products-0-3" (tablesRef s))
  = Some (Qred 0.95, Qred 0.05).
Proof. vm_compute. reflexivity. Qed.

(* ================================================================== *)
(** ** Pinch release *)

Lemma truthy_Some (r : option string) :
  truthy r = true -> r = Some (refId r).
Proof. destruct r; simpl; [reflexivity | discriminate]. Qed.

(** The object [find] returns splits the array around it, and the in-place
    update touches that object only. *)
Lemma findTable_split ref f ts t :
  findTable ref ts = Some t ->
  exists before after,
    ts = before ++ t :: after /\
    updateTable ref f ts = before ++ f t :: after /\
    TableObject.id t = ref.
Proof.
  unfold findTable. induction ts as [|u ts IH]; simpl; [discriminate|].
  destruct (String.eqb (TableObject.id u) ref) eqn:E.
  - intros [= ->]. exists [], ts. repeat split.
    now apply String.eqb_eq.
  - intros Hf. destruct (IH Hf) as (b & a & -> & -> & Hid).
    exists (u :: b), a. repeat split. exact Hid.
Qed.

Lemma pinchRelease_frame s : releaseFrame s (pinchRelease s).
Proof.
  unfold pinchRelease, releaseFrame. st.
  destruct (truthy (draggedTableRef s)) eqn:Ht; st; [|left; now split].
  destruct (findTable (refId (draggedTableRef s)) (tablesRef s)) as [t|]
    eqn:Hf; st; [|left; now split].
  destruct (findTable_split _ (TableObject.set_isDragging false) _ _ Hf)
    as (b & a & Hts & Hup & Hid).
  right. exists b, t, a. split; [exact Hts|]. split.
  { rewrite Hid. now apply truthy_Some. }
  destruct (inDropZone (TableObject.x t) (TableObject.y t)); st;
    [destruct (array_includes (droppedTablesRef s) (TableObject.name t));
     st|];
    (split; [exact Hup|]); auto.
Qed.

Lemma handsLost_frame s : releaseFrame s (handsLost s).
Proof.
  unfold handsLost, releaseFrame. st.
  destruct (truthy (draggedTableRef s)) eqn:Ht; st; [|left; now split].
  destruct (findTable (refId (draggedTableRef s)) (tablesRef s)) as [t|]
    eqn:Hf; st; [|left; now split].
  destruct (findTable_split _ (TableObject.set_isDragging false) _ _ Hf)
    as (b & a & Hts & Hup & Hid).
  right. exists b, t, a. split; [exact Hts|]. split.
  { rewrite Hid. now apply truthy_Some. }
  split; [exact Hup|]. now left.
Qed.

(** Once the pinch is over, further open hands of the same frame find
    nothing to do. *)
Lemma fold_open_hands_idle now W H hands s :
  PinchState.isPinching (pinchStateRef s) = false ->
  Forall (fun h => isPinchingHand h = false) hands ->
  fold_left (processHand now W H) hands s = s.
Proof.
  intros Hs Hall. induction Hall as [|h r Hh _ IH]; simpl; [reflexivity|].
  unfold processHand at 2. rewrite Hh, Hs. exact IH.
Qed.

(** The positions, ids and names of the tables are those of before. *)
Lemma releaseFrame_positions s s' :
  releaseFrame s s' ->
  Forall2 (fun t0 t => TableObject.id t = TableObject.id t0 /\
                       TableObject.name t = TableObject.name t0 /\
                       TableObject.x t = TableObject.x t0 /\
                       TableObject.y t = TableObject.y t0)
    (tablesRef s) (tablesRef s').
Proof.
  intros [[-> _] | (b & t & a & -> & _ & -> & _)].
  - apply Forall2_P_refl. now intros.
  - apply Forall2_app; [apply Forall2_P_refl; now intros|].
    constructor; [now cbn | apply Forall2_P_refl; now intros].
Qed.

Lemma pinchRelease_outside s : sameOutsideInterpreter s (pinchRelease s).
Proof.
  unfold pinchRelease, sameOutsideInterpreter. st.
  destruct (truthy (draggedTableRef s)); st; [|repeat split].
  destruct (findTable (refId (draggedTableRef s)) (tablesRef s)) as [t|];
    st; [|repeat split].
  destruct (inDropZone (TableObject.x t) (TableObject.y t)); st;
    [destruct (array_includes (droppedTablesRef s) (TableObject.name t));
     st|];
    repeat split.
Qed.

Lemma handsLost_outside s : sameOutsideInterpreter s (handsLost s).
Proof.
  unfold handsLost, sameOutsideInterpreter. st.
  destruct (truthy (draggedTableRef s)); st; [|repeat split].
  destruct (findTable (refId (draggedTableRef s)) (tablesRef s)) as [t|];
    st; repeat split.
Qed.

(** C10. Ending a pinch moves no table.  From a state whose pinch flag is
    set: (1) the step of the hand loop for a hand that does not pinch,
    (2) a tick without hands, and (3) a tick whose hands are all open,
    each clear the flag and change the tables and the dropped tables by
    [releaseFrame] only: every table keeps its id, name and position,
    every table but the released one is untouched, the released one only
    loses [isDragging], and the dropped tables either stay or gain the
    released table's name.  Beyond that, only the interpreter's own cells
    (latches, drag reference, pinch state) are written. *)
Theorem pinch_release_moves_no_table :
  forall now W H s,
    PinchState.isPinching (pinchStateRef s) = true ->
    let unmoved s' :=
      PinchState.isPinching (pinchStateRef s') = false /\
      releaseFrame s s' /\
      Forall2 (fun t0 t => TableObject.id t = TableObject.id t0 /\
                           TableObject.name t = TableObject.name t0 /\
                           TableObject.x t = TableObject.x t0 /\
                           TableObject.y t = TableObject.y t0)
        (tablesRef s) (tablesRef s') /\
      sameOutsideInterpreter s s' in
    (forall landmarks : Hand,
        isPinchingHand landmarks = false ->
        unmoved (processHand now W H s landmarks)) /\
    (forall results,
        handsOf results = [] ->
        unmoved (processLandmarks now W H results s)) /\
    (forall results,
        Forall (fun h => isPinchingHand h = false) (handsOf results) ->
        unmoved (processLandmarks now W H results s)).
Proof.
  intros now W H s Hs unmoved.
  assert (Hrel : unmoved (pinchRelease s)).
  { split; [reflexivity|]. split; [apply pinchRelease_frame|].
    split; [apply releaseFrame_positions, pinchRelease_frame|].
    apply pinchRelease_outside. }
  assert (Hlost : unmoved (handsLost s)).
  { split; [reflexivity|]. split; [apply handsLost_frame|].
    split; [apply releaseFrame_positions, handsLost_frame|].
    apply handsLost_outside. }
  assert (Hhand : forall landmarks : Hand,
             isPinchingHand landmarks = false ->
             processHand now W H s landmarks = pinchRelease s).
  { intros landmarks Hh. unfold processHand. now rewrite Hh, Hs. }
  assert (Hnone : forall results,
             handsOf results = [] ->
             processLandmarks now W H results s = handsLost s).
  { intros results Hr. unfold processLandmarks.
    destruct results as [[|h r]|]; simpl in Hr; try discriminate;
      now rewrite Hs. }
  split; [|split].
  - intros landmarks Hh. now rewrite Hhand.
  - intros results Hr. now rewrite Hnone.
  - intros results Hall.
    destruct (handsOf results) as [|h r] eqn:Hr;
      [now rewrite Hnone|].
    destruct results as [hands|]; simpl in Hr; [subst hands | discriminate].
    inversion Hall as [|? ? Hh Hrest]; subst.
    unfold processLandmarks. simpl. rewrite (Hhand h Hh).
    rewrite fold_open_hands_idle; [exact Hrel | reflexivity | exact Hrest].
Qed.

Example draggingState_users :
  option_map
    (fun t => (TableObject.name t, Qred (TableObject.x t),
               Qred (TableObject.y t), TableObject.isDragging t))
    (findTable "users-0-0" (tablesRef draggingState))
  = Some ("users"%string, 1 # 2, 7 # 10, true) /\
  draggedTableRef draggingState = Some "users-0-0"%string /\
  droppedTablesRef draggingState = [].
Proof. vm_compute. repeat split. Qed.

Lemma pinch_release_moves_no_table_witness :
  let s' :=
    processLandmarks 300 1280 720 (Some [openHand]) draggingState in
  PinchState.isPinching (pinchStateRef s') = false /\
  releaseFrame draggingState s' /\
  Forall2 (fun t0 t => TableObject.id t = TableObject.id t0 /\
                       TableObject.name t = TableObject.name t0 /\
                       TableObject.x t = TableObject.x t0 /\
                       TableObject.y t = TableObject.y t0)
    (tablesRef draggingState) (tablesRef s') /\
  sameOutsideInterpreter draggingState s'.
Proof.
  refine (proj2 (proj2
            (pinch_release_moves_no_table 300 1280 720 draggingState _))
            (Some [openHand]) _).
  - reflexivity.
  - repeat constructor.
Defined.

(* ================================================================== *)
(** ** Dropped tables *)

Lemma array_includes_In (arr : list string) (n : string) :
  array_includes arr n = true <-> In n arr.
Proof.
  unfold array_includes. rewrite existsb_exists. split.
  - intros (m & Hin & Heq). apply String.eqb_eq in Heq. now subst.
  - intros Hin. exists n. split; [exact Hin | apply String.eqb_refl].
Qed.

Lemma NoDup_push (arr : list string) (n : string) :
  NoDup arr -> array_includes arr n = false -> NoDup (arr ++ [n]).
Proof.
  intros Hnd Hinc.
  assert (Hnot : ~ In n arr).
  { rewrite <- array_includes_In. now rewrite Hinc. }
  clear Hinc. induction Hnd as [|a l Ha Hl IH]; simpl.
  - constructor; [intros [] | constructor].
  - constructor.
    + rewrite in_app_iff. intros [Hin | [-> | []]]; [auto|].
      apply Hnot. now left.
    + apply IH. intros Hin. apply Hnot. now right.
Qed.

Lemma droppedTablesRef_pressGenerate now s :
  droppedTablesRef (pressGenerate now s) = droppedTablesRef s.
Proof.
  unfold pressGenerate. st.
  destruct (buttonClickedRef s); st; [reflexivity|].
  destruct (List.length (droppedTablesRef s) =? 0)%nat; reflexivity.
Qed.

Lemma droppedTablesRef_pinchStart now W H px py s :
  droppedTablesRef (pinchStart now W H px py s) = droppedTablesRef s.
Proof.
  unfold pinchStart. destruct (hitsButton W H px py); st.
  - apply droppedTablesRef_pressGenerate.
  - destruct (snd (grabTable px py (60 / Math_min W H) (tablesRef s)));
      reflexivity.
Qed.

Lemma droppedTablesRef_pinchMove px py s :
  droppedTablesRef (pinchMove px py s) = droppedTablesRef s.
Proof.
  unfold pinchMove. destruct (truthy (draggedTableRef s)); reflexivity.
Qed.

Lemma droppedTablesRef_handsLost s :
  droppedTablesRef (handsLost s) = droppedTablesRef s.
Proof.
  unfold handsLost. st. destruct (truthy (draggedTableRef s)); st; auto.
  destruct (findTable (refId (draggedTableRef s)) (tablesRef s));
    reflexivity.
Qed.

(** The only [push]: guarded by [includes], it appends a name that is not
    there yet. *)
Lemma droppedTablesRef_pinchRelease s :
  droppedTablesRef (pinchRelease s) = droppedTablesRef s \/
  exists t,
    findTable (refId (draggedTableRef s)) (tablesRef s) = Some t /\
    array_includes (droppedTablesRef s) (TableObject.name t) = false /\
    droppedTablesRef (pinchRelease s)
    = droppedTablesRef s ++ [TableObject.name t].
Proof.
  unfold pinchRelease. st.
  destruct (truthy (draggedTableRef s)); st; auto.
  destruct (findTable (refId (draggedTableRef s)) (tablesRef s)) as [t|];
    st; auto.
  destruct (inDropZone (TableObject.x t) (TableObject.y t)); st; auto.
  destruct (array_includes (droppedTablesRef s) (TableObject.name t))
    eqn:E; st; auto.
  right. exists t. auto.
Qed.

Lemma NoDup_processHand now W H s landmarks :
  NoDup (droppedTablesRef s) ->
  NoDup (droppedTablesRef (processHand now W H s landmarks)).
Proof.
  intros Hnd. unfold processHand.
  destruct (isPinchingHand landmarks);
    destruct (PinchState.isPinching (pinchStateRef s)); st; auto.
  - now rewrite droppedTablesRef_pinchMove.
  - now rewrite droppedTablesRef_pinchStart.
  - destruct (droppedTablesRef_pinchRelease s) as [-> | (t & _ & Hi & ->)];
      [exact Hnd | now apply NoDup_push].
Qed.

Lemma NoDup_processLandmarks now W H results s :
  NoDup (droppedTablesRef s) ->
  NoDup (droppedTablesRef (processLandmarks now W H results s)).
Proof.
  assert (Hfold : forall hands s0,
             NoDup (droppedTablesRef s0) ->
             NoDup (droppedTablesRef
                      (fold_left (processHand now W H) hands s0))).
  { induction hands as [|h r IH]; intros s0 H0; simpl; auto.
    apply IH. now apply NoDup_processHand. }
  intros Hnd. unfold processLandmarks.
  destruct results as [[|h r]|]; try (now apply Hfold);
    destruct (PinchState.isPinching (pinchStateRef s)); auto;
    now rewrite droppedTablesRef_handsLost.
Qed.

Lemma droppedTablesRef_processSwipe now results s :
  droppedTablesRef (fst (processSwipe now results s)) = droppedTablesRef s.
Proof.
  unfold processSwipe. destruct results as [[|h r]|]; try reflexivity.
  unfold detectSwipe.
  repeat match goal with
         | |- context [if ?c then _ else _] => destruct c
         end; reflexivity.
Qed.

Lemma NoDup_runTimer now cb s :
  NoDup (droppedTablesRef s) -> NoDup (droppedTablesRef (runTimer now cb s)).
Proof. destruct cb; simpl; auto. constructor. Qed.

Lemma NoDup_step s e :
  NoDup (droppedTablesRef s) -> NoDup (droppedTablesRef (step s e)).
Proof.
  intros Hnd. destruct e as [currentTime now W H results | now k | d |];
    simpl.
  - unfold renderLoop.
    destruct (ltb (currentTime - lastFrameTime s) frameInterval); auto.
    destruct (showChart (set_lastFrameTime currentTime s)).
    + now rewrite droppedTablesRef_processSwipe.
    + now apply NoDup_processLandmarks.
  - unfold fireTimer.
    destruct (nth_error (timers s) k) as [[due cb]|]; auto.
    destruct (due <=? now)%Z; auto. now apply NoDup_runTimer.
  - exact Hnd.
  - exact Hnd.
Qed.

Lemma NoDup_run es s :
  NoDup (droppedTablesRef s) -> NoDup (droppedTablesRef (run es s)).
Proof.
  unfold run. revert s. induction es as [|e es IH]; intros s Hnd; simpl.
  - exact Hnd.
  - apply IH. now apply NoDup_step.
Qed.

(** C6. The dropped tables never hold a name twice: from start-up, after
    any sequence of frames, timers and data deliveries the list has no
    duplicates; and releasing a table whose name is already listed leaves
    the list as it was. *)
Theorem droppedTables_has_no_duplicates :
  (forall now availableTables es,
      NoDup (droppedTablesRef (run es (initialState now availableTables)))) /\
  (forall es s,
      NoDup (droppedTablesRef s) -> NoDup (droppedTablesRef (run es s))) /\
  (forall s t,
      findTable (refId (draggedTableRef s)) (tablesRef s) = Some t ->
      In (TableObject.name t) (droppedTablesRef s) ->
      droppedTablesRef (pinchRelease s) = droppedTablesRef s).
Proof.
  split; [|split].
  - intros now availableTables es. apply NoDup_run. constructor.
  - exact NoDup_run.
  - intros s t Hf Hin.
    destruct (droppedTablesRef_pinchRelease s) as [H | (t' & Hf' & Hi & _)];
      [exact H|].
    rewrite Hf in Hf'. injection Hf' as <-.
    apply array_includes_In in Hin. congruence.
Qed.

(** The same table dropped twice is listed once. *)
Example dropUsersTwice_listed_once :
  droppedTablesRef (run dropUsersTwice freshState) = ["users"%string].
Proof. vm_compute. reflexivity. Qed.

(* ================================================================== *)
(** ** The two ways a pinch ends *)

(** With a hand in view, the release does all of: latches reset, dragging
    flag cleared, drop-zone test on the current position, guarded append,
    drag reference released. *)
Lemma pinchRelease_effects s :
  let s' := pinchRelease s in
  generateButtonHoverRef s' = false /\
  buttonClickedRef s' = false /\
  PinchState.isPinching (pinchStateRef s') = false /\
  truthy (draggedTableRef s') = false /\
  (truthy (draggedTableRef s) = true ->
   draggedTableRef s' = None /\
   forall t,
     findTable (refId (draggedTableRef s)) (tablesRef s) = Some t ->
     findTable (refId (draggedTableRef s)) (tablesRef s')
     = Some (TableObject.set_isDragging false t) /\
     droppedTablesRef s'
     = if inDropZone (TableObject.x t) (TableObject.y t)
          && negb (array_includes (droppedTablesRef s) (TableObject.name t))
       then droppedTablesRef s ++ [TableObject.name t]
       else droppedTablesRef s).
Proof.
  unfold pinchRelease. st.
  destruct (truthy (draggedTableRef s)) eqn:Ht; st.
  - destruct (findTable (refId (draggedTableRef s)) (tablesRef s)) as [t|]
      eqn:Hf; st.
    + destruct (inDropZone (TableObject.x t) (TableObject.y t)) eqn:Ez; st;
        [destruct (array_includes (droppedTablesRef s) (TableObject.name t))
           eqn:Ei; st|];
        (do 4 (split; [reflexivity|]); intros _; split; [reflexivity|];
         intros t' [= <-]; rewrite Ez, ?Ei;
         split; [now apply findTable_updateTable | reflexivity]).
    + do 4 (split; [reflexivity|]). intros _. split; [reflexivity|].
      intros t' [=].
  - do 3 (split; [reflexivity|]). split; [exact Ht | discriminate].
Qed.

(** When the hands are lost instead, neither the dropped tables nor the
    click latch are touched. *)
Lemma handsLost_effects s :
  let s' := handsLost s in
  generateButtonHoverRef s' = false /\
  PinchState.isPinching (pinchStateRef s') = false /\
  truthy (draggedTableRef s') = false /\
  droppedTablesRef s' = droppedTablesRef s /\
  buttonClickedRef s' = buttonClickedRef s.
Proof.
  unfold handsLost. st.
  destruct (truthy (draggedTableRef s)) eqn:Ht; st.
  - destruct (findTable (refId (draggedTableRef s)) (tablesRef s));
      repeat split; reflexivity.
  - repeat split; try reflexivity. exact Ht.
Qed.

(** C1 (where the code departs from it). A table carried into the drop
    zone is listed when the pinch opens with the hand in view, and is not
    listed when the pinch ends because the hands left the frame; a click
    latch set by pinching Generate is reset by the first and survives the
    second. *)
Theorem hands_lost_skips_drop_and_click_reset :
  let released :=
    step draggingState (Frame 300 300 1280 720 (Some [openHand])) in
  let lost := step draggingState (Frame 300 300 1280 720 None) in
  let pressed := step freshState pinchGenerate in
  (PinchState.isPinching (pinchStateRef draggingState) = true /\
   PinchState.isPinching (pinchStateRef released) = false /\
   PinchState.isPinching (pinchStateRef lost) = false) /\
  (droppedTablesRef released = ["users"%string] /\
   droppedTablesRef lost = []) /\
  (buttonClickedRef pressed = true /\
   buttonClickedRef
     (step pressed (Frame 200 200 1280 720 (Some [openHand]))) = false /\
   buttonClickedRef (step pressed (Frame 200 200 1280 720 None)) = true).
Proof. vm_compute. repeat split. Qed.

(** Pinching Generate with nothing dropped raises the error toast and
    asks for no data. *)
Lemma generate_with_nothing_dropped now s :
  buttonClickedRef s = false ->
  droppedTablesRef s = [] ->
  let s' := pressGenerate now s in
  toast s'
  = Some ("Please drop at least one table into the drop zone"%string, error)
  /\ fetchCalls s' = fetchCalls s
  /\ timers s' = timers s ++ [((now + 3000)%Z, ClearToast)]
  /\ buttonClickedRef s' = true
  /\ generateButtonHoverRef s' = true.
Proof.
  intros Hc Hd. unfold pressGenerate. st. rewrite Hc, Hd. st.
  repeat split.
Qed.

Lemma generate_with_nothing_dropped_witness :
  let s' := pressGenerate 100 freshState in
  toast s'
  = Some ("Please drop at least one table into the drop zone"%string, error)
  /\ fetchCalls s' = fetchCalls freshState
  /\ timers s' = timers freshState ++ [((100 + 3000)%Z, ClearToast)]
  /\ buttonClickedRef s' = true
  /\ generateButtonHoverRef s' = true.
Proof.
  apply (generate_with_nothing_dropped 100 freshState); reflexivity.
Defined.

(* ================================================================== *)
(** ** Transitions per tick *)

(** C9 (where the code departs from it). A frame with two hands, the first
    pinching and the second open, makes the pinch flag change twice within
    one tick: set by the first hand, cleared by the second. *)
Theorem two_hands_flip_pinch_flag_twice :
  let hands := [pinchedHandAt 0.5 0.5; openHand] in
  flagsDuring 100 1280 720 freshState hands = [true; false] /\
  changes (PinchState.isPinching (pinchStateRef freshState))
    (flagsDuring 100 1280 720 freshState hands) = 2%nat /\
  PinchState.isPinching
    (pinchStateRef
       (renderLoop 100 100 1280 720 (Some hands) freshState)) = false.
Proof. vm_compute. repeat split. Qed.


(** The click latch is defeated by the same frames: every tick presses
    Generate again. *)
Example two_hands_generate_every_tick :
  let frame t :=
    Frame t 0 1280 720 (Some [pinchedHandAt 0.303125 0.7; openHand]) in
  List.length
    (fetchCalls
       (run [frame 400; frame 500; frame 600]
          (step draggingState
             (Frame 300 300 1280 720 (Some [openHand])))))
  = 3%nat.
Proof. vm_compute. reflexivity. Qed.

(* ================================================================== *)
(** ** Swipe to dismiss *)

(** On a tick that continues a tracked swipe, the dismissal is decided by
    the three thresholds and by nothing else. *)
Lemma detectSwipe_tracking now s (landmarks : Hand) :
  ltb (Landmark.y (landmarks 8%nat)) (Landmark.y (landmarks 6%nat)) = true ->
  SwipeState.isTracking (swipeStateRef s) = true ->
  snd (detectSwipe now s landmarks)
  = gtb (Math_abs ((1 - Landmark.x (landmarks 8%nat))
                   - SwipeState.startX (swipeStateRef s))) 0.3
    && ltb (Math_abs (Landmark.y (landmarks 8%nat)
                      - SwipeState.startY (swipeStateRef s))) 0.2
    && (now - SwipeState.startTime (swipeStateRef s) <? 1000)%Z.
Proof.
  intros He Ht. unfold detectSwipe. rewrite He, Ht. st.
  destruct (gtb _ 0.3 && ltb _ 0.2 && (_ <? 1000)%Z); st; [reflexivity|].
  destruct (_ >? 1000)%Z; reflexivity.
Qed.

Lemma detectSwipe_not_tracking now s (landmarks : Hand) :
  ltb (Landmark.y (landmarks 8%nat)) (Landmark.y (landmarks 6%nat)) = false
  \/ SwipeState.isTracking (swipeStateRef s) = false ->
  snd (detectSwipe now s landmarks) = false.
Proof.
  unfold detectSwipe. intros [He | Ht].
  - now rewrite He.
  - rewrite Ht. destruct (ltb _ _); reflexivity.
Qed.

(** What a dismissal does, and that nothing else starts the exit. *)
Lemma detectSwipe_effect now s (landmarks : Hand) :
  let r := detectSwipe now s landmarks in
  (snd r = true ->
   chartAnimationState (fst r) = exiting /\
   chartAnimationStartRef (fst r) = now /\
   timers (fst r) = timers s ++ [((now + 600)%Z, FinishHide)] /\
   SwipeState.isTracking (swipeStateRef (fst r)) = false) /\
  (snd r = false ->
   chartAnimationState (fst r) = chartAnimationState s /\
   timers (fst r) = timers s).
Proof.
  unfold detectSwipe.
  destruct (ltb _ _); st; [|split; [discriminate | now split]].
  destruct (SwipeState.isTracking (swipeStateRef s)); st;
    [|split; [discriminate | now split]].
  destruct (gtb _ 0.3 && ltb _ 0.2 && (_ <? 1000)%Z); st.
  - split; [now repeat split | discriminate].
  - destruct (_ >? 1000)%Z; st; (split; [discriminate | now split]).
Qed.

(** C4. While the chart is shown, a tick dismisses it if and only if a
    hand is in the frame with its index finger extended, the swipe was
    already being tracked, and, measured from the tracking start,
    |dx| > 0.3 and |dy| < 0.2 and the elapsed time is below 1000ms; when
    any one of the three fails there is no dismissal on that tick.  A
    dismissal is the call of [hideChartWithAnimation]: the animation
    state becomes [exiting]; without it the state is unchanged. *)
Theorem swipe_dismisses_iff_thresholds :
  forall now results s,
    let fired := snd (processSwipe now results s) in
    let s' := fst (processSwipe now results s) in
    (fired = true <->
     exists landmarks rest,
       results = Some (landmarks :: rest) /\
       Landmark.y (landmarks 8%nat) < Landmark.y (landmarks 6%nat) /\
       SwipeState.isTracking (swipeStateRef s) = true /\
       0.3 < Qabs ((1 - Landmark.x (landmarks 8%nat))
                   - SwipeState.startX (swipeStateRef s)) /\
       Qabs (Landmark.y (landmarks 8%nat)
             - SwipeState.startY (swipeStateRef s)) < 0.2 /\
       (now - SwipeState.startTime (swipeStateRef s) < 1000)%Z) /\
    (fired = true -> chartAnimationState s' = exiting) /\
    (fired = false -> chartAnimationState s' = chartAnimationState s).
Proof.
  intros now results s fired s'. subst fired s'. split.
  - unfold processSwipe. destruct results as [[|h r]|]; simpl.
    + split; [discriminate | intros (l & r & [=] & _)].
    + destruct (ltb (Landmark.y (h 8%nat)) (Landmark.y (h 6%nat))) eqn:He;
        [destruct (SwipeState.isTracking (swipeStateRef s)) eqn:Ht|].
      * rewrite (detectSwipe_tracking now s h He Ht).
        rewrite !andb_true_iff. unfold gtb, Math_abs.
        rewrite !ltb_lt, Z.ltb_lt. apply ltb_lt in He. split.
        -- intros [[Hx Hy] Hz]. exists h, r. auto 10.
        -- intros (l & r' & [= <- <-] & _ & _ & Hx & Hy & Hz). auto.
      * rewrite detectSwipe_not_tracking by now right. split; [discriminate|].
        intros (l & r' & [= <- <-] & _ & Ht' & _). congruence.
      * rewrite detectSwipe_not_tracking by now left. split; [discriminate|].
        intros (l & r' & [= <- <-] & He' & _).
        apply ltb_lt in He'. congruence.
    + split; [discriminate | intros (l & r & [=] & _)].
  - unfold processSwipe. destruct results as [[|h r]|]; simpl;
      try (split; [discriminate | reflexivity]).
    destruct (detectSwipe_effect now s h) as [Hy Hn]. split; intros Hf.
    + now apply Hy.
    + now apply Hn.
Qed.

(** A quick horizontal sweep dismisses; a slow one, a short one and a
    slanted one do not. *)
Example swipe_samples :
  let shown := set_showChart true freshState in
  let start := Frame 100 1000 1280 720 (Some [pointingHandAt 0.8 0.5]) in
  let tracking := step shown start in
  let tick t now hand := Frame t now 1280 720 (Some [hand]) in
  SwipeState.isTracking (swipeStateRef tracking) = true /\
  chartAnimationState
    (step tracking (tick 200 1400%Z (pointingHandAt 0.4 0.5))) = exiting /\
  chartAnimationState
    (step tracking (tick 200 2000%Z (pointingHandAt 0.4 0.5))) = hidden /\
  chartAnimationState
    (step tracking (tick 200 1400%Z (pointingHandAt 0.5 0.5))) = hidden /\
  chartAnimationState
    (step tracking (tick 200 1400%Z (pointingHandAt 0.4 0.7))) = hidden.
Proof. vm_compute. repeat split. Qed.

(* ================================================================== *)
(** ** Chart animation *)

Lemma progress_within (t d : Z) :
  (0 < d)%Z -> (t <= d)%Z ->
  Math_min (inject_Z t / inject_Z d) 1 = inject_Z t / inject_Z d.
Proof.
  intros Hd Ht. unfold Math_min.
  assert (Hle : inject_Z t / inject_Z d <= 1).
  { apply Qle_shift_div_r.
    - replace 0 with (inject_Z 0) by reflexivity. now rewrite <- Zlt_Qlt.
    - rewrite Qmult_1_l. now rewrite <- Zle_Qle. }
  apply ltb_ge in Hle. now rewrite Hle.
Qed.

Lemma nth_error_snoc {A} (l : list A) (x : A) :
  nth_error (l ++ [x]) (List.length l) = Some x.
Proof. induction l; simpl; auto. Qed.

Lemma firstn_skipn_snoc {A} (l : list A) (x : A) :
  firstn (List.length l) (l ++ [x])
  ++ skipn (S (List.length l)) (l ++ [x]) = l.
Proof.
  induction l as [|a l IH]; simpl; [reflexivity|].
  f_equal. exact IH.
Qed.

(** The exit started by [hideChartWithAnimation]: its timer is the one
    queued last, it cannot run before 600ms have passed, and when it runs
    the chart is hidden and both the dataset and the dropped tables are
    cleared. *)
Lemma hideChartWithAnimation_exit now s :
  let s1 := hideChartWithAnimation now s in
  let k := List.length (timers s) in
  chartAnimationState s1 = exiting /\
  renderChartView now s1 = chartTransform exiting 0 /\
  renderChartView (now + 600) s1 = chartTransform exiting 600 /\
  nth_error (timers s1) k = Some ((now + 600)%Z, FinishHide) /\
  (forall t, (t < now + 600)%Z -> fireTimer t k s1 = s1) /\
  (let s2 := fireTimer (now + 600) k s1 in
   chartAnimationState s2 = hidden /\
   showChart s2 = false /\
   chartData s2 = ChartData.empty /\
   droppedTablesRef s2 = [] /\
   timers s2 = timers s).
Proof.
  intros s1 k. subst s1 k.
  split; [reflexivity|]. split.
  { unfold renderChartView. st. now rewrite Z.sub_diag. }
  split.
  { unfold renderChartView. st. f_equal. lia. }
  split; [st; apply nth_error_snoc|]. split.
  - intros t Ht. unfold fireTimer. st. rewrite nth_error_snoc.
    destruct (now + 600 <=? t)%Z eqn:E; [|reflexivity].
    apply Z.leb_le in E. lia.
  - unfold fireTimer. st. rewrite nth_error_snoc, Z.leb_refl.
    rewrite firstn_skipn_snoc. repeat split.
Qed.

(** The entrance started by [showChartWithAnimation] draws from the start
    time on, and its timer, due after 800ms, makes the chart visible. *)
Lemma showChartWithAnimation_enter now s :
  let s1 := showChartWithAnimation now s in
  let k := List.length (timers s) in
  showChart s1 = true /\
  chartAnimationState s1 = entering /\
  renderChartView now s1 = chartTransform entering 0 /\
  renderChartView (now + 800) s1 = chartTransform entering 800 /\
  nth_error (timers s1) k = Some ((now + 800)%Z, BecomeVisible) /\
  chartAnimationState (fireTimer (now + 800) k s1) = visible.
Proof.
  intros s1 k. subst s1 k.
  split; [reflexivity|]. split; [reflexivity|]. split.
  { unfold renderChartView. st. now rewrite Z.sub_diag. }
  split.
  { unfold renderChartView. st. f_equal. lia. }
  split; [st; apply nth_error_snoc|].
  unfold fireTimer. st. now rewrite nth_error_snoc, Z.leb_refl.
Qed.

(** C7. Entering: scale 0.3 and opacity 0 at t = 0, scale 1 and opacity 1
    at t = 800ms, and the cubic ease-out 1 - (1 - t/800)^3 in between.
    Exiting: the quadratic ease-out 1 - (1 - t/600)^2, reaching scale 0.3
    and opacity 0 at t = 600ms; an exit started from the visible state
    draws exactly that at 600ms, which is when its timer may run, and the
    timer makes the state hidden and clears the dataset and the dropped
    tables. *)
Theorem chart_animation_profile :
  (fst (chartTransform entering 0) == 0.3 /\
   snd (chartTransform entering 0) == 0) /\
  (fst (chartTransform entering 800) == 1 /\
   snd (chartTransform entering 800) == 1) /\
  (forall t, (0 <= t <= 800)%Z ->
     let eased := 1 - (1 - inject_Z t / 800) ^ 3 in
     fst (chartTransform entering t) == 0.3 + 0.7 * eased /\
     snd (chartTransform entering t) == eased) /\
  (fst (chartTransform exiting 600) == 0.3 /\
   snd (chartTransform exiting 600) == 0) /\
  (forall t, (0 <= t <= 600)%Z ->
     let eased := 1 - (1 - inject_Z t / 600) ^ 2 in
     fst (chartTransform exiting t) == 1 - 0.7 * eased /\
     snd (chartTransform exiting t) == 1 - eased) /\
  (forall now s,
     chartAnimationState s = visible ->
     let s1 := hideChartWithAnimation now s in
     let k := List.length (timers s) in
     chartAnimationState s1 = exiting /\
     fst (renderChartView (now + 600) s1) == 0.3 /\
     snd (renderChartView (now + 600) s1) == 0 /\
     nth_error (timers s1) k = Some ((now + 600)%Z, FinishHide) /\
     (forall t, (t < now + 600)%Z -> fireTimer t k s1 = s1) /\
     let s2 := fireTimer (now + 600) k s1 in
     chartAnimationState s2 = hidden /\
     showChart s2 = false /\
     chartData s2 = ChartData.empty /\
     droppedTablesRef s2 = []).
Proof.
  split; [split; vm_compute; reflexivity|].
  split; [split; vm_compute; reflexivity|].
  split.
  { intros t [_ Ht] eased. subst eased. unfold chartTransform, Math_pow.
    change 800 with (inject_Z 800).
    rewrite (progress_within t 800) by lia. split; reflexivity. }
  split; [split; vm_compute; reflexivity|].
  split.
  { intros t [_ Ht] eased. subst eased. unfold chartTransform, Math_pow.
    change 600 with (inject_Z 600).
    rewrite (progress_within t 600) by lia. split; reflexivity. }
  intros now s _ s1 k.
  destruct (hideChartWithAnimation_exit now s)
    as (H1 & _ & H2 & H3 & H4 & H5 & H6 & H7 & H8 & _).
  fold s1 k in H1, H2, H3, H4, H5, H6, H7, H8.
  split; [exact H1|]. rewrite H2.
  split; [vm_compute; reflexivity|]. split; [vm_compute; reflexivity|].
  repeat split; assumption.
Qed.

(* ================================================================== *)
(** ** Relationship detection *)

Lemma find_filter {A} (f : A -> bool) (l : list A) (x : A) :
  find f l = Some x -> exists rest, filter f l = x :: rest.
Proof.
  induction l as [|a l IH]; simpl; [discriminate|].
  destruct (f a) eqn:E.
  - intros [= ->]. eauto.
  - exact IH.
Qed.

Lemma filter_none {A} (f : A -> bool) (l : list A) :
  (forall x, In x l -> f x = false) -> filter f l = [].
Proof.
  induction l as [|a l IH]; simpl; intros H; [reflexivity|].
  rewrite (H a) by now left. apply IH. intros x Hx. apply H. now right.
Qed.

Lemma length_eqb_0 {A} (l : list A) :
  l <> [] -> (List.length l =? 0)%nat = false.
Proof. destruct l; [congruence | reflexivity]. Qed.

Lemma isEmptyString_false (s : string) :
  s <> EmptyString -> isEmptyString s = false.
Proof. intros H. apply String.eqb_neq. exact H. Qed.

Lemma append_nonempty (a b : string) :
  b <> EmptyString -> (a ++ b)%string <> EmptyString.
Proof. destruct a; simpl; [auto | discriminate]. Qed.

(** The claim as stated fails: "posts" alone has an [<other>_id] column
    ([users_id]; "users" has no [posts_id]), yet the two name orders give
    different relationships, because the counter column [posts_count] of
    "users" contains the name "posts". *)
Lemma detect_differs_between_orders :
  let allData := [usersRowWithCounter; postsRow] in
  (array_includes (columnsOf (filter (fromTable "posts") allData)) "users_id"
   = true /\
   array_includes (columnsOf (filter (fromTable "users") allData)) "posts_id"
   = false) /\
  option_map relationshipTuple
    (detectTableRelationships ["users"; "posts"]%string allData)
  = Some ("users", "posts", "posts_count")%string /\
  option_map relationshipTuple
    (detectTableRelationships ["posts"; "users"]%string allData)
  = Some ("posts", "users", "users_id")%string.
Proof. vm_compute. repeat split. Qed.

(** C8 (amended). Let [A] and [B] be two distinct, non-empty table names,
    each with at least one tagged record.  If the first column of [A]'s
    first record whose lower-cased name contains [B]'s lower-cased name is
    [B_id], and no column of [B]'s first record contains [A]'s lower-cased
    name, then both name orders return the same relationship: [A]
    references [B] through [B_id], with each table's own records. *)
Theorem detect_same_in_both_orders :
  forall (A B : string) (allData : list ChartDataItem),
    A <> B -> A <> EmptyString -> B <> EmptyString ->
    filter (fromTable A) allData <> [] ->
    filter (fromTable B) allData <> [] ->
    find (refersTo B) (columnsOf (filter (fromTable A) allData))
    = Some (B ++ "_id")%string ->
    (forall c, In c (columnsOf (filter (fromTable B) allData)) ->
               refersTo A c = false) ->
    let expected :=
      Some (Detected.mk (B ++ "_id") A B
              (filter (fromTable A) allData)
              (filter (fromTable B) allData)) in
    detectTableRelationships [A; B] allData = expected /\
    detectTableRelationships [B; A] allData = expected.
Proof.
  intros A B allData Hab Ha Hb HrA HrB Hfind Hnone expected. subst expected.
  destruct (find_filter _ _ _ Hfind) as [rest Hfilter].
  assert (Hfk : isEmptyString (B ++ "_id") = false).
  { apply isEmptyString_false, append_nonempty. discriminate. }
  assert (Hba : String.eqb B A = false).
  { apply String.eqb_neq. congruence. }
  assert (Hab' : String.eqb A B = false) by now apply String.eqb_neq.
  unfold detectTableRelationships.
  rewrite (length_eqb_0 _ HrA), (length_eqb_0 _ HrB). simpl orb.
  rewrite Hfilter, (filter_none _ _ Hnone).
  rewrite Hfk, (isEmptyString_false _ Ha), (isEmptyString_false _ Hb).
  simpl orb. cbv iota. rewrite !String.eqb_refl, Hba, Hab'.
  split; reflexivity.
Qed.

Lemma detect_same_in_both_orders_witness :
  let allData := [usersRow; postsRow] in
  let expected :=
    Some (Detected.mk "users_id" "posts" "users" [postsRow] [usersRow]) in
  detectTableRelationships ["posts"; "users"]%string allData = expected /\
  detectTableRelationships ["users"; "posts"]%string allData = expected.
Proof.
  apply (detect_same_in_both_orders "posts" "users" [usersRow; postsRow]).
  - discriminate.
  - discriminate.
  - discriminate.
  - discriminate.
  - discriminate.
  - reflexivity.
  - intros c [<- | [<- | []]]; reflexivity.
Defined.

(* ================================================================== *)
(** ** The fetch never throws, and what it falls back to *)

Section FetchFacts.

Variable ToNumber : option Value -> option Q.
Variable ToString : option Value -> string.
Variable relationships : list Rel.t.
Variable w : World.

Lemma try_catch_returns {A} (body : Outcome A) (a : A) :
  exists r, try_catch body (Returned a) = Returned r.
Proof. destruct body; simpl; eauto. Qed.

Lemma fetchSeparate_returns :
  exists d, fetchSeparateEventsRegistrations w = Returned d.
Proof. apply try_catch_returns. Qed.

Lemma fetchEvents_returns :
  exists d, fetchEventsRegistrationsData w = Returned d.
Proof.
  unfold fetchEventsRegistrationsData.
  destruct fetchSeparate_returns as [d Hd].
  match goal with |- exists r, try_catch ?b _ = _ => destruct b eqn:E end;
    simpl; eauto.
Qed.

Lemma createJoinQuery_returns tableNames :
  exists r,
    createJoinQuery ToNumber ToString relationships w tableNames = Returned r.
Proof.
  unfold createJoinQuery.
  destruct tableNames as [|t1 [|t2 [|t3 r]]]; eauto.
  destruct (findSchemaRelationship relationships t1 t2); eauto.
  apply try_catch_returns.
Qed.

Lemma fetchTableData_returns tableNames :
  exists d,
    fetchTableData ToNumber ToString relationships w tableNames = Returned d.
Proof.
  unfold fetchTableData.
  destruct (_ && _ && (List.length tableNames =? 2)%nat).
  - apply fetchEvents_returns.
  - destruct (_ && _)%bool.
    + destruct (createJoinQuery_returns tableNames) as [[j|] ->]; simpl;
        eauto using try_catch_returns.
    + simpl. apply try_catch_returns.
Qed.

(** The events path under total failure. *)
Lemma awaitSelect_fails table columns :
  queryFails w table columns ->
  awaitSelect w table columns = Thrown \/
  exists data, awaitSelect w table columns = Returned (data, true).
Proof.
  unfold awaitSelect. intros [-> | [data ->]]; eauto.
Qed.

Lemma fetchSeparate_demo :
  eventsSeparateFails w ->
  fetchSeparateEventsRegistrations w = Returned (eventsChart (demoEvents w)).
Proof.
  unfold fetchSeparateEventsRegistrations, awaitImport.
  intros [Hi | [He | Hr]].
  - now rewrite Hi.
  - destruct (importSupabase w AtEventsSeparate); simpl; [|reflexivity].
    destruct (awaitSelect_fails _ _ He) as [-> | [d ->]]; simpl;
      [reflexivity|].
    destruct (awaitSelect w "registrations" "*") as [[d' e']|]; reflexivity.
  - destruct (importSupabase w AtEventsSeparate); simpl; [|reflexivity].
    destruct (awaitSelect w "events" "*") as [[d e]|]; simpl; [|reflexivity].
    destruct (awaitSelect_fails _ _ Hr) as [-> | [d' ->]]; simpl;
      [reflexivity|].
    now rewrite orb_true_r.
Qed.

Lemma fetchEvents_demo :
  eventsJoinFails w -> eventsSeparateFails w ->
  fetchEventsRegistrationsData w = Returned (eventsChart (demoEvents w)).
Proof.
  intros Hj Hs. unfold fetchEventsRegistrationsData, awaitImport.
  rewrite (fetchSeparate_demo Hs).
  destruct Hj as [Hi | Hq].
  - now rewrite Hi.
  - destruct (importSupabase w AtEventsJoin); simpl; [|reflexivity].
    destruct (awaitSelect_fails _ _ Hq) as [-> | [d ->]]; reflexivity.
Qed.

End FetchFacts.

(* ================================================================== *)
(** ** The demo datasets *)

Lemma floor_scaled_range (r : Q) (n : Z) :
  0 <= r -> r < 1 -> (0 < n)%Z ->
  (0 <= Math_floor (r * inject_Z n) < n)%Z.
Proof.
  intros H0 H1 Hn. unfold Math_floor.
  assert (Hq : 0 < inject_Z n).
  { replace 0 with (inject_Z 0) by reflexivity. now rewrite <- Zlt_Qlt. }
  split.
  - change 0%Z with (Qfloor 0). apply Qfloor_resp_le. nra.
  - rewrite Zlt_Qlt. eapply Qle_lt_trans; [apply Qfloor_le|]. nra.
Qed.

Lemma getField_setField_same key v item :
  getField key (setField key v item) = Some v.
Proof.
  induction item as [|[k x] item IH]; simpl.
  - now rewrite String.eqb_refl.
  - destruct (String.eqb k key) eqn:E; simpl; now rewrite E.
Qed.

Lemma getField_setField_other key key' v item :
  String.eqb key key' = false ->
  getField key' (setField key v item) = getField key' item.
Proof.
  intros Hne. induction item as [|[k x] item IH]; simpl.
  - now rewrite Hne.
  - destruct (String.eqb k key) eqn:E; simpl.
    + apply String.eqb_eq in E. subst k. now rewrite Hne.
    + now rewrite IH.
Qed.

Lemma string_length_append (a b : string) :
  String.length (a ++ b) = (String.length a + String.length b)%nat.
Proof. induction a; simpl; auto. Qed.

(** A foreign-key field name never collides with the table tag. *)
Lemma foreignKeyField_not_tag (a : string) :
  String.eqb (a ++ "_id") "_table" = false.
Proof.
  apply String.eqb_neq. intros H.
  pose proof (f_equal String.length H) as Hl.
  rewrite string_length_append in Hl. simpl in Hl.
  destruct a as [|c1 [|c2 [|c3 [|c4 a]]]]; simpl in *; try lia.
  discriminate.
Qed.

Section DemoData.

Variable w : World.
Hypothesis random_ok : randomInUnitInterval w.

(** The 8 demo events: ids 1..8, tagged "events", counts in [5, 55). *)
Lemma demoEvents_shape :
  List.length (demoEvents w) = 8%nat /\
  map (numField "id") (demoEvents w)
  = map (fun i => Some (inject_Z (Z.of_nat i))) (seq 1 8) /\
  Forall (fun e =>
            fromTable "events" e = true /\
            exists c, numField "registration_count" e = Some (inject_Z c) /\
                      (5 <= c < 55)%Z)
    (demoEvents w).
Proof.
  split; [reflexivity|]. split; [reflexivity|].
  unfold demoEvents. apply Forall_map, Forall_forall. intros i _.
  split; [reflexivity|].
  exists (Math_floor (random w i * 50) + 5)%Z. split; [reflexivity|].
  destruct (random_ok i) as [H0 H1].
  pose proof (floor_scaled_range (random w i) 50 H0 H1 eq_refl) as Hf.
  change (inject_Z 50) with 50 in Hf. lia.
Qed.

Lemma demoRecord_plain tableNames table tableIndex i k :
  ((List.length tableNames =? 2)%nat && (tableIndex =? 1)%nat) = false ->
  Object_keys (fst (demoRecord w tableNames table tableIndex i k)) = baseKeys
  /\ fromTable table (fst (demoRecord w tableNames table tableIndex i k))
     = true.
Proof.
  intros Hc. unfold demoRecord. rewrite Hc. simpl.
  split; [reflexivity|]. unfold fromTable. simpl. apply String.eqb_refl.
Qed.

Lemma demoRecord_keyed a b i k :
  let row := fst (demoRecord w [a; b] b 1 i k) in
  fromTable b row = true /\
  exists v, numField (a ++ "_id") row = Some (inject_Z v) /\ (1 <= v <= 5)%Z.
Proof.
  unfold demoRecord. cbv zeta.
  cbn [List.length Nat.eqb andb fst snd nth]. split.
  - unfold fromTable.
    rewrite getField_setField_other by apply foreignKeyField_not_tag.
    simpl. apply String.eqb_refl.
  - exists (Math_floor (random w (k + 1)%nat * 5) + 1)%Z. split.
    + unfold numField. now rewrite getField_setField_same.
    + destruct (random_ok (k + 1)%nat) as [H0 H1].
      pose proof (floor_scaled_range (random w (k + 1)%nat) 5 H0 H1 eq_refl)
        as Hf.
      change (inject_Z 5) with 5 in Hf. lia.
Qed.

Lemma demoRecordsFrom_length tableNames table tableIndex n i k :
  List.length (fst (demoRecordsFrom w tableNames table tableIndex i n k)) = n.
Proof.
  revert i k. induction n as [|n IH]; intros i k; simpl; [reflexivity|].
  now rewrite IH.
Qed.

Lemma demoRecordsFrom_Forall (P : ChartDataItem -> Prop)
    tableNames table tableIndex n i k :
  (forall i k, P (fst (demoRecord w tableNames table tableIndex i k))) ->
  Forall P (fst (demoRecordsFrom w tableNames table tableIndex i n k)).
Proof.
  intros HP. revert i k.
  induction n as [|n IH]; intros i k; simpl; constructor; auto.
Qed.

Lemma demoDataFrom_length tableNames tables tableIndex k :
  List.length (demoDataFrom w tableNames tables tableIndex k)
  = (5 * List.length tables)%nat.
Proof.
  revert tableIndex k.
  induction tables as [|t ts IH]; intros tableIndex k; [reflexivity|].
  cbn [demoDataFrom]. rewrite length_app, demoRecordsFrom_length, IH.
  simpl. lia.
Qed.

(** Unless exactly two tables are selected, every demo row has the five
    base fields only and is tagged with a selected table. *)
Lemma demoDataFrom_plain tableNames tables tableIndex k :
  (List.length tableNames =? 2)%nat = false ->
  Forall (fun row =>
            Object_keys row = baseKeys /\
            exists t, In t tables /\ fromTable t row = true)
    (demoDataFrom w tableNames tables tableIndex k).
Proof.
  intros Hn. revert tableIndex k.
  induction tables as [|t ts IH]; intros tableIndex k; [constructor|].
  cbn [demoDataFrom]. apply Forall_app. split.
  - apply demoRecordsFrom_Forall. intros i k'.
    destruct (demoRecord_plain tableNames t tableIndex i k') as [Hk Ht].
    { now rewrite Hn. }
    split; [exact Hk|]. exists t. split; [now left | exact Ht].
  - eapply Forall_impl; [|apply IH].
    intros row [Hk (t' & Hin & Ht')]. split; [exact Hk|].
    exists t'. split; [now right | exact Ht'].
Qed.

(** With exactly two tables, the first table's five rows are plain and the
    second table's five rows carry the foreign key [<first>_id], a number
    from 1 to 5. *)
Lemma demoData_two_tables a b :
  exists rowsA rowsB,
    demoData w [a; b] = rowsA ++ rowsB /\
    List.length rowsA = 5%nat /\ List.length rowsB = 5%nat /\
    Forall (fun row => Object_keys row = baseKeys /\ fromTable a row = true)
      rowsA /\
    Forall (fun row =>
              fromTable b row = true /\
              exists v, numField (a ++ "_id") row = Some (inject_Z v) /\
                        (1 <= v <= 5)%Z)
      rowsB.
Proof.
  unfold demoData. cbn [demoDataFrom].
  eexists _, _. split; [rewrite app_nil_r; reflexivity|].
  split; [apply demoRecordsFrom_length|].
  split; [apply demoRecordsFrom_length|]. split.
  - apply demoRecordsFrom_Forall. intros i k.
    now apply demoRecord_plain.
  - apply demoRecordsFrom_Forall. intros i k. apply demoRecord_keyed.
Qed.

End DemoData.

(* ================================================================== *)
(** ** The fetch as a whole *)

(** The claim as stated fails: the data client loads, the query for the
    selected table resolves with an error, and the dataset handed to the
    chart has no records at all (no demo rows are synthesized). *)
Lemma failed_queries_leave_dataset_empty :
  queryFails erroringWorld "users" "*" /\
  fetchTableData noNumber noString [] erroringWorld ["users"]%string
  = Returned (ChartData.plain ["users"]%string []) /\
  fetchTableData noNumber noString [] erroringWorld ["users"; "posts"]%string
  = Returned (ChartData.plain ["users"; "posts"]%string []).
Proof.
  split; [right; exists None; reflexivity|].
  split; reflexivity.
Qed.

(** C3 (amended). For every list of table names the fetch returns a
    dataset and never throws.  For the events + registrations pair, when
    the join query and the separate queries both fail, the dataset is the
    8 demo events, with counts in [5, 55).  Otherwise, when no join result
    is produced and the data client cannot be loaded, the dataset is 5 demo
    rows per table, the second table's rows carrying a foreign key to the
    first when exactly two tables are selected.  (A failing query for a
    single table of the generic path only skips that table.) *)
Theorem fetch_never_throws_total_failure_falls_back :
  forall ToNumber ToString relationships w tableNames,
    let fetched :=
      fetchTableData ToNumber ToString relationships w tableNames in
    (exists d, fetched = Returned d) /\
    (isEventsPair tableNames = true ->
     eventsJoinFails w -> eventsSeparateFails w ->
     fetched = Returned (eventsChart (demoEvents w))) /\
    (isEventsPair tableNames = false ->
     createJoinQuery ToNumber ToString relationships w tableNames
     = Returned None ->
     importSupabase w AtGenericFetch = false ->
     fetched = Returned (ChartData.plain tableNames (demoData w tableNames)))
    /\
    (randomInUnitInterval w ->
     (List.length (demoEvents w) = 8%nat /\
      Forall (fun e =>
                fromTable "events" e = true /\
                exists c,
                  numField "registration_count" e = Some (inject_Z c) /\
                  (5 <= c < 55)%Z)
        (demoEvents w)) /\
     List.length (demoData w tableNames)
     = (5 * List.length tableNames)%nat /\
     ((List.length tableNames =? 2)%nat = false ->
      Forall (fun row =>
                Object_keys row = baseKeys /\
                exists t, In t tableNames /\ fromTable t row = true)
        (demoData w tableNames)) /\
     (forall a b,
        tableNames = [a; b] ->
        exists rowsA rowsB,
          demoData w tableNames = rowsA ++ rowsB /\
          List.length rowsA = 5%nat /\ List.length rowsB = 5%nat /\
          Forall (fun row =>
                    Object_keys row = baseKeys /\ fromTable a row = true)
            rowsA /\
          Forall (fun row =>
                    fromTable b row = true /\
                    exists v,
                      numField (a ++ "_id") row = Some (inject_Z v) /\
                      (1 <= v <= 5)%Z)
            rowsB)).
Proof.
  intros ToNumber ToString relationships w tableNames fetched.
  subst fetched. split; [apply fetchTableData_returns|]. split; [|split].
  - intros Hp Hj Hs. unfold fetchTableData. unfold isEventsPair in Hp.
    rewrite Hp. now apply fetchEvents_demo.
  - intros Hp Hj Hi. unfold fetchTableData. unfold isEventsPair in Hp.
    rewrite Hp, Hj. unfold awaitImport. rewrite Hi.
    destruct ((List.length tableNames =? 2)%nat
              && (0 <? List.length relationships)%nat); reflexivity.
  - intros Hr. split; [|split; [|split]].
    + destruct (demoEvents_shape w Hr) as (Hl & _ & Hf). now split.
    + apply demoDataFrom_length.
    + intros Hn. now apply demoDataFrom_plain.
    + intros a b ->. now apply demoData_two_tables.
Qed.

(** With the data client unavailable, two selected tables get ten demo
    rows, and the events pair gets the eight demo events. *)
Lemma fetch_never_throws_total_failure_falls_back_witness :
  fetchTableData noNumber noString [] offlineWorld ["users"; "posts"]%string
  = Returned (ChartData.plain ["users"; "posts"]%string
                (demoData offlineWorld ["users"; "posts"]%string)) /\
  fetchTableData noNumber noString [] offlineWorld
    ["events"; "registrations"]%string
  = Returned (eventsChart (demoEvents offlineWorld)).
Proof.
  split.
  - apply (fetch_never_throws_total_failure_falls_back noNumber noString []
             offlineWorld ["users"; "posts"]%string); reflexivity.
  - apply (fetch_never_throws_total_failure_falls_back noNumber noString []
             offlineWorld ["events"; "registrations"]%string).
    + reflexivity.
    + left. reflexivity.
    + left. reflexivity.
Defined.

Example offline_demo_rows :
  map (fun row => (getField "_table" row, numField "users_id" row))
    (demoData offlineWorld ["users"; "posts"]%string)
  = [ (Some (VStr "users"), None); (Some (VStr "users"), None);
      (Some (VStr "users"), None); (Some (VStr "users"), None);
      (Some (VStr "users"), None);
      (Some (VStr "posts"), Some 4); (Some (VStr "posts"), Some 5);
      (Some (VStr "posts"), Some 1); (Some (VStr "posts"), Some 2);
      (Some (VStr "posts"), Some 3) ].
Proof. vm_compute. reflexivity. Qed.

(* ================================================================== *)
(** ** The best x-axis field *)

Lemma find_In {A} (f : A -> bool) (l : list A) (x : A) :
  find f l = Some x -> In x l /\ f x = true.
Proof.
  induction l as [|a l IH]; simpl; [discriminate|].
  destruct (f a) eqn:E.
  - intros [= ->]. auto.
  - intros H. destruct (IH H). auto.
Qed.

Lemma find_none_all {A} (f : A -> bool) (l : list A) :
  find f l = None -> forall x, In x l -> f x = false.
Proof.
  induction l as [|a l IH]; simpl; intros H x; [intros []|].
  destruct (f a) eqn:E; [discriminate|].
  intros [<- | Hin]; auto.
Qed.

Lemma find_some_exists {A} (f : A -> bool) (l : list A) (x : A) :
  In x l -> f x = true -> exists y, find f l = Some y.
Proof.
  induction l as [|a l IH]; simpl; [intros []|].
  intros Hin Hf. destruct (f a) eqn:E; [eauto|].
  destruct Hin as [-> | Hin]; [congruence | auto].
Qed.

(** The non-underscore keys of a record are keys of the record. *)
Lemma visible_key_is_key (sample : ChartDataItem) (k : string) :
  In k (filter (fun key => negb (startsWith key "_")) (Object_keys sample)) ->
  In k (Object_keys sample) /\ startsWith k "_" = false.
Proof.
  rewrite filter_In, negb_true_iff. auto.
Qed.

Lemma includes_nonempty (s sub : string) :
  sub <> EmptyString -> includes s sub = true -> s <> EmptyString.
Proof.
  intros Hs Hi ->. destruct sub; [congruence | discriminate].
Qed.

(** The branch [getBestXAxisField] takes on a non-empty dataset. *)
Lemma getBestXAxisField_cases (sample : ChartDataItem) rest :
  let keys := visibleKeys sample in
  let r := getBestXAxisField (sample :: rest) in
  let noDate := find (fun d => array_includes keys d) dateFields = None in
  let noTitle := find (mentions "title") keys = None in
  let noName := find (mentions "name") keys = None in
  find (fun d => array_includes keys d) dateFields = Some r \/
  (noDate /\ find (mentions "title") keys = Some r) \/
  (noDate /\ noTitle /\ find (mentions "name") keys = Some r) \/
  (noDate /\ noTitle /\ noName /\ r = "id"%string) \/
  (noDate /\ noTitle /\ noName /\ ~ In "id"%string keys /\
   hd_error keys = Some r /\ r <> EmptyString).
Proof.
  intros keys r noDate noTitle noName. subst r noDate noTitle noName.
  unfold getBestXAxisField.
  change (filter (fun key => negb (startsWith key "_")) (Object_keys sample))
    with keys.
  change (fun f => includes (toLowerCase f) "title") with (mentions "title").
  change (fun f => includes (toLowerCase f) "name") with (mentions "name").
  destruct (find (fun field => array_includes keys field) dateFields);
    [now left|].
  destruct (find (mentions "title") keys); [right; left; now split|].
  destruct (find (mentions "name") keys);
    [right; right; left; now repeat split|].
  destruct (array_includes keys "id") eqn:Hid;
    [right; right; right; left; now repeat split|].
  assert (Hnoid : ~ In "id"%string keys).
  { rewrite <- array_includes_In. now rewrite Hid. }
  destruct keys as [|f fs];
    [right; right; right; left; now repeat split|].
  destruct (isEmptyString f) eqn:Hf;
    [right; right; right; left; now repeat split|].
  right; right; right; right. repeat split; auto.
  intros ->. discriminate.
Qed.

(** The chosen axis field is never empty and never a key that starts with
    the table-tag marker; it is "id" or a key of the first record. *)
Lemma getBestXAxisField_usable (data : list ChartDataItem) :
  let r := getBestXAxisField data in
  r <> EmptyString /\
  startsWith r "_" = false /\
  (r = "id"%string \/
   exists sample rest, data = sample :: rest /\ In r (Object_keys sample)).
Proof.
  intros r. subst r. destruct data as [|sample rest].
  { simpl. split; [discriminate|]. split; [reflexivity | now left]. }
  assert (Hkey : forall k, In k (visibleKeys sample) ->
                   k <> EmptyString ->
                   k <> EmptyString /\ startsWith k "_" = false /\
                   (k = "id"%string \/
                    exists s r0, sample :: rest = s :: r0 /\
                                 In k (Object_keys s))).
  { intros k Hin Hne. destruct (visible_key_is_key _ _ Hin) as [Hk Hu].
    split; [exact Hne|]. split; [exact Hu|]. right. eauto. }
  destruct (getBestXAxisField_cases sample rest)
    as [Hd | [(_ & Ht) | [(_ & _ & Hn) | [(_ & _ & _ & ->) | H]]]].
  - destruct (find_In _ _ _ Hd) as [Hin Hinc].
    apply array_includes_In in Hinc. apply Hkey; [exact Hinc|].
    intros E. rewrite E in Hin. simpl in Hin. intuition discriminate.
  - destruct (find_In _ _ _ Ht) as [Hin Hm]. apply Hkey; [exact Hin|].
    intros E. rewrite E in Hm. discriminate.
  - destruct (find_In _ _ _ Hn) as [Hin Hm]. apply Hkey; [exact Hin|].
    intros E. rewrite E in Hm. discriminate.
  - split; [discriminate|]. split; [reflexivity | now left].
  - destruct H as (_ & _ & _ & _ & Hh & Hne). apply Hkey; [|exact Hne].
    destruct (visibleKeys sample); [discriminate|].
    injection Hh as ->. now left.
Qed.

(** An empty dataset gets "id".  On a non-empty one the precedence is: the
    first listed date field that the first record has; else its first key
    mentioning "title"; else its first key mentioning "name"; else "id" if
    it is a key; the result is always usable as a field name (not empty,
    not starting with the table-tag marker, "id" or a key of the first
    record). *)
Theorem getBestXAxisField_precedence :
  getBestXAxisField [] = "id"%string /\
  (forall data,
      let r := getBestXAxisField data in
      r <> EmptyString /\ startsWith r "_" = false /\
      (r = "id"%string \/
       exists sample rest,
         data = sample :: rest /\ In r (Object_keys sample))) /\
  (forall sample rest,
      let keys := visibleKeys sample in
      let r := getBestXAxisField (sample :: rest) in
      let noDate := forall d, In d dateFields -> ~ In d keys in
      let noTitle := forall k, In k keys -> mentions "title" k = false in
      let noName := forall k, In k keys -> mentions "name" k = false in
      ((exists d, In d dateFields /\ In d keys) ->
       find (fun d => array_includes keys d) dateFields = Some r) /\
      (noDate -> (exists k, In k keys /\ mentions "title" k = true) ->
       find (mentions "title") keys = Some r) /\
      (noDate -> noTitle ->
       (exists k, In k keys /\ mentions "name" k = true) ->
       find (mentions "name") keys = Some r) /\
      (noDate -> noTitle -> noName -> In "id"%string keys ->
       r = "id"%string)).
Proof.
  split; [reflexivity|]. split; [exact getBestXAxisField_usable|].
  intros sample rest keys r noDate noTitle noName.
  assert (Hdate : find (fun d => array_includes keys d) dateFields = None ->
                  noDate).
  { intros Hnone d Hd Hk. apply array_includes_In in Hk.
    pose proof (find_none_all _ _ Hnone d Hd) as Hf. simpl in Hf.
    congruence. }
  assert (Hfound : forall (f : string -> bool) l (x : string),
             find f l = Some x ->
             (forall k, In k l -> f k = false) -> False).
  { intros f l x Hx Hall. destruct (find_In _ _ _ Hx) as [Hin Hf].
    rewrite (Hall x Hin) in Hf. discriminate. }
  assert (Hsome : forall (f : string -> bool) l,
             find f l = None -> (exists k, In k l /\ f k = true) -> False).
  { intros f l Hnone (k & Hin & Hf).
    rewrite (find_none_all _ _ Hnone k Hin) in Hf. discriminate. }
  assert (HsomeD : find (fun d => array_includes keys d) dateFields = None ->
                   (exists d, In d dateFields /\ In d keys) -> False).
  { intros Hnone (d & Hd & Hk). exact (Hdate Hnone d Hd Hk). }
  assert (HfoundD : forall x,
             find (fun d => array_includes keys d) dateFields = Some x ->
             noDate -> False).
  { intros x Hx Hall. destruct (find_In _ _ _ Hx) as [Hin Hf].
    apply array_includes_In in Hf. exact (Hall x Hin Hf). }
  pose proof (getBestXAxisField_cases sample rest) as Hc.
  cbv zeta in Hc. fold keys in Hc. fold r in Hc.
  destruct Hc
    as [Hd | [(Hd & Ht) | [(Hd & Ht & Hn) | [(Hd & Ht & Hn & Hr) | H]]]].
  - split; [intros _; exact Hd|].
    split; [intros Hno; destruct (HfoundD _ Hd Hno)|].
    split; intros Hno; destruct (HfoundD _ Hd Hno).
  - split; [intros Hex; destruct (HsomeD Hd Hex)|].
    split; [intros _ _; exact Ht|].
    split; intros _ Hno; destruct (Hfound _ _ _ Ht Hno).
  - split; [intros Hex; destruct (HsomeD Hd Hex)|].
    split; [intros _ Hex; destruct (Hsome _ _ Ht Hex)|].
    split; [intros _ _ _; exact Hn|].
    intros _ _ Hno. destruct (Hfound _ _ _ Hn Hno).
  - split; [intros Hex; destruct (HsomeD Hd Hex)|].
    split; [intros _ Hex; destruct (Hsome _ _ Ht Hex)|].
    split; [intros _ _ Hex; destruct (Hsome _ _ Hn Hex)|].
    intros _ _ _ _. exact Hr.
  - destruct H as (Hd & Ht & Hn & Hnoid & _).
    split; [intros Hex; destruct (HsomeD Hd Hex)|].
    split; [intros _ Hex; destruct (Hsome _ _ Ht Hex)|].
    split; [intros _ _ Hex; destruct (Hsome _ _ Hn Hex)|].
    intros _ _ _ Hid. destruct (Hnoid Hid).
Qed.

(* ================================================================== *)
(** ** Schema relationships and the join query *)

Lemma find_ext {A} (f g : A -> bool) (l : list A) :
  (forall x, f x = g x) -> find f l = find g l.
Proof.
  intros H. induction l as [|a l IH]; simpl; [reflexivity|].
  now rewrite H, IH.
Qed.

Lemma lower_upper_ascii (c : ascii) :
  lower_ascii (upper_ascii c) = lower_ascii c.
Proof.
  destruct c as [[] [] [] [] [] [] [] []]; reflexivity.
Qed.

Lemma lower_lower_ascii (c : ascii) :
  lower_ascii (lower_ascii c) = lower_ascii c.
Proof.
  destruct c as [[] [] [] [] [] [] [] []]; reflexivity.
Qed.

Lemma toLowerCase_toUpperCase (s : string) :
  toLowerCase (toUpperCase s) = toLowerCase s.
Proof.
  induction s as [|c s IH]; simpl; [reflexivity|].
  now rewrite lower_upper_ascii, IH.
Qed.

Lemma toLowerCase_idempotent (s : string) :
  toLowerCase (toLowerCase s) = toLowerCase s.
Proof.
  induction s as [|c s IH]; simpl; [reflexivity|].
  now rewrite lower_lower_ascii, IH.
Qed.

Section JoinQueryFacts.

Variable ToNumber : option Value -> option Q.
Variable ToString : option Value -> string.
Variable relationships : list Rel.t.
Variable w : World.

Lemma findSchemaRelationship_swap (a b : string) :
  findSchemaRelationship relationships a b
  = findSchemaRelationship relationships b a.
Proof.
  unfold findSchemaRelationship. apply find_ext. intros rel.
  apply orb_comm.
Qed.

Lemma findSchemaRelationship_case (a a' b b' : string) :
  toLowerCase a = toLowerCase a' -> toLowerCase b = toLowerCase b' ->
  findSchemaRelationship relationships a b
  = findSchemaRelationship relationships a' b'.
Proof.
  intros Ha Hb. unfold findSchemaRelationship. now rewrite Ha, Hb.
Qed.

(** The schema join does not depend on the order in which the two tables
    were dropped, nor on the letter case of their names: the relationship
    is looked up symmetrically and case-insensitively, and everything
    after the lookup reads the relationship only. *)
Theorem createJoinQuery_order_and_case_independent :
  (forall a b,
      createJoinQuery ToNumber ToString relationships w [a; b]
      = createJoinQuery ToNumber ToString relationships w [b; a]) /\
  (forall a a' b b',
      toLowerCase a = toLowerCase a' -> toLowerCase b = toLowerCase b' ->
      createJoinQuery ToNumber ToString relationships w [a; b]
      = createJoinQuery ToNumber ToString relationships w [a'; b']) /\
  (forall a b,
      createJoinQuery ToNumber ToString relationships w
        [toUpperCase a; toLowerCase b]
      = createJoinQuery ToNumber ToString relationships w [a; b]) /\
  (forall tableNames,
      List.length tableNames <> 2%nat ->
      createJoinQuery ToNumber ToString relationships w tableNames
      = Returned None).
Proof.
  assert (Hcase : forall a a' b b',
             toLowerCase a = toLowerCase a' ->
             toLowerCase b = toLowerCase b' ->
             createJoinQuery ToNumber ToString relationships w [a; b]
             = createJoinQuery ToNumber ToString relationships w [a'; b']).
  { intros a a' b b' Ha Hb. unfold createJoinQuery.
    now rewrite (findSchemaRelationship_case a a' b b' Ha Hb). }
  split; [|split; [exact Hcase|split]].
  - intros a b. unfold createJoinQuery.
    now rewrite findSchemaRelationship_swap.
  - intros a b. apply Hcase.
    + apply toLowerCase_toUpperCase.
    + apply toLowerCase_idempotent.
  - intros [|t1 [|t2 [|t3 r]]] Hlen; try reflexivity.
    simpl in Hlen. congruence.
Qed.

End JoinQueryFacts.
(** Case analysis on the replies a join query receives; [H] states what
    the query returned. *)
Ltac join_cases H :=
  unfold awaitSelect, usable in H;
  repeat (match type of H with
          | context [if ?c then _ else _] => destruct c
          | context [match select ?x ?y ?z with _ => _ end] =>
              let E := fresh "E" in
              destruct (select x y z) as [|[?rows|] []] eqn:E
          end; cbn [bind try_catch fst snd] in H; try discriminate).


Section JoinResultFacts.

Variable ToNumber : option Value -> option Q.
Variable ToString : option Value -> string.
Variable relationships : list Rel.t.
Variable w : World.

Lemma joinRow_shape counter referencedTable row :
  String.eqb counter "_table" = false ->
  numField counter (joinRow ToNumber counter referencedTable row) = Some 0 /\
  fromTable referencedTable (joinRow ToNumber counter referencedTable row)
  = true.
Proof.
  intros Hc. unfold joinRow, numField, fromTable. split.
  - rewrite getField_setField_other by (rewrite String.eqb_sym; exact Hc).
    now rewrite getField_setField_same.
  - rewrite getField_setField_same. apply String.eqb_refl.
Qed.


End JoinResultFacts.


(** *** Strategy 3 counts every referencing row once *)

Lemma sameValue_refl v : scalarValue v = true -> sameValue v v = true.
Proof.
  destruct v as [[q|s|b| |n]|]; simpl; intros H; try reflexivity;
    try discriminate.
  - apply Qeq_bool_refl.
  - apply String.eqb_refl.
  - now destruct b.
Qed.

Lemma sumField_app key l1 l2 :
  sumField key (l1 ++ l2) == sumField key l1 + sumField key l2.
Proof.
  induction l1 as [|x l1 IH]; simpl.
  - ring.
  - destruct (numField key x); rewrite IH; ring.
Qed.

Lemma sumField_single key x q :
  numField key x = Some q -> sumField key [x] == q.
Proof. intros H. unfold sumField. simpl. rewrite H. ring. Qed.

Lemma mapSet_fresh key v m :
  mapHas key m = false -> mapSet key v m = m ++ [(key, v)].
Proof.
  unfold mapHas. induction m as [|[k old] m IH]; simpl; intros H.
  - reflexivity.
  - apply Bool.orb_false_iff in H as [H1 H2]. rewrite H1.
    now rewrite IH.
Qed.

Lemma mapAdjust_fresh key f v m :
  mapHas key m = false -> sameValue key key = true ->
  mapAdjust key f (m ++ [(key, v)]) = m ++ [(key, f v)].
Proof.
  unfold mapHas. induction m as [|[k old] m IH]; simpl; intros H Hr.
  - now rewrite Hr.
  - apply Bool.orb_false_iff in H as [H1 H2]. rewrite H1.
    now rewrite IH.
Qed.

Lemma increment_countedGroup table g q :
  numField "count" g = Some q -> 0 <= q -> fromTable table g = true ->
  numField "count" (increment "count" g) = Some (q + 1) /\
  countedGroup table (increment "count" g).
Proof.
  intros Hq Hpos Ht. unfold increment.
  unfold numField in Hq.
  destruct (getField "count" g) as [[p|s|b| |n]|] eqn:E; try discriminate.
  injection Hq as ->.
  assert (Hn : numField "count" (setField "count" (VNum (q + 1)) g)
               = Some (q + 1)).
  { unfold numField. now rewrite getField_setField_same. }
  split; [exact Hn|].
  exists (q + 1). split; [exact Hn|]. split; [lra|].
  unfold fromTable in *.
  now rewrite getField_setField_other by reflexivity.
Qed.

Lemma mapAdjust_counts table key m :
  mapHas key m = true ->
  Forall (fun e => countedGroup table (snd e)) m ->
  Forall (fun e => countedGroup table (snd e))
    (mapAdjust key (increment "count") m) /\
  sumField "count" (mapValues (mapAdjust key (increment "count") m))
  == sumField "count" (mapValues m) + 1.
Proof.
  unfold mapHas, mapValues.
  induction m as [|[k g] m IH]; simpl; intros H Hall; [discriminate|].
  inversion Hall as [|? ? Hg Hm]; subst. simpl in Hg.
  destruct (sameValue k key) eqn:E; simpl.
  - destruct Hg as (q & Hq & Hpos & Ht).
    destruct (increment_countedGroup table g q Hq) as [Hn Hc];
      [lra | exact Ht |].
    split; [constructor; assumption|].
    rewrite Hn, Hq. ring.
  - simpl in H. destruct (IH H Hm) as [IH1 IH2].
    split; [constructor; assumption|].
    destruct (numField "count" g); rewrite IH2; ring.
Qed.

Section RelationshipCount.

Variable ToNumber : option Value -> option Q.
Variable ToString : option Value -> string.
Variable relationships : list Rel.t.
Variable w : World.

Lemma countReference_step table fk counts item :
  Forall (fun e => countedGroup table (snd e)) counts ->
  scalarValue (getField fk item) = true ->
  Forall (fun e => countedGroup table (snd e))
    (countReference ToNumber ToString table fk counts item) /\
  sumField "count"
    (mapValues (countReference ToNumber ToString table fk counts item))
  == sumField "count" (mapValues counts) +
     (if truthyValue (getField fk item) then 1 else 0).
Proof.
  intros Hall Hs. unfold countReference.
  destruct (truthyValue (getField fk item)).
  - destruct (mapHas (getField fk item) counts) eqn:Hhas; simpl negb; cbv iota.
    + now apply mapAdjust_counts.
    + rewrite (mapSet_fresh _ _ _ Hhas).
      rewrite (mapAdjust_fresh _ _ _ _ Hhas (sameValue_refl _ Hs)).
      set (fresh := [("id"%string, _); _; _; _]).
      destruct (increment_countedGroup table fresh 0) as [Hn Hc];
        [reflexivity | lra | apply String.eqb_refl |].
      split.
      * apply Forall_app. split; [exact Hall|]. constructor; [exact Hc|].
        constructor.
      * unfold mapValues. rewrite !map_app. rewrite !sumField_app.
        cbn [map snd]. rewrite (sumField_single _ _ _ Hn). ring.
  - split; [exact Hall | ring].
Qed.

Lemma countReference_fold table fk rows : forall counts,
  Forall (fun e => countedGroup table (snd e)) counts ->
  Forall (fun row => scalarValue (getField fk row) = true) rows ->
  Forall (fun e => countedGroup table (snd e))
    (fold_left (countReference ToNumber ToString table fk) rows counts) /\
  sumField "count"
    (mapValues
       (fold_left (countReference ToNumber ToString table fk) rows counts))
  == sumField "count" (mapValues counts) +
     count (filter (fun row => truthyValue (getField fk row)) rows).
Proof.
  induction rows as [|row rows IH]; intros counts Hall Hs.
  - simpl. split; [exact Hall|]. unfold count. simpl. ring.
  - inversion Hs as [|? ? Hrow Hrows]; subst.
    destruct (countReference_step table fk counts row Hall Hrow)
      as [H1 H2].
    destruct (IH _ H1 Hrows) as [H3 H4].
    simpl fold_left. split; [exact H3|].
    rewrite H4, H2. simpl filter.
    destruct (truthyValue (getField fk row)).
    + unfold count. simpl List.length. rewrite Nat2Z.inj_succ.
      unfold Z.succ. rewrite inject_Z_plus. ring.
    + ring.
Qed.

(** A "relationship_count" result accounts for every row of the
    referencing table exactly once: when the foreign-key values are not
    arrays, the counts of the groups add up to the number of rows with a
    truthy foreign key, every group has a count of at least 1 and is
    tagged with the referencing table. *)
Theorem relationship_count_conserves_rows :
  forall a b rel rows j,
    findSchemaRelationship relationships a b = Some rel ->
    select w (Rel.referencingTable rel) (Rel.foreignKey rel)
    = Reply (Some rows) false ->
    Forall (fun row => scalarValue (getField (Rel.foreignKey rel) row) = true)
      rows ->
    createJoinQuery ToNumber ToString relationships w [a; b]
    = Returned (Some j) ->
    JoinResult.type j = "relationship_count"%string ->
    sumField "count" (JoinResult.data j)
    == count (filter
                (fun row => truthyValue (getField (Rel.foreignKey rel) row))
                rows) /\
    Forall (countedGroup (Rel.referencingTable rel)) (JoinResult.data j).
Proof.
  intros a b rel rows j Hrel Hsel Hs H Hty.
  unfold createJoinQuery in H. rewrite Hrel in H.
  unfold awaitImport in H.
  destruct (importSupabase w AtJoinQuery); cbn [bind try_catch] in H;
    [|discriminate].
  join_cases H.
  all: injection H as <-; cbn [JoinResult.type JoinResult.data] in *;
    try discriminate.
  all: injection Hsel as ->.
  all: destruct (countReference_fold (Rel.referencingTable rel)
                   (Rel.foreignKey rel) rows [] (Forall_nil _) Hs)
         as [H1 H2].
  all: split;
    [rewrite H2; simpl; ring
    | unfold mapValues; apply Forall_map; exact H1].
Qed.

End RelationshipCount.

Lemma relationship_count_conserves_rows_witness :
  sumField "count"
    [[("id", VNum 1); ("name", VStr "comments 1");
      ("count", VNum (0 + 1 + 1)); ("_table", VStr "comments")];
     [("id", VNum 2); ("name", VStr "comments 2");
      ("count", VNum (0 + 1)); ("_table", VStr "comments")]]%string
  == count (filter (fun row => truthyValue (getField "post_id" row))
              commentRows).
Proof.
  refine (proj1
    (relationship_count_conserves_rows noNumber sampleString blogSchema
       blogWorld "posts" "comments"
       (Rel.mk "comments" "posts" "comments" "posts" "post_id")
       commentRows
       (JoinResult.mk "relationship_count" "RELATIONSHIP ANALYSIS"
          "comments → posts" _ "name" "count" "COUNT")
       eq_refl eq_refl _ eq_refl eq_refl)).
  repeat constructor.
Defined.

(** *** The events path: separate queries *)

Lemma sameValue_trans a b c :
  sameValue a b = true -> sameValue b c = true -> sameValue a c = true.
Proof.
  destruct a as [[p|s|x| |n]|], b as [[q|t|y| |m]|]; simpl;
    try discriminate;
    destruct c as [[r|u|z| |k]|]; simpl; try discriminate; try reflexivity.
  - apply Qeq_bool_trans.
  - intros H1 H2. apply String.eqb_eq in H1, H2. subst. apply String.eqb_refl.
  - destruct x, y, z; simpl; congruence.
Qed.

Lemma mapHas_mapSet key key' v m :
  mapHas key' (mapSet key v m) = mapHas key' m || sameValue key key'.
Proof.
  unfold mapHas. induction m as [|[k old] m IH]; simpl.
  - now rewrite Bool.orb_false_r.
  - destruct (sameValue k key) eqn:E; simpl.
    + destruct (sameValue k key') eqn:E1; simpl; [reflexivity|].
      destruct (sameValue key key') eqn:E2;
        [|now rewrite Bool.orb_false_r].
      now rewrite (sameValue_trans _ _ _ E E2) in E1.
    + rewrite IH. now rewrite Bool.orb_assoc.
Qed.

Lemma mapHas_mapAdjust key key' f m :
  mapHas key' (mapAdjust key f m) = mapHas key' m.
Proof.
  unfold mapHas. induction m as [|[k old] m IH]; simpl; [reflexivity|].
  destruct (sameValue k key); simpl; [reflexivity|]. now rewrite IH.
Qed.

Lemma length_mapAdjust key f m :
  List.length (mapAdjust key f m) = List.length m.
Proof.
  induction m as [|[k old] m IH]; simpl; [reflexivity|].
  destruct (sameValue k key); simpl; [reflexivity|]. now rewrite IH.
Qed.

Lemma length_mapSet key v m :
  (List.length (mapSet key v m) <= S (List.length m))%nat.
Proof.
  induction m as [|[k old] m IH]; simpl; [lia|].
  destruct (sameValue k key); simpl; lia.
Qed.

Lemma Forall_mapSet (P : option Value * ChartDataItem -> Prop) key v m :
  (forall k, P (k, v)) -> Forall P m -> Forall P (mapSet key v m).
Proof.
  intros Hv. induction m as [|[k old] m IH]; simpl; intros H.
  - constructor; [apply Hv | constructor].
  - inversion H; subst. destruct (sameValue k key); constructor; auto.
Qed.

Lemma numField_increment field g q :
  numField field g = Some q ->
  numField field (increment field g) = Some (q + 1).
Proof.
  unfold increment, numField. intros H.
  destruct (getField field g) as [[p|s|b| |n]|] eqn:E; try discriminate.
  injection H as ->. now rewrite getField_setField_same.
Qed.

Lemma mapAdjust_increment field key m :
  mapHas key m = true ->
  Forall (fun e => exists q, numField field (snd e) = Some q /\ 0 <= q) m ->
  Forall (fun e => exists q, numField field (snd e) = Some q /\ 0 <= q)
    (mapAdjust key (increment field) m) /\
  sumField field (mapValues (mapAdjust key (increment field) m))
  == sumField field (mapValues m) + 1.
Proof.
  unfold mapHas, mapValues.
  induction m as [|[k g] m IH]; simpl; intros H Hall; [discriminate|].
  inversion Hall as [|? ? Hg Hm]; subst. simpl in Hg.
  destruct (sameValue k key) eqn:E; simpl.
  - destruct Hg as (q & Hq & Hpos).
    pose proof (numField_increment field g q Hq) as Hn.
    split.
    + constructor; [|assumption]. exists (q + 1). split; [exact Hn | lra].
    + rewrite Hn, Hq. ring.
  - simpl in H. destruct (IH H Hm) as [IH1 IH2].
    split; [constructor; assumption|].
    destruct (numField field g); rewrite IH2; ring.
Qed.



(** The map of events before any registration is counted. *)
Lemma eventCounts_start events : forall m,
  Forall (fun e => numField "registration_count" (snd e) = Some 0) m ->
  let m' :=
    fold_left
      (fun m event =>
         mapSet (getField "id" event)
           (setField "registration_count" (VNum 0) event) m)
      events m in
  Forall (fun e => numField "registration_count" (snd e) = Some 0) m' /\
  (forall key,
     mapHas key m'
     = mapHas key m ||
       existsb (fun event => sameValue (getField "id" event) key) events) /\
  (List.length m' <= List.length m + List.length events)%nat.
Proof.
  induction events as [|event events IH]; intros m Hm; cbv zeta.
  - simpl. split; [exact Hm|]. split; [|lia].
    intros key. now rewrite Bool.orb_false_r.
  - simpl fold_left.
    destruct (IH (mapSet (getField "id" event)
                    (setField "registration_count" (VNum 0) event) m))
      as (H1 & H2 & H3).
    { apply Forall_mapSet; [|exact Hm]. intros k. simpl. unfold numField.
      now rewrite getField_setField_same. }
    split; [exact H1|]. split.
    + intros key. rewrite H2, mapHas_mapSet. simpl existsb.
      now rewrite Bool.orb_assoc.
    + pose proof (length_mapSet (getField "id" event)
                    (setField "registration_count" (VNum 0) event) m).
      simpl List.length. lia.
Qed.

(** Counting the registrations into the map of events. *)
Lemma eventCounts_counted registrations : forall m,
  Forall (fun e => exists q,
            numField "registration_count" (snd e) = Some q /\ 0 <= q) m ->
  let m' := fold_left countRegistration registrations m in
  Forall (fun e => exists q,
            numField "registration_count" (snd e) = Some q /\ 0 <= q) m' /\
  sumField "registration_count" (mapValues m')
  == sumField "registration_count" (mapValues m) +
     count (filter
              (fun r => truthyValue (registrationEventId r) &&
                        mapHas (registrationEventId r) m)
              registrations) /\
  List.length m' = List.length m.
Proof.
  induction registrations as [|r registrations IH]; intros m Hm; cbv zeta.
  - simpl. split; [exact Hm|]. split; [|reflexivity]. unfold count. simpl.
    ring.
  - simpl fold_left.
    assert (Hstep :
      Forall (fun e => exists q,
                numField "registration_count" (snd e) = Some q /\ 0 <= q)
        (countRegistration m r) /\
      sumField "registration_count" (mapValues (countRegistration m r))
      == sumField "registration_count" (mapValues m) +
         (if truthyValue (registrationEventId r) &&
             mapHas (registrationEventId r) m then 1 else 0) /\
      List.length (countRegistration m r) = List.length m /\
      forall key, mapHas key (countRegistration m r) = mapHas key m).
    { unfold countRegistration.
      destruct (truthyValue (registrationEventId r)); simpl andb.
      - destruct (mapHas (registrationEventId r) m) eqn:Hhas.
        + destruct (mapAdjust_increment "registration_count" _ m Hhas Hm)
            as [A B].
          split; [exact A|]. split; [exact B|].
          split; [apply length_mapAdjust|].
          intros key. apply mapHas_mapAdjust.
        + split; [exact Hm|]. split; [ring|]. split; reflexivity.
      - split; [exact Hm|]. split; [ring|]. split; reflexivity. }
    destruct Hstep as (S1 & S2 & S3 & S4).
    destruct (IH _ S1) as (H1 & H2 & H3).
    split; [exact H1|]. split; [|congruence].
    rewrite H2, S2. simpl filter.
    rewrite (filter_ext
               (fun r0 => truthyValue (registrationEventId r0) &&
                          mapHas (registrationEventId r0)
                            (countRegistration m r))
               (fun r0 => truthyValue (registrationEventId r0) &&
                          mapHas (registrationEventId r0) m))
      by (intros r0; now rewrite S4).
    destruct (truthyValue (registrationEventId r) &&
              mapHas (registrationEventId r) m).
    + unfold count. simpl List.length. rewrite Nat2Z.inj_succ.
      unfold Z.succ. rewrite inject_Z_plus. ring.
    + ring.
Qed.



Example separate_queries_sample :
  fetchSeparateEventsRegistrations eventsWorld
  = Returned
      (eventsChart
         [[("id", VNum 1); ("title", VStr "Launch");
           ("registration_count", VNum (0 + 1 + 1));
           ("_table", VStr "events")];
          [("id", VNum 2); ("title", VStr "Retro");
           ("registration_count", VNum (0 + 1));
           ("_table", VStr "events")]]%string).
Proof. reflexivity. Qed.

(** *** The events path: every branch *)

Lemma lengthOr0_nonneg v : 0 <= lengthOr0 v.
Proof.
  destruct v as [[q|s|b| |n]|]; simpl; try lra;
    (rewrite <- (Zle_Qle 0); lia).
Qed.

Lemma demoEvents_counted w :
  randomInUnitInterval w -> Forall countedEvent (demoEvents w).
Proof.
  intros Hr. destruct (demoEvents_shape w Hr) as (_ & _ & H).
  eapply Forall_impl; [|exact H]. intros e (Ht & c & Hc & Hrange).
  split; [exact Ht|]. exists (inject_Z c). split; [exact Hc|].
  rewrite <- (Zle_Qle 0). lia.
Qed.

Lemma fetchSeparate_counted w :
  randomInUnitInterval w ->
  exists data,
    fetchSeparateEventsRegistrations w = Returned (eventsChart data) /\
    Forall countedEvent data.
Proof.
  intros Hrandom.
  pose proof (demoEvents_counted w Hrandom) as Hdemo.
  unfold fetchSeparateEventsRegistrations, awaitImport, awaitSelect.
  destruct (importSupabase w AtEventsSeparate); cbn [bind try_catch];
    [|eexists; split; [reflexivity | exact Hdemo]].
  destruct (select w "events" "*") as [|events e1]; cbn [bind try_catch];
    [eexists; split; [reflexivity | exact Hdemo]|].
  destruct (select w "registrations" "*") as [|registrations e2];
    cbn [bind try_catch fst snd];
    [eexists; split; [reflexivity | exact Hdemo]|].
  destruct (e1 || e2); cbn [bind try_catch];
    [eexists; split; [reflexivity | exact Hdemo]|].
  eexists. split; [reflexivity|].
  destruct (eventCounts_start (orEmpty events) [] (Forall_nil _))
    as (Z1 & _ & _).
  cbv zeta in Z1.
  match type of Z1 with Forall _ ?m => set (m0 := m) in * end.
  assert (Hm0 : Forall (fun e => exists q,
                  numField "registration_count" (snd e) = Some q /\ 0 <= q)
                  m0).
  { eapply Forall_impl; [|exact Z1]. intros e H. exists 0.
    split; [exact H | lra]. }
  destruct (eventCounts_counted (orEmpty registrations) m0 Hm0)
    as (C1 & _ & _).
  cbv zeta in C1.
  apply Forall_map. unfold mapValues. apply Forall_map.
  eapply Forall_impl; [|exact C1]. intros e (q & Hq & Hpos).
  split.
  - unfold fromTable. now rewrite getField_setField_same.
  - exists q. split; [|exact Hpos]. unfold numField.
    now rewrite getField_setField_other by reflexivity.
Qed.

(** Whatever the data service answers, the events path ends with a chart
    of the two tables "events" and "registrations", flagged as such, whose
    records are all tagged "events" and carry a non-negative numeric
    [registration_count]: the join query, the separate queries and the
    demo events all produce what the events chart reads. *)
Theorem events_path_always_yields_counted_events :
  forall w,
    randomInUnitInterval w ->
    exists data,
      fetchEventsRegistrationsData w = Returned (eventsChart data) /\
      ChartData.tables (eventsChart data)
      = ["events"; "registrations"]%string /\
      ChartData.isEventsRegistrations (eventsChart data) = Some true /\
      Forall countedEvent data.
Proof.
  intros w Hrandom.
  destruct (fetchSeparate_counted w Hrandom) as (sep & Hsep & Hcounted).
  assert (Hfallback :
    exists data,
      fetchSeparateEventsRegistrations w = Returned (eventsChart data) /\
      ChartData.tables (eventsChart data)
      = ["events"; "registrations"]%string /\
      ChartData.isEventsRegistrations (eventsChart data) = Some true /\
      Forall countedEvent data).
  { exists sep. repeat split; assumption. }
  unfold fetchEventsRegistrationsData, awaitImport, awaitSelect.
  destruct (importSupabase w AtEventsJoin); cbn [bind try_catch];
    [|exact Hfallback].
  destruct (select w "events"
              "id,title,name,registrations:registrations(count)")
    as [|events err]; cbn [bind try_catch fst snd]; [exact Hfallback|].
  destruct err.
  - rewrite Hsep. cbn [try_catch]. rewrite <- Hsep. exact Hfallback.
  - cbn [try_catch]. eexists. split; [reflexivity|].
    split; [reflexivity|]. split; [reflexivity|].
    apply Forall_map, Forall_forall. intros event _. split.
    + unfold fromTable. now rewrite getField_setField_same.
    + exists (lengthOr0 (getField "registrations" event)). split.
      * unfold numField.
        rewrite getField_setField_other by reflexivity.
        now rewrite getField_setField_same.
      * apply lengthOr0_nonneg.
Qed.

Lemma events_path_always_yields_counted_events_witness :
  exists data,
    fetchEventsRegistrationsData eventsWorld = Returned (eventsChart data) /\
    ChartData.tables (eventsChart data)
    = ["events"; "registrations"]%string /\
    ChartData.isEventsRegistrations (eventsChart data) = Some true /\
    Forall countedEvent data.
Proof.
  apply (events_path_always_yields_counted_events eventsWorld).
  intros n. split; [discriminate | reflexivity].
Defined.

(* ================================================================== *)
(** ** The generic fetch when the data service answers *)

Lemma fetchInto_keptRows w allData table :
  fetchInto w allData table = allData ++ keptRows w table.
Proof.
  unfold fetchInto, keptRows, awaitSelect.
  destruct (select w table "*") as [|[rows|] []];
    try (now rewrite app_nil_r).
  destruct rows; simpl; [now rewrite app_nil_r | reflexivity].
Qed.

Lemma fold_fetchInto w tableNames : forall allData,
  fold_left (fetchInto w) tableNames allData
  = allData ++ flat_map (keptRows w) tableNames.
Proof.
  induction tableNames as [|t ts IH]; intros allData; simpl.
  - now rewrite app_nil_r.
  - now rewrite IH, fetchInto_keptRows, app_assoc.
Qed.

Lemma keptRows_tagged w table :
  Forall (fun row => getField "_table" row = Some (VStr table))
    (keptRows w table).
Proof.
  unfold keptRows.
  destruct (select w table "*") as [|[rows|] []]; try constructor.
  apply Forall_map, Forall_forall. intros row _.
  apply getField_setField_same.
Qed.

Lemma filter_fromTable_tagged t table rows :
  Forall (fun row => getField "_table" row = Some (VStr table)) rows ->
  filter (fromTable t) rows = if String.eqb table t then rows else [].
Proof.
  induction 1 as [|row rows Hrow _ IH]; simpl.
  - now destruct (String.eqb table t).
  - unfold fromTable at 1. rewrite Hrow, IH.
    now destruct (String.eqb table t).
Qed.

Lemma filter_fromTable_kept w t tableNames :
  NoDup tableNames ->
  filter (fromTable t) (flat_map (keptRows w) tableNames)
  = if array_includes tableNames t then keptRows w t else [].
Proof.
  unfold array_includes.
  induction 1 as [|x l Hx Hl IH]; simpl; [reflexivity|].
  rewrite filter_app, IH.
  rewrite (filter_fromTable_tagged t x _ (keptRows_tagged w x)).
  rewrite (String.eqb_sym t x).
  destruct (String.eqb x t) eqn:E; simpl.
  - apply String.eqb_eq in E. subst x.
    destruct (existsb (String.eqb t) l) eqn:El.
    + apply existsb_exists in El as (y & Hy & Ey).
      apply String.eqb_eq in Ey. subst y. contradiction.
    + apply app_nil_r.
  - reflexivity.
Qed.

(** When no join result is produced and the data client loads, the
    generic fetch returns, for distinct table names, the kept rows of the
    tables one after the other; selecting the records tagged with a table,
    as the chart does, gives back exactly the rows kept for that table, in
    their order, and nothing for any other table. *)
Theorem generic_fetch_groups_rows_by_table :
  forall ToNumber ToString relationships w tableNames,
    isEventsPair tableNames = false ->
    createJoinQuery ToNumber ToString relationships w tableNames
    = Returned None ->
    importSupabase w AtGenericFetch = true ->
    NoDup tableNames ->
    exists data,
      fetchTableData ToNumber ToString relationships w tableNames
      = Returned (ChartData.plain tableNames data) /\
      data = flat_map (keptRows w) tableNames /\
      (forall t, In t tableNames ->
                 filter (fromTable t) data = keptRows w t) /\
      (forall t, ~ In t tableNames -> filter (fromTable t) data = []).
Proof.
  intros ToNumber ToString relationships w tableNames Hp Hj Hi Hnd.
  exists (flat_map (keptRows w) tableNames). split; [|split; [|split]].
  - unfold fetchTableData. unfold isEventsPair in Hp.
    rewrite Hp, Hj. unfold awaitImport. rewrite Hi.
    rewrite fold_fetchInto.
    destruct ((List.length tableNames =? 2)%nat
              && (0 <? List.length relationships)%nat); reflexivity.
  - reflexivity.
  - intros t Hin. rewrite (filter_fromTable_kept w t tableNames Hnd).
    destruct (array_includes tableNames t) eqn:E; [reflexivity|].
    unfold array_includes in E.
    assert (existsb (String.eqb t) tableNames = true) as E'.
    { apply existsb_exists. exists t. split; [exact Hin|].
      apply String.eqb_refl. }
    congruence.
  - intros t Hout. rewrite (filter_fromTable_kept w t tableNames Hnd).
    destruct (array_includes tableNames t) eqn:E; [|reflexivity].
    unfold array_includes in E.
    apply existsb_exists in E as (y & Hy & Ey).
    apply String.eqb_eq in Ey. subst y. contradiction.
Qed.

Lemma generic_fetch_groups_rows_by_table_witness :
  exists data,
    fetchTableData noNumber noString [] eventsWorld
      ["registrations"; "events"; "users"]%string
    = Returned
        (ChartData.plain ["registrations"; "events"; "users"]%string data) /\
    data = flat_map (keptRows eventsWorld)
             ["registrations"; "events"; "users"]%string /\
    (forall t, In t ["registrations"; "events"; "users"]%string ->
               filter (fromTable t) data = keptRows eventsWorld t) /\
    (forall t, ~ In t ["registrations"; "events"; "users"]%string ->
               filter (fromTable t) data = []).
Proof.
  apply (generic_fetch_groups_rows_by_table noNumber noString [] eventsWorld
           ["registrations"; "events"; "users"]%string);
    try reflexivity.
  repeat constructor; simpl; intuition discriminate.
Defined.

Example generic_fetch_sample :
  fetchTableData noNumber noString [] eventsWorld
    ["registrations"; "events"; "users"]%string
  = Returned
      (ChartData.plain ["registrations"; "events"; "users"]%string
         (map (setField "_table" (VStr "registrations")) registrationRows ++
          map (setField "_table" (VStr "events")) eventRows)).
Proof. reflexivity. Qed.

(* ================================================================== *)
(** ** The requests the interpreter issues *)

Lemma tableObjectsFrom_names now displayTables : forall index,
  map TableObject.name (tableObjectsFrom now index displayTables)
  = displayTables.
Proof.
  induction displayTables as [|t ts IH]; intros index; simpl;
    [reflexivity|]. now rewrite IH.
Qed.

Lemma displayedNames_spec availableTables :
  displayedNames availableTables
  = match availableTables with
    | [] => ["users"; "posts"; "comments"; "products"]%string
    | _ => availableTables
    end.
Proof.
  unfold displayedNames, initTables. rewrite tableObjectsFrom_names.
  now destruct availableTables.
Qed.

Lemma initTables_names now availableTables :
  map TableObject.name (initTables now availableTables)
  = displayedNames availableTables.
Proof.
  unfold displayedNames, initTables. now rewrite !tableObjectsFrom_names.
Qed.

Lemma same_name_map ts ts' :
  Forall2 (fun a b => TableObject.name a = TableObject.name b) ts ts' ->
  map TableObject.name ts' = map TableObject.name ts.
Proof. induction 1; simpl; congruence. Qed.

Lemma step_names s e :
  map TableObject.name (tablesRef (step s e))
  = map TableObject.name (tablesRef s).
Proof.
  apply same_name_map.
  apply (step_tables (fun a b => TableObject.name a = TableObject.name b));
    try reflexivity; intros; congruence.
Qed.

Lemma fetchCalls_pressGenerate now s :
  fetchCalls (pressGenerate now s) = fetchCalls s \/
  (droppedTablesRef s <> [] /\
   fetchCalls (pressGenerate now s) = fetchCalls s ++ [droppedTablesRef s]).
Proof.
  unfold pressGenerate. st.
  destruct (buttonClickedRef s); st; [now left|].
  destruct (droppedTablesRef s) as [|d ds] eqn:E; st; [now left|].
  right. split; [discriminate | reflexivity].
Qed.

Lemma fetchCalls_pinchStart now W H px py s :
  fetchCalls (pinchStart now W H px py s) = fetchCalls s \/
  (droppedTablesRef s <> [] /\
   fetchCalls (pinchStart now W H px py s)
   = fetchCalls s ++ [droppedTablesRef s]).
Proof.
  unfold pinchStart. destruct (hitsButton W H px py); st.
  - apply fetchCalls_pressGenerate.
  - left.
    destruct (snd (grabTable px py (60 / Math_min W H) (tablesRef s)));
      reflexivity.
Qed.

Lemma fetchCalls_pinchMove px py s :
  fetchCalls (pinchMove px py s) = fetchCalls s.
Proof.
  unfold pinchMove. destruct (truthy (draggedTableRef s)); reflexivity.
Qed.

Lemma fetchCalls_pinchRelease s :
  fetchCalls (pinchRelease s) = fetchCalls s.
Proof.
  unfold pinchRelease. st.
  destruct (truthy (draggedTableRef s)); st; [|reflexivity].
  destruct (findTable (refId (draggedTableRef s)) (tablesRef s)) as [t|];
    st; [|reflexivity].
  destruct (inDropZone (TableObject.x t) (TableObject.y t)); st;
    [|reflexivity].
  destruct (array_includes (droppedTablesRef s) (TableObject.name t));
    reflexivity.
Qed.

Lemma fetchCalls_handsLost s : fetchCalls (handsLost s) = fetchCalls s.
Proof.
  unfold handsLost. st.
  destruct (truthy (draggedTableRef s)); st; [|reflexivity].
  destruct (findTable (refId (draggedTableRef s)) (tablesRef s));
    reflexivity.
Qed.

Lemma fetchCalls_processSwipe now results s :
  fetchCalls (fst (processSwipe now results s)) = fetchCalls s.
Proof.
  unfold processSwipe. destruct results as [[|h r]|]; try reflexivity.
  unfold detectSwipe.
  repeat match goal with
         | |- context [if ?c then _ else _] => destruct c
         end; reflexivity.
Qed.

Lemma fetchCalls_fireTimer now k s :
  fetchCalls (fireTimer now k s) = fetchCalls s.
Proof.
  unfold fireTimer. destruct (nth_error (timers s) k) as [[due cb]|]; auto.
  destruct (due <=? now)%Z; auto. destruct cb; reflexivity.
Qed.

Lemma findTable_name_In ref ts t :
  findTable ref ts = Some t ->
  In (TableObject.name t) (map TableObject.name ts).
Proof.
  intros H. apply in_map. unfold findTable in H.
  now destruct (find_In _ _ _ H).
Qed.

Section Requests.

Variable shown : list string.

Lemma requests_processHand now W H s landmarks :
  requestsInvariant shown s ->
  requestsInvariant shown (processHand now W H s landmarks).
Proof.
  intros (Hn & Hnd & Hincl & Hcalls).
  assert (Hnames : forall s',
            Forall2 (fun a b => TableObject.name a = TableObject.name b)
              (tablesRef s) (tablesRef s') ->
            map TableObject.name (tablesRef s') = shown).
  { intros s' HF. now rewrite (same_name_map _ _ HF). }
  split; [|split; [|split]].
  - apply Hnames.
    apply (processHand_tables
             (fun a b => TableObject.name a = TableObject.name b));
      try reflexivity; intros; congruence.
  - now apply NoDup_processHand.
  - unfold processHand.
    destruct (isPinchingHand landmarks);
      destruct (PinchState.isPinching (pinchStateRef s)); st; auto.
    + now rewrite droppedTablesRef_pinchMove.
    + now rewrite droppedTablesRef_pinchStart.
    + destruct (droppedTablesRef_pinchRelease s) as [-> | (t & Hf & _ & ->)];
        [exact Hincl|].
      apply incl_app; [exact Hincl|].
      intros x [<-|[]]. rewrite <- Hn. eapply findTable_name_In, Hf.
  - unfold processHand.
    destruct (isPinchingHand landmarks);
      destruct (PinchState.isPinching (pinchStateRef s)); st; auto.
    + now rewrite fetchCalls_pinchMove.
    + destruct (fetchCalls_pinchStart now W H
                  (fst (pinchCenter landmarks)) (snd (pinchCenter landmarks))
                  s) as [-> | (Hne & ->)]; [exact Hcalls|].
      apply Forall_app. split; [exact Hcalls|].
      constructor; [|constructor]. now repeat split.
    + now rewrite fetchCalls_pinchRelease.
Qed.

Lemma requests_step s e :
  requestsInvariant shown s -> requestsInvariant shown (step s e).
Proof.
  intros Hinv. pose proof Hinv as (Hn & Hnd & Hincl & Hcalls).
  split; [now rewrite step_names|]. split; [now apply NoDup_step|].
  destruct e as [currentTime now W H results | now k | d |]; simpl;
    try (split; assumption).
  - unfold renderLoop.
    destruct (ltb (currentTime - lastFrameTime s) frameInterval);
      [split; assumption|].
    destruct (showChart (set_lastFrameTime currentTime s)).
    + rewrite droppedTablesRef_processSwipe, fetchCalls_processSwipe.
      split; assumption.
    + assert (Hfold : forall hands s0,
                requestsInvariant shown s0 ->
                requestsInvariant shown
                  (fold_left (processHand now W H) hands s0)).
      { induction hands as [|h r IH]; intros s0 H0; simpl; auto.
        apply IH. now apply requests_processHand. }
      assert (H0 : requestsInvariant shown (set_lastFrameTime currentTime s))
        by exact Hinv.
      unfold processLandmarks.
      destruct results as [[|h r]|];
        try (destruct (Hfold (h :: r) _ H0) as (_ & _ & A & B);
             split; assumption);
        destruct (PinchState.isPinching
                    (pinchStateRef (set_lastFrameTime currentTime s)));
        try (split; assumption);
        rewrite droppedTablesRef_handsLost, fetchCalls_handsLost;
        split; assumption.
  - rewrite fetchCalls_fireTimer. split; [|exact Hcalls].
    unfold fireTimer.
    destruct (nth_error (timers s) k) as [[due cb]|]; auto.
    destruct (due <=? now)%Z; auto.
    destruct cb; st; auto. intros x [].
Qed.

Lemma requests_run es : forall s,
  requestsInvariant shown s -> requestsInvariant shown (run es s).
Proof.
  unfold run. induction es as [|e es IH]; intros s Hinv; simpl.
  - exact Hinv.
  - apply IH. now apply requests_step.
Qed.

End Requests.

(** From start-up on, whatever the hands do, [fetchTableData] is only ever
    asked for tables on display: every request issued names at least one
    table, names no table twice and names only tables that [initTables]
    put on display (the available tables, or the four default ones when
    there are none); the same holds of the dropped tables at any time. *)
Theorem requests_name_distinct_displayed_tables :
  forall now availableTables events,
    let s := run events (initialState now availableTables) in
    let shown :=
      match availableTables with
      | [] => ["users"; "posts"; "comments"; "products"]%string
      | _ => availableTables
      end in
    map TableObject.name (tablesRef s) = shown /\
    NoDup (droppedTablesRef s) /\
    incl (droppedTablesRef s) shown /\
    Forall (fun request =>
              request <> [] /\ NoDup request /\ incl request shown)
      (fetchCalls s).
Proof.
  intros now availableTables events s shown.
  assert (Hshown : shown = displayedNames availableTables)
    by (symmetry; apply displayedNames_spec).
  rewrite Hshown.
  apply (requests_run (displayedNames availableTables) events).
  split; [apply initTables_names|]. split; [constructor|].
  split; [intros x []|constructor].
Qed.

(* ================================================================== *)
(** ** A held pinch *)

Lemma pinchStateRef_processSwipe now results s :
  pinchStateRef (fst (processSwipe now results s)) = pinchStateRef s.
Proof.
  unfold processSwipe. destruct results as [[|h r]|]; try reflexivity.
  unfold detectSwipe.
  repeat match goal with
         | |- context [if ?c then _ else _] => destruct c
         end; reflexivity.
Qed.

Lemma pinchStateRef_fireTimer now k s :
  pinchStateRef (fireTimer now k s) = pinchStateRef s.
Proof.
  unfold fireTimer. destruct (nth_error (timers s) k) as [[due cb]|]; auto.
  destruct (due <=? now)%Z; auto. destruct cb; reflexivity.
Qed.

Lemma pinchStart_isPinching now W H px py s :
  PinchState.isPinching (pinchStateRef (pinchStart now W H px py s)) = true.
Proof. reflexivity. Qed.

Lemma pinchMove_isPinching px py s :
  PinchState.isPinching (pinchStateRef (pinchMove px py s)) = true.
Proof. reflexivity. Qed.

(** One event of a held pinch: the pinch flag stays set once it is, and a
    request is issued only by the event that sets it. *)
Lemma holdsPinch_step s e :
  holdsPinch e = true ->
  (PinchState.isPinching (pinchStateRef s) = true ->
   PinchState.isPinching (pinchStateRef (step s e)) = true /\
   fetchCalls (step s e) = fetchCalls s) /\
  (PinchState.isPinching (pinchStateRef s) = false ->
   (PinchState.isPinching (pinchStateRef (step s e)) = false /\
    fetchCalls (step s e) = fetchCalls s) \/
   (PinchState.isPinching (pinchStateRef (step s e)) = true /\
    exists extra, fetchCalls (step s e) = fetchCalls s ++ extra /\
                  (List.length extra <= 1)%nat)).
Proof.
  intros He.
  assert (Hsame : forall s',
            pinchStateRef s' = pinchStateRef s ->
            fetchCalls s' = fetchCalls s ->
            (PinchState.isPinching (pinchStateRef s) = true ->
             PinchState.isPinching (pinchStateRef s') = true /\
             fetchCalls s' = fetchCalls s) /\
            (PinchState.isPinching (pinchStateRef s) = false ->
             (PinchState.isPinching (pinchStateRef s') = false
              /\ fetchCalls s' = fetchCalls s) \/
             (PinchState.isPinching (pinchStateRef s') = true
              /\ exists extra,
                   fetchCalls s' = fetchCalls s ++ extra /\
                   (List.length extra <= 1)%nat))).
  { intros s' -> ->. split; [now split | left; now split]. }
  destruct e as [currentTime now W H results | now k | d |]; simpl in *.
  - destruct results as [[|hand [|h2 r]]|]; try discriminate.
    unfold renderLoop.
    destruct (ltb (currentTime - lastFrameTime s) frameInterval);
      [now apply Hsame|].
    destruct (showChart (set_lastFrameTime currentTime s)).
    + apply Hsame;
        [now rewrite pinchStateRef_processSwipe
        | now rewrite fetchCalls_processSwipe].
    + unfold processLandmarks. cbn [fold_left]. unfold processHand.
      rewrite He. st. split; intros Hflag; rewrite Hflag; cbn [negb].
      * split; [reflexivity | now rewrite fetchCalls_pinchMove].
      * right. split; [reflexivity|].
        destruct (fetchCalls_pinchStart now W H
                    (fst (pinchCenter hand)) (snd (pinchCenter hand))
                    (set_lastFrameTime currentTime s))
          as [E | (_ & E)]; rewrite E; st.
        -- exists []. rewrite app_nil_r. split; [reflexivity | simpl; lia].
        -- eexists. split; [reflexivity | simpl; lia].
  - apply Hsame; [apply pinchStateRef_fireTimer | apply fetchCalls_fireTimer].
  - now apply Hsame.
  - now apply Hsame.
Qed.

Lemma holdsPinch_run_pinching es : forall s,
  forallb holdsPinch es = true ->
  PinchState.isPinching (pinchStateRef s) = true ->
  fetchCalls (run es s) = fetchCalls s.
Proof.
  unfold run. induction es as [|e es IH]; intros s Hes Hflag; simpl;
    [reflexivity|].
  simpl in Hes. apply andb_prop in Hes as [He Hes].
  destruct (holdsPinch_step s e He) as [Hon _].
  destruct (Hon Hflag) as [Hflag' Hcalls].
  rewrite (IH _ Hes Hflag'). exact Hcalls.
Qed.

(** While one hand keeps pinching, at most one request is issued, however
    many ticks the pinch lasts and whatever timers run in between; if the
    pinch flag was already set, none is. *)
Theorem held_pinch_requests_at_most_once :
  forall es s,
    forallb holdsPinch es = true ->
    (exists extra,
        fetchCalls (run es s) = fetchCalls s ++ extra /\
        (List.length extra <= 1)%nat) /\
    (PinchState.isPinching (pinchStateRef s) = true ->
     fetchCalls (run es s) = fetchCalls s).
Proof.
  intros es s Hes. split; [|now apply holdsPinch_run_pinching].
  revert s Hes. induction es as [|e es IH]; intros s Hes.
  - exists []. rewrite app_nil_r. split; [reflexivity | simpl; lia].
  - simpl in Hes. apply andb_prop in Hes as [He Hes].
    change (run (e :: es) s) with (run es (step s e)).
    destruct (holdsPinch_step s e He) as [Hon Hoff].
    destruct (PinchState.isPinching (pinchStateRef s)) eqn:Hflag.
    + destruct (Hon eq_refl) as [Hflag' Hcalls].
      rewrite (holdsPinch_run_pinching es _ Hes Hflag'), Hcalls.
      exists []. rewrite app_nil_r. split; [reflexivity | simpl; lia].
    + destruct (Hoff eq_refl) as [[Hflag' Hcalls] | [Hflag' Hextra]].
      * destruct (IH (step s e) Hes) as (extra & E & Hlen).
        exists extra. rewrite E, Hcalls. now split.
      * destruct Hextra as (extra & E & Hlen).
        rewrite (holdsPinch_run_pinching es _ Hes Hflag'), E.
        exists extra. now split.
Qed.

Lemma held_pinch_requests_at_most_once_witness :
  exists extra,
    fetchCalls
      (run [Frame 600 600 1280 720 (Some [pinchedHandAt 0.303125 0.7]);
            Frame 700 700 1280 720 (Some [pinchedHandAt 0.303125 0.7]);
            Frame 800 800 1280 720 (Some [pinchedHandAt 0.303125 0.7])]
         (run dropUsersTwice freshState))
    = fetchCalls (run dropUsersTwice freshState) ++ extra /\
    (List.length extra <= 1)%nat.
Proof.
  apply (held_pinch_requests_at_most_once
           [Frame 600 600 1280 720 (Some [pinchedHandAt 0.303125 0.7]);
            Frame 700 700 1280 720 (Some [pinchedHandAt 0.303125 0.7]);
            Frame 800 800 1280 720 (Some [pinchedHandAt 0.303125 0.7])]
           (run dropUsersTwice freshState)).
  vm_compute. reflexivity.
Defined.

Example held_pinch_sample :
  fetchCalls
    (run [Frame 600 600 1280 720 (Some [pinchedHandAt 0.303125 0.7]);
          Frame 700 700 1280 720 (Some [pinchedHandAt 0.303125 0.7]);
          Frame 800 800 1280 720 (Some [pinchedHandAt 0.303125 0.7])]
       (run dropUsersTwice freshState))
  = [["users"]]%string.
Proof. vm_compute. reflexivity. Qed.

(* ================================================================== *)
(** ** The tables put on display *)

From Stdlib Require DecimalNat.

Lemma string_of_nat_inj i j : string_of_nat i = string_of_nat j -> i = j.
Proof.
  unfold string_of_nat. intros H.
  assert (E : Some (Nat.to_uint i) = Some (Nat.to_uint j)).
  { rewrite <- !NilEmpty.usu. now rewrite H. }
  injection E as E.
  rewrite <- (DecimalNat.Unsigned.of_to i), <- (DecimalNat.Unsigned.of_to j).
  now rewrite E.
Qed.

(** A decimal rendering holds no dash. *)
Lemma string_of_uint_no_dash d : forall a b,
  NilEmpty.string_of_uint d <> (a ++ String "-" b)%string.
Proof.
  induction d; intros a b; simpl;
    destruct a as [|c a]; simpl; try discriminate;
    intros H; injection H as _ H; now apply IHd in H.
Qed.

Lemma string_of_nat_no_dash n a b :
  string_of_nat n <> (a ++ String "-" b)%string.
Proof. apply string_of_uint_no_dash. Qed.

(** What follows the last dash of a string determines... itself. *)
Lemma after_last_dash p : forall p' d d',
  (forall a b, d <> (a ++ String "-" b)%string) ->
  (forall a b, d' <> (a ++ String "-" b)%string) ->
  (p ++ String "-" d)%string = (p' ++ String "-" d')%string -> d = d'.
Proof.
  induction p as [|c p IH]; intros p' d d' Hd Hd' H.
  - destruct p' as [|c' p']; simpl in H.
    + now injection H.
    + injection H as _ H. now apply Hd in H.
  - destruct p' as [|c' p']; simpl in H.
    + injection H as _ H. symmetry in H. now apply Hd' in H.
    + injection H as _ H. now apply (IH p' d d').
Qed.

Lemma append_assoc (a b c : string) :
  ((a ++ b) ++ c)%string = (a ++ b ++ c)%string.
Proof. induction a as [|x a IH]; simpl; [reflexivity | now rewrite IH]. Qed.

Lemma table_id_index now name name' i j :
  (name ++ "-" ++ string_of_nat (Z.to_nat now) ++ "-" ++
   string_of_nat i)%string
  = (name' ++ "-" ++ string_of_nat (Z.to_nat now) ++ "-" ++
     string_of_nat j)%string ->
  i = j.
Proof.
  intros H. apply string_of_nat_inj.
  assert (E : forall n k : string,
             (n ++ "-" ++ string_of_nat (Z.to_nat now) ++ "-" ++ k)%string
             = ((n ++ "-" ++ string_of_nat (Z.to_nat now)) ++ String "-" k)
               %string).
  { intros n k. now rewrite !append_assoc. }
  rewrite !E in H.
  exact (after_last_dash _ _ _ _ (string_of_nat_no_dash i)
           (string_of_nat_no_dash j) H).
Qed.

Lemma tableObjectsFrom_ids now displayTables : forall index id,
  In id (map TableObject.id (tableObjectsFrom now index displayTables)) ->
  exists name j,
    (index <= j)%nat /\
    id = (name ++ "-" ++ string_of_nat (Z.to_nat now) ++ "-" ++
          string_of_nat j)%string.
Proof.
  induction displayTables as [|t ts IH]; intros index id; simpl; [easy|].
  intros [<- | Hin].
  - exists t, index. split; [lia | reflexivity].
  - destruct (IH _ _ Hin) as (name & j & Hj & ->).
    exists name, j. split; [lia | reflexivity].
Qed.

Lemma tableObjectsFrom_NoDup now displayTables : forall index,
  NoDup (map TableObject.id (tableObjectsFrom now index displayTables)).
Proof.
  induction displayTables as [|t ts IH]; intros index; simpl;
    constructor; [|apply IH].
  intros Hin. destruct (tableObjectsFrom_ids _ _ _ _ Hin)
    as (name & j & Hj & E).
  apply table_id_index in E. lia.
Qed.

Lemma tableObjectsFrom_nth now displayTables : forall index i t,
  nth_error (tableObjectsFrom now index displayTables) i = Some t ->
  nth_error displayTables i = Some (TableObject.name t) /\
  TableObject.x t = 0.1 + inject_Z (Z.of_nat (index + i)) * 0.15 /\
  TableObject.y t = 0.1 /\
  TableObject.isDragging t = false.
Proof.
  induction displayTables as [|n ns IH]; intros index i t; simpl.
  - destruct i; discriminate.
  - destruct i as [|i]; simpl.
    + intros [= <-]. simpl. rewrite Nat.add_0_r. now repeat split.
    + intros H. destruct (IH _ _ _ H) as (A & B & C & D).
      rewrite Nat.add_succ_r. now repeat split.
Qed.

(** Start-up puts one table per displayed name on the top row, in order,
    0.15 apart starting at 0.1, none of them dragged and no two with the
    same id (whatever the names); exactly the first six lie inside the
    area to which a drag confines a table, so from the seventh on a table
    starts further right than a drag could ever put it. *)
Theorem initTables_layout :
  forall now availableTables,
    let tables := initTables now availableTables in
    map TableObject.name tables = displayedNames availableTables /\
    NoDup (map TableObject.id tables) /\
    (forall i t,
        nth_error tables i = Some t ->
        TableObject.x t = 0.1 + inject_Z (Z.of_nat i) * 0.15 /\
        TableObject.y t = 0.1 /\
        TableObject.isDragging t = false /\
        (inVisibleArea t <-> (i <= 5)%nat)).
Proof.
  intros now availableTables tables.
  split; [apply initTables_names|].
  split; [apply tableObjectsFrom_NoDup|].
  intros i t Hnth. unfold tables, initTables in Hnth.
  apply tableObjectsFrom_nth in Hnth as (_ & Hx & Hy & Hd).
  simpl in Hx. split; [exact Hx|]. split; [exact Hy|]. split; [exact Hd|].
  unfold inVisibleArea. rewrite Hx, Hy.
  assert (Hpos : 0 <= inject_Z (Z.of_nat i))
    by (rewrite <- (Zle_Qle 0); lia).
  split.
  - intros [[_ Hr] _].
    destruct (le_gt_dec i 5) as [Hle|Hgt]; [exact Hle|].
    assert (H6 : 6 <= inject_Z (Z.of_nat i))
      by (rewrite <- (Zle_Qle 6); lia).
    lra.
  - intros Hle.
    assert (H5 : inject_Z (Z.of_nat i) <= 5)
      by (rewrite <- (Zle_Qle _ 5); lia).
    repeat split; lra.
Qed.

(* ================================================================== *)
(** ** The drag reference and the dragging flags *)

Lemma updateTable_ids ref f ts :
  (forall t, TableObject.id (f t) = TableObject.id t) ->
  map TableObject.id (updateTable ref f ts) = map TableObject.id ts.
Proof.
  intros Hf. induction ts as [|t ts IH]; simpl; [reflexivity|].
  destruct (String.eqb (TableObject.id t) ref); simpl;
    [now rewrite Hf | now rewrite IH].
Qed.

Lemma updateTable_Forall (P : TableObject.t -> Prop) ref f ts :
  (forall t, P t -> P (f t)) ->
  Forall P ts -> Forall P (updateTable ref f ts).
Proof.
  intros Hf. induction 1 as [|t ts Ht Hts IH]; simpl; [constructor|].
  destruct (String.eqb (TableObject.id t) ref); constructor; auto.
Qed.

(** Clearing the flag of the referenced table leaves no table flagged. *)
Lemma updateTable_clear i ts :
  NoDup (map TableObject.id ts) ->
  Forall (fun t => TableObject.isDragging t = true <->
                   Some i = Some (TableObject.id t)) ts ->
  Forall (fun t => TableObject.isDragging t = true <->
                   @None string = Some (TableObject.id t))
    (updateTable i (TableObject.set_isDragging false) ts).
Proof.
  assert (Hoff : forall t : TableObject.t,
             TableObject.isDragging t <> true ->
             TableObject.isDragging t = true <->
             @None string = Some (TableObject.id t)).
  { intros t Ht. split; [contradiction | discriminate]. }
  induction ts as [|t ts IH]; simpl; intros Hnd Hall; [constructor|].
  inversion Hnd as [|? ? Hnotin Hnd']; subst.
  inversion Hall as [|? ? Ht Hts]; subst.
  destruct (String.eqb (TableObject.id t) i) eqn:E.
  - apply String.eqb_eq in E. constructor.
    + apply Hoff. simpl. discriminate.
    + apply Forall_forall. intros u Hu. apply Hoff.
      rewrite Forall_forall in Hts. rewrite (Hts u Hu).
      intros [= Hi]. apply Hnotin. rewrite E, Hi. now apply in_map.
  - constructor; [|now apply IH].
    apply Hoff. rewrite Ht. intros [= Hi]. subst i.
    now rewrite String.eqb_refl in E.
Qed.

(** Grabbing flags the first table in reach and nothing else. *)
Lemma grabTable_flags px py size ts :
  NoDup (map TableObject.id ts) ->
  Forall (fun t => TableObject.isDragging t <> true) ts ->
  map TableObject.id (fst (grabTable px py size ts))
  = map TableObject.id ts /\
  match snd (grabTable px py size ts) with
  | Some i =>
      In i (map TableObject.id ts) /\
      Forall (fun t => TableObject.isDragging t = true <->
                       Some i = Some (TableObject.id t))
        (fst (grabTable px py size ts))
  | None => fst (grabTable px py size ts) = ts
  end.
Proof.
  induction ts as [|t ts IH]; simpl; intros Hnd Hall; [now split|].
  inversion Hnd as [|? ? Hnotin Hnd']; subst.
  inversion Hall as [|? ? Ht Hts]; subst.
  destruct (root_ltb _ size); simpl.
  - split; [reflexivity|]. split; [now left|]. constructor.
    + simpl. now split.
    + apply Forall_forall. intros u Hu. rewrite Forall_forall in Hts.
      split; [intros Hflag; now apply Hts in Hflag|].
      intros [= Hi]. exfalso. apply Hnotin. rewrite Hi. now apply in_map.
  - destruct (IH Hnd' Hts) as [Hids Hres]. split; [now rewrite Hids|].
    destruct (snd (grabTable px py size ts)) as [i|].
    + destruct Hres as [Hin Hflags]. split; [now right|].
      constructor; [|exact Hflags].
      split; [intros Hflag; contradiction|].
      intros [= Hi]. exfalso. apply Hnotin. now rewrite <- Hi.
    + now rewrite Hres.
Qed.

Section Dragging.

Variable ids : list string.
Hypothesis ids_distinct : NoDup ids.
Hypothesis ids_nonempty : Forall (fun i => i <> EmptyString) ids.

Lemma drag_unreferenced s :
  dragInvariant ids s -> draggedTableRef s = None ->
  Forall (fun t => TableObject.isDragging t <> true) (tablesRef s).
Proof.
  intros (_ & _ & _ & Hflags) Hnone. rewrite Hnone in Hflags.
  eapply Forall_impl; [|exact Hflags]. intros t Ht Hflag.
  now apply Ht in Hflag.
Qed.

Lemma drag_truthy s i :
  dragInvariant ids s -> draggedTableRef s = Some i ->
  truthy (draggedTableRef s) = true.
Proof.
  intros (_ & _ & Hin & _) Href. rewrite Href. simpl.
  rewrite Forall_forall in ids_nonempty.
  destruct (String.eqb i EmptyString) eqn:E; [|reflexivity].
  apply String.eqb_eq in E. now apply (ids_nonempty i (Hin i Href)) in E.
Qed.

Lemma drag_pinchStart now W H px py s :
  dragInvariant ids s ->
  PinchState.isPinching (pinchStateRef s) = false ->
  dragInvariant ids (pinchStart now W H px py s).
Proof.
  intros Hinv Hflag. pose proof Hinv as (Hids & Hidle & Hin & Hflags).
  pose proof (Hidle Hflag) as Hnone.
  pose proof (drag_unreferenced s Hinv Hnone) as Hoff.
  unfold pinchStart. destruct (hitsButton W H px py).
  - unfold pressGenerate. st.
    destruct (negb (buttonClickedRef s)); st;
      [destruct (List.length (droppedTablesRef s) =? 0)%nat; st|];
      (split; [exact Hids|]); (split; [discriminate|]);
      (split; [exact Hin | exact Hflags]).
  - assert (Hnd : NoDup (map TableObject.id (tablesRef s)))
      by now rewrite Hids.
    destruct (grabTable_flags px py (60 / Math_min W H) (tablesRef s)
                Hnd Hoff) as [Hids' Hres].
    destruct (snd (grabTable px py (60 / Math_min W H) (tablesRef s)))
      as [i|]; unfold dragInvariant; st.
    + destruct Hres as [Hi Hres].
      split; [now rewrite Hids', Hids|]. split; [discriminate|].
      split; [|exact Hres]. intros j [= <-]. now rewrite <- Hids.
    + rewrite Hres. split; [exact Hids|]. split; [discriminate|].
      split; [exact Hin | exact Hflags].
Qed.

Lemma drag_pinchMove px py s :
  dragInvariant ids s -> dragInvariant ids (pinchMove px py s).
Proof.
  intros (Hids & Hidle & Hin & Hflags). unfold pinchMove.
  destruct (truthy (draggedTableRef s)); unfold dragInvariant; st.
  - split; [now rewrite updateTable_ids|]. split; [discriminate|].
    split; [exact Hin|]. now apply updateTable_Forall.
  - split; [exact Hids|]. split; [discriminate|].
    split; [exact Hin | exact Hflags].
Qed.

(** Both ways a pinch ends leave the same tables and drag reference. *)
Lemma drag_release s :
  dragInvariant ids s ->
  dragInvariant ids (pinchRelease s) /\ dragInvariant ids (handsLost s).
Proof.
  intros Hinv. pose proof Hinv as (Hids & Hidle & Hin & Hflags).
  assert (Hnd : NoDup (map TableObject.id (tablesRef s)))
    by now rewrite Hids.
  assert (Hdone : forall ts,
             map TableObject.id ts = ids ->
             Forall (fun t => TableObject.isDragging t = true <->
                              @None string = Some (TableObject.id t)) ts ->
             forall s',
               tablesRef s' = ts -> draggedTableRef s' = None ->
               dragInvariant ids s').
  { intros ts H1 H2 s' Ht Hr. unfold dragInvariant. rewrite Ht, Hr.
    split; [exact H1|]. split; [reflexivity|].
    split; [discriminate | exact H2]. }
  destruct (draggedTableRef s) as [i|] eqn:Href.
  - pose proof (drag_truthy s i Hinv Href) as Htruthy.
    assert (Hcleared :
      Forall (fun t => TableObject.isDragging t = true <->
                       @None string = Some (TableObject.id t))
        (updateTable i (TableObject.set_isDragging false) (tablesRef s)))
      by now apply updateTable_clear.
    assert (Hcids :
      map TableObject.id
        (updateTable i (TableObject.set_isDragging false) (tablesRef s))
      = ids) by now rewrite updateTable_ids.
    assert (Hmissing : findTable i (tablesRef s) = None ->
      Forall (fun t => TableObject.isDragging t = true <->
                       @None string = Some (TableObject.id t))
        (tablesRef s)).
    { intros Hf. unfold findTable in Hf. apply Forall_forall.
      intros t Ht. rewrite Forall_forall in Hflags.
      split; [|discriminate]. intros Hflag.
      apply (Hflags t Ht) in Hflag. injection Hflag as Hi.
      pose proof (find_none_all _ _ Hf t Ht) as Hne. simpl in Hne.
      rewrite <- Hi, String.eqb_refl in Hne. discriminate. }
    split.
    + unfold pinchRelease. st. rewrite Href in *. rewrite Htruthy.
      cbn [refId].
      destruct (findTable i (tablesRef s)) as [t|] eqn:Hf; st.
      * destruct (inDropZone (TableObject.x t) (TableObject.y t)); st;
          [destruct (array_includes (droppedTablesRef s)
                       (TableObject.name t)); st|];
          eapply Hdone; try reflexivity; eassumption.
      * eapply Hdone; try reflexivity; [exact Hids | now apply Hmissing].
    + unfold handsLost. st. rewrite Href in *. rewrite Htruthy.
      cbn [refId].
      destruct (findTable i (tablesRef s)) as [t|] eqn:Hf; st.
      * eapply Hdone; try reflexivity; eassumption.
      * eapply Hdone; try reflexivity; [exact Hids | now apply Hmissing].
  - split.
    + unfold pinchRelease. st. rewrite Href. cbn [truthy]. st.
      eapply Hdone; try reflexivity; eassumption.
    + unfold handsLost. st. rewrite Href. cbn [truthy]. st.
      eapply Hdone; try reflexivity; eassumption.
Qed.

Lemma drag_processHand now W H s landmarks :
  dragInvariant ids s -> dragInvariant ids (processHand now W H s landmarks).
Proof.
  intros Hinv. unfold processHand.
  destruct (isPinchingHand landmarks);
    destruct (PinchState.isPinching (pinchStateRef s)) eqn:Hflag; st.
  - now apply drag_pinchMove.
  - now apply drag_pinchStart.
  - now apply drag_release.
  - exact Hinv.
Qed.

Lemma drag_same s s' :
  tablesRef s' = tablesRef s -> draggedTableRef s' = draggedTableRef s ->
  pinchStateRef s' = pinchStateRef s ->
  dragInvariant ids s -> dragInvariant ids s'.
Proof. unfold dragInvariant. now intros -> -> ->. Qed.

Lemma drag_step s e : dragInvariant ids s -> dragInvariant ids (step s e).
Proof.
  intros Hinv.
  destruct e as [currentTime now W H results | now k | d |]; simpl;
    try exact Hinv.
  - unfold renderLoop.
    destruct (ltb (currentTime - lastFrameTime s) frameInterval);
      [exact Hinv|].
    assert (H0 : dragInvariant ids (set_lastFrameTime currentTime s))
      by exact Hinv.
    destruct (showChart (set_lastFrameTime currentTime s)).
    + apply (drag_same (set_lastFrameTime currentTime s)); [| | |exact H0];
        unfold processSwipe; destruct results as [[|h r]|];
        try reflexivity; unfold detectSwipe;
        repeat match goal with
               | |- context [if ?c then _ else _] => destruct c
               end; reflexivity.
    + assert (Hfold : forall hands s0,
                dragInvariant ids s0 ->
                dragInvariant ids
                  (fold_left (processHand now W H) hands s0)).
      { induction hands as [|h r IH]; intros s0 Hs0; simpl; auto.
        apply IH. now apply drag_processHand. }
      unfold processLandmarks.
      destruct results as [[|h r]|]; try (now apply Hfold);
        destruct (PinchState.isPinching
                    (pinchStateRef (set_lastFrameTime currentTime s)));
        try exact H0; now apply drag_release.
  - apply (drag_same s); [| | |exact Hinv]; unfold fireTimer;
      destruct (nth_error (timers s) k) as [[due cb]|]; auto;
      destruct (due <=? now)%Z; auto; destruct cb; reflexivity.
Qed.

Lemma drag_run es : forall s,
  dragInvariant ids s -> dragInvariant ids (run es s).
Proof.
  unfold run. induction es as [|e es IH]; intros s Hinv; simpl.
  - exact Hinv.
  - apply IH. now apply drag_step.
Qed.

End Dragging.

Lemma table_id_nonempty now displayTables : forall index,
  Forall (fun i => i <> EmptyString)
    (map TableObject.id (tableObjectsFrom now index displayTables)).
Proof.
  induction displayTables as [|t ts IH]; intros index; simpl;
    constructor; [|apply IH].
  intros E. apply (f_equal String.length) in E.
  rewrite string_length_append in E. simpl in E. lia.
Qed.

(** From start-up on, whatever the hands do (two hands included), a table
    is flagged as dragged exactly when the drag reference names it; so at
    most one table is dragged at a time, and when no pinch is in progress
    the reference is empty and no table is flagged: a release or the loss
    of the hands never leaves a table stuck in the dragged state. *)
Theorem dragging_flag_follows_drag_reference :
  forall now availableTables events,
    let s := run events (initialState now availableTables) in
    (forall t, In t (tablesRef s) ->
               (TableObject.isDragging t = true <->
                draggedTableRef s = Some (TableObject.id t))) /\
    (forall t u, In t (tablesRef s) -> In u (tablesRef s) ->
                 TableObject.isDragging t = true ->
                 TableObject.isDragging u = true ->
                 TableObject.id t = TableObject.id u) /\
    (PinchState.isPinching (pinchStateRef s) = false ->
     draggedTableRef s = None /\
     forall t, In t (tablesRef s) -> TableObject.isDragging t = false) /\
    NoDup (map TableObject.id (tablesRef s)).
Proof.
  intros now availableTables events s.
  assert (Hinv : dragInvariant
                   (map TableObject.id (initTables now availableTables)) s).
  { apply drag_run.
    - apply tableObjectsFrom_NoDup.
    - apply table_id_nonempty.
    - split; [reflexivity|]. split; [reflexivity|].
      split; [discriminate|]. apply Forall_forall. intros t Ht. simpl.
      unfold initTables in Ht. apply In_nth_error in Ht as [i Hi].
      apply tableObjectsFrom_nth in Hi as (_ & _ & _ & Hd).
      rewrite Hd. split; discriminate. }
  destruct Hinv as (Hids & Hidle & Hin & Hflags).
  rewrite Forall_forall in Hflags.
  split; [exact Hflags|]. split; [|split].
  - intros t u Ht Hu Hft Hfu.
    apply (Hflags t Ht) in Hft. apply (Hflags u Hu) in Hfu. congruence.
  - intros Hflag. pose proof (Hidle Hflag) as Hnone. split; [exact Hnone|].
    intros t Ht. destruct (TableObject.isDragging t) eqn:E; [|reflexivity].
    apply (Hflags t Ht) in E. congruence.
  - rewrite Hids. apply tableObjectsFrom_NoDup.
Qed.

(* ================================================================== *)
(** ** Arrays: sorting, maxima and indexed maps *)

From Stdlib Require Import Permutation Sorted.

Lemma insertSorted_perm {A} (compare : A -> A -> Q) a l :
  Permutation (insertSorted compare a l) (a :: l).
Proof.
  induction l as [|b l IH]; simpl; [reflexivity|].
  destruct (leb (compare a b) 0); [reflexivity|].
  rewrite IH. apply perm_swap.
Qed.

Lemma Array_sort_perm {A} (compare : A -> A -> Q) l :
  Permutation (Array_sort compare l) l.
Proof.
  induction l as [|a l IH]; simpl; [reflexivity|].
  rewrite insertSorted_perm. now constructor.
Qed.

Lemma Array_sort_length {A} (compare : A -> A -> Q) l :
  List.length (Array_sort compare l) = List.length l.
Proof. apply Permutation_length, Array_sort_perm. Qed.

Lemma Array_sort_Forall {A} (compare : A -> A -> Q) (P : A -> Prop) l :
  Forall P l -> Forall P (Array_sort compare l).
Proof.
  intros H. eapply Permutation_Forall; [|exact H].
  symmetry. apply Array_sort_perm.
Qed.

(** Sorting by a key, largest first. *)
Lemma insertSorted_descending {A} (key : A -> Q) a l :
  StronglySorted (fun a b => key b <= key a) l ->
  StronglySorted (fun a b => key b <= key a)
    (insertSorted (fun a b => key b - key a) a l).
Proof.
  induction 1 as [|b l Hl IH Hb]; simpl.
  - constructor; constructor.
  - unfold leb. destruct (Qle_bool (key b - key a) 0) eqn:E.
    + apply Qle_bool_iff in E.
      assert (Hba : key b <= key a) by lra.
      constructor; [now constructor|]. constructor; [exact Hba|].
      eapply Forall_impl; [|exact Hb]. intros c Hc. simpl in Hc. lra.
    + assert (Hab : key a <= key b).
      { destruct (Qlt_le_dec (key b) (key a)) as [Hlt|Hle]; [|exact Hle].
        assert (Qle_bool (key b - key a) 0 = true)
          by (apply Qle_bool_iff; lra).
        congruence. }
      constructor; [exact IH|].
      eapply Permutation_Forall;
        [symmetry; apply insertSorted_perm|].
      constructor; [exact Hab | exact Hb].
Qed.

Lemma Array_sort_descending {A} (key : A -> Q) l :
  StronglySorted (fun a b => key b <= key a)
    (Array_sort (fun a b => key b - key a) l).
Proof.
  induction l as [|a l IH]; simpl; [constructor|].
  now apply insertSorted_descending.
Qed.

Lemma StronglySorted_map {A} (key : A -> Q) l :
  StronglySorted (fun a b => key b <= key a) l ->
  StronglySorted (fun a b => b <= a) (map key l).
Proof.
  induction 1 as [|a l Hl IH Ha]; simpl; constructor; [exact IH|].
  apply Forall_map. exact Ha.
Qed.

Lemma StronglySorted_nth {A} (R : A -> A -> Prop) l :
  StronglySorted R l ->
  forall i j a b, (i < j)%nat ->
    nth_error l i = Some a -> nth_error l j = Some b -> R a b.
Proof.
  induction 1 as [|x l Hl IH Hx]; intros i j a b Hij Hi Hj.
  - destruct i; discriminate.
  - destruct j as [|j]; [lia|]. destruct i as [|i]; simpl in *.
    + injection Hi as <-. rewrite Forall_forall in Hx. apply Hx.
      eapply nth_error_In, Hj.
    + apply (IH i j); [lia | assumption | assumption].
Qed.

(** The maximum of a list is above every element and is one of them. *)
Lemma fold_Math_max rest : forall a,
  a <= fold_left Math_max rest a /\
  Forall (fun v => v <= fold_left Math_max rest a) rest /\
  In (fold_left Math_max rest a) (a :: rest).
Proof.
  induction rest as [|b rest IH]; intros a; simpl.
  - split; [lra|]. split; [constructor | now left].
  - destruct (IH (Math_max a b)) as (H1 & H2 & H3).
    pose proof (Math_max_lower a b) as Ha.
    assert (Hb : b <= Math_max a b).
    { unfold Math_max. destruct (ltb a b) eqn:E; [lra|].
      apply ltb_ge in E. exact E. }
    split; [lra|]. split.
    + constructor; [lra | exact H2].
    + destruct H3 as [H3|H3]; [|now right; right].
      rewrite <- H3. unfold Math_max. destruct (ltb a b); auto.
Qed.

Lemma Math_max_list_spec values :
  values <> [] ->
  Forall (fun v => v <= Math_max_list values) values /\
  In (Math_max_list values) values.
Proof.
  destruct values as [|a rest]; [easy|]. intros _. simpl.
  destruct (fold_Math_max rest a) as (H1 & H2 & H3).
  split; [now constructor | exact H3].
Qed.

(** Indexed maps. *)
Lemma mapFrom_length {A B} (f : A -> nat -> B) l : forall k,
  List.length (mapFrom f k l) = List.length l.
Proof. induction l as [|a l IH]; intros k; simpl; auto. Qed.

Lemma mapFrom_nth {A B} (f : A -> nat -> B) l : forall k i,
  nth_error (mapFrom f k l) i
  = option_map (fun a => f a (k + i)%nat) (nth_error l i).
Proof.
  induction l as [|a l IH]; intros k i; simpl.
  - now destruct i.
  - destruct i as [|i]; simpl; [now rewrite Nat.add_0_r|].
    rewrite IH. now rewrite Nat.add_succ_r.
Qed.

Lemma mapFrom_Forall {A B} (f : A -> nat -> B) (P : B -> Prop) l :
  forall k,
    (forall a i, nth_error l i = Some a -> P (f a (k + i)%nat)) ->
    Forall P (mapFrom f k l).
Proof.
  induction l as [|a l IH]; intros k H; simpl; constructor.
  - specialize (H a 0%nat eq_refl). now rewrite Nat.add_0_r in H.
  - apply IH. intros b i Hb. specialize (H b (S i) Hb).
    now rewrite Nat.add_succ_r in H.
Qed.

Lemma mapFrom_map {A B C} (f : A -> nat -> B) (g : B -> C) (h : A -> C) l :
  (forall a i, g (f a i) = h a) ->
  forall k, map g (mapFrom f k l) = map h l.
Proof.
  intros H. induction l as [|a l IH]; intros k; simpl; [reflexivity|].
  now rewrite H, IH.
Qed.

Lemma firstn_min_length {A} (l : list A) n :
  firstn (Nat.min (List.length l) n) l = firstn n l.
Proof.
  destruct (Nat.le_ge_cases (List.length l) n) as [H|H].
  - rewrite Nat.min_l by exact H.
    now rewrite firstn_all, firstn_all2.
  - now rewrite Nat.min_r.
Qed.

(** *** The geometry shared by the layouts *)

Lemma Q_of_nat_pos n : (0 < n)%nat -> 0 < Q_of_nat n.
Proof. intros H. unfold Q_of_nat. rewrite <- (Zlt_Qlt 0). lia. Qed.

Lemma Q_of_nat_le i j : (i <= j)%nat -> Q_of_nat i <= Q_of_nat j.
Proof. intros H. unfold Q_of_nat. rewrite <- Zle_Qle. lia. Qed.

Lemma Q_of_nat_S i : Q_of_nat (S i) == Q_of_nat i + 1.
Proof.
  unfold Q_of_nat. rewrite Nat2Z.inj_succ. unfold Z.succ.
  now rewrite inject_Z_plus.
Qed.

(** Bar [i] of [m] bars that share the span [span] starting at [start]
    begins at or after [start] and ends before [start + 1.1 * span]. *)
Lemma bar_within span start (m i : nat) :
  0 <= span -> (i < m)%nat ->
  let barWidth := span / Q_of_nat m in
  let barSpacing := barWidth * 0.1 in
  let x := start + Q_of_nat i * (barWidth + barSpacing) in
  0 <= barWidth /\ start <= x /\ x + barWidth * 0.8 <= start + 1.1 * span.
Proof.
  intros Hspan Him barWidth barSpacing x.
  assert (Hm : 0 < Q_of_nat m) by (apply Q_of_nat_pos; lia).
  assert (Hi : 0 <= Q_of_nat i) by (apply (Q_of_nat_le 0); lia).
  assert (Hbw : 0 <= barWidth).
  { unfold barWidth. apply Qle_shift_div_l; [exact Hm | lra]. }
  assert (Hprod : barWidth * Q_of_nat m == span).
  { unfold barWidth. field. lra. }
  assert (Hnext : Q_of_nat i + 1 <= Q_of_nat m).
  { rewrite <- Q_of_nat_S. apply Q_of_nat_le. lia. }
  assert (Hib : 0 <= Q_of_nat i * barWidth) by now apply Qmult_le_0_compat.
  assert (Hle : (Q_of_nat i + 1) * barWidth <= Q_of_nat m * barWidth)
    by now apply Qmult_le_compat_r.
  split; [exact Hbw|]. unfold x, barSpacing. split; lra.
Qed.

(** The height of a bar for a value between 0 and the maximum. *)
Lemma bar_height_within v maxValue chartHeight :
  0 <= v -> v <= maxValue -> 0 < maxValue -> 0 <= chartHeight ->
  0 <= (v / maxValue) * chartHeight * 0.8 /\
  (v / maxValue) * chartHeight * 0.8 <= chartHeight * 0.8.
Proof.
  intros Hv Hmax Hpos Hch.
  assert (H0 : 0 <= v / maxValue)
    by (apply Qle_shift_div_l; [exact Hpos | lra]).
  assert (H1 : v / maxValue <= 1)
    by (apply Qle_shift_div_r; [exact Hpos | lra]).
  assert (Ha : 0 <= (v / maxValue) * chartHeight)
    by now apply Qmult_le_0_compat.
  assert (Hb : (v / maxValue) * chartHeight <= 1 * chartHeight)
    by now apply Qmult_le_compat_r.
  split; lra.
Qed.

Lemma bar_height_monotone u v maxValue chartHeight :
  u <= v -> 0 < maxValue -> 0 <= chartHeight ->
  (u / maxValue) * chartHeight * 0.8 <= (v / maxValue) * chartHeight * 0.8.
Proof.
  intros Huv Hpos Hch.
  assert (H : u / maxValue <= v / maxValue).
  { unfold Qdiv. apply Qmult_le_compat_r; [exact Huv|].
    apply Qlt_le_weak, Qinv_lt_0_compat, Hpos. }
  assert (H' : (u / maxValue) * chartHeight <= (v / maxValue) * chartHeight)
    by now apply Qmult_le_compat_r.
  lra.
Qed.

(* ================================================================== *)
(** ** The events layout *)

Lemma countedEvent_number event :
  countedEvent event ->
  hasField "registration_count" event = true /\
  numField "registration_count" event
  = Some (numberField "registration_count" event) /\
  0 <= numberField "registration_count" event.
Proof.
  intros (_ & q & Hq & Hpos). unfold hasField, numberField.
  unfold numField in *.
  destruct (getField "registration_count" event) as [[p|s|b| |n]|];
    try discriminate.
  injection Hq as ->. now repeat split.
Qed.

Lemma filter_all {A} (f : A -> bool) l :
  Forall (fun a => f a = true) l -> filter f l = l.
Proof.
  induction 1 as [|a l Ha _ IH]; simpl; [reflexivity|].
  now rewrite Ha, IH.
Qed.

(** On records that carry a non-negative count, as every record the
    events path of the fetch produces does, the events layout draws one
    bar for each of the (at most 20) largest counts, largest first; the
    bars lie side by side without overlap between 15% and 92% of the
    canvas width, stand on the base line at 75% of its height and are at
    most 32% of its height tall, the first being the tallest. *)
Theorem events_layout_bars :
  forall width height chartData,
    0 < width -> 0 < height ->
    ChartData.data chartData <> [] ->
    Forall countedEvent (ChartData.data chartData) ->
    exists bars sorted,
      renderEventsRegistrationsChart width height chartData
      = Some (Bars bars) /\
      Permutation sorted
        (map (numberField "registration_count") (ChartData.data chartData))
      /\
      StronglySorted (fun a b => b <= a) sorted /\
      map Bar.value bars = firstn 20 sorted /\
      Forall (fun bar =>
                0.15 * width <= Bar.x bar /\
                Bar.x bar + Bar.width bar <= 0.92 * width /\
                0 <= Bar.height bar /\ Bar.height bar <= 0.32 * height /\
                Bar.y bar + Bar.height bar == 0.75 * height)
        bars /\
      (forall i a b,
          nth_error bars i = Some a -> nth_error bars (S i) = Some b ->
          Bar.x a + Bar.width a <= Bar.x b /\
          Bar.height b <= Bar.height a).
Proof.
  intros width height chartData HW HH Hne Hall.
  set (rc := numberField "registration_count").
  set (data := ChartData.data chartData) in *.
  assert (Hfilter : filter (hasField "registration_count") data = data).
  { apply filter_all. eapply Forall_impl; [|exact Hall].
    intros e He. now apply countedEvent_number. }
  assert (Htyped : numbersAt "registration_count" data = true).
  { unfold numbersAt. apply forallb_forall. intros e He.
    rewrite Forall_forall in Hall.
    destruct (countedEvent_number e (Hall e He)) as (_ & -> & _).
    reflexivity. }
  set (sortedEvents := Array_sort (fun a b => rc b - rc a) data).
  assert (Hperm : Permutation sortedEvents data)
    by apply Array_sort_perm.
  assert (Hsorted : StronglySorted (fun a b => rc b <= rc a) sortedEvents)
    by apply Array_sort_descending.
  assert (Hlen : List.length sortedEvents = List.length data)
    by apply Array_sort_length.
  assert (Hpos : Forall (fun e => 0 <= rc e) sortedEvents).
  { apply Array_sort_Forall. eapply Forall_impl; [|exact Hall].
    intros e He. now apply countedEvent_number. }
  assert (Hn : (0 < List.length data)%nat)
    by (destruct data; [contradiction | simpl; lia]).
  set (maxItems := Nat.min (List.length sortedEvents) 20).
  assert (Hm : (0 < maxItems)%nat) by (unfold maxItems; lia).
  set (maxCount := Math_max_list (map rc sortedEvents)).
  assert (Hmax : Forall (fun e => rc e <= maxCount) sortedEvents).
  { destruct (Math_max_list_spec (map rc sortedEvents)) as [H _].
    - destruct sortedEvents; [simpl in Hlen; lia | discriminate].
    - now rewrite Forall_map in H. }
  eexists. exists (map rc sortedEvents).
  split.
  { unfold renderEventsRegistrationsChart. fold data.
    rewrite Hfilter, Htyped. cbn [negb].
    destruct (List.length data =? 0)%nat eqn:E;
      [apply Nat.eqb_eq in E; lia|].
    reflexivity. }
  fold rc sortedEvents maxItems maxCount.
  split; [now apply Permutation_map|].
  split; [now apply StronglySorted_map|].
  split.
  { unfold Array_mapi. rewrite (mapFrom_map _ Bar.value rc) by reflexivity.
    unfold maxItems. rewrite firstn_min_length. now rewrite firstn_map. }
  assert (Hnth : forall i e,
             nth_error (firstn maxItems sortedEvents) i = Some e ->
             (i < maxItems)%nat /\ nth_error sortedEvents i = Some e).
  { intros i e Hi.
    assert (Hlt : (i < List.length (firstn maxItems sortedEvents))%nat)
      by (apply nth_error_Some; congruence).
    rewrite length_firstn in Hlt.
    split; [lia|]. rewrite nth_error_firstn in Hi.
    destruct (i <? maxItems)%nat eqn:E; [exact Hi|].
    apply Nat.ltb_ge in E. lia. }
  assert (Hspan : 0 <= width * 0.7) by lra.
  assert (Hch : 0 <= height * 0.4) by lra.
  split.
  - unfold Array_mapi. apply mapFrom_Forall. intros e i Hi. cbn [Nat.add].
    destruct (Hnth i e Hi) as [Hlt He].
    destruct (bar_within (width * 0.7) (width * 0.15) maxItems i Hspan Hlt)
      as (Hbw & Hx0 & Hx1).
    cbv zeta in Hbw, Hx0, Hx1.
    pose proof (nth_error_In _ _ He) as Hin.
    rewrite Forall_forall in Hpos, Hmax.
    cbn [Bar.x Bar.y Bar.width Bar.height].
    split; [lra|]. split; [lra|].
    destruct (gtb maxCount 0) eqn:Eg.
    + unfold gtb in Eg. apply ltb_lt in Eg.
      destruct (bar_height_within (rc e) maxCount (height * 0.4)
                  (Hpos e Hin) (Hmax e Hin) Eg Hch) as [H0 H1].
      split; [exact H0|]. split; [lra | ring].
    + split; [lra|]. split; [lra | ring].
  - intros i a b Ha Hb. unfold Array_mapi in Ha, Hb.
    rewrite mapFrom_nth in Ha, Hb. cbn [Nat.add] in Ha, Hb.
    destruct (nth_error (firstn maxItems sortedEvents) i) as [ea|] eqn:Ea;
      [|discriminate].
    destruct (nth_error (firstn maxItems sortedEvents) (S i)) as [eb|]
      eqn:Eb; [|discriminate].
    injection Ha as <-. injection Hb as <-.
    destruct (Hnth _ _ Ea) as [Hia Hea].
    destruct (Hnth _ _ Eb) as [Hib Heb].
    destruct (bar_within (width * 0.7) (width * 0.15) maxItems i Hspan Hia)
      as (Hbw & _ & _).
    cbv zeta in Hbw. cbn [Bar.x Bar.y Bar.width Bar.height].
    pose proof (Q_of_nat_S i) as HS.
    assert (Hord : rc eb <= rc ea).
    { apply (StronglySorted_nth _ _ Hsorted i (S i) ea eb);
        [lia | exact Hea | exact Heb]. }
    split.
    + rewrite HS. lra.
    + destruct (gtb maxCount 0) eqn:Eg; [|lra].
      unfold gtb in Eg. apply ltb_lt in Eg.
      now apply bar_height_monotone.
Qed.

Lemma events_layout_bars_witness :
  exists bars sorted,
    renderEventsRegistrationsChart 1280 720 (eventsChart countedEventRows)
    = Some (Bars bars) /\
    Permutation sorted
      (map (numberField "registration_count") countedEventRows) /\
    StronglySorted (fun a b => b <= a) sorted /\
    map Bar.value bars = firstn 20 sorted /\
    Forall (fun bar =>
              0.15 * 1280 <= Bar.x bar /\
              Bar.x bar + Bar.width bar <= 0.92 * 1280 /\
              0 <= Bar.height bar /\ Bar.height bar <= 0.32 * 720 /\
              Bar.y bar + Bar.height bar == 0.75 * 720)
      bars /\
    (forall i a b,
        nth_error bars i = Some a -> nth_error bars (S i) = Some b ->
        Bar.x a + Bar.width a <= Bar.x b /\
        Bar.height b <= Bar.height a).
Proof.
  apply (events_layout_bars 1280 720 (eventsChart countedEventRows)).
  - reflexivity.
  - reflexivity.
  - discriminate.
  - repeat constructor; eexists; (split; [reflexivity | discriminate]).
Defined.

Example events_layout_sample :
  option_map
    (fun drawing =>
       match drawing with
       | Bars bars =>
           map (fun bar => (Qred (Bar.x bar), Qred (Bar.y bar),
                            Qred (Bar.width bar), Qred (Bar.height bar)))
             bars
       | Message _ => []
       end)
    (renderEventsRegistrationsChart 1280 720 (eventsChart countedEventRows))
  = Some [ (192, 1548 # 5, 1792 # 5, 1152 # 5);
           (3424 # 5, 2124 # 5, 1792 # 5, 576 # 5) ].
Proof. vm_compute. reflexivity. Qed.

(* ================================================================== *)
(** ** What a fetch hands to the chart *)

Lemma fetchSeparate_shape w d :
  fetchSeparateEventsRegistrations w = Returned d ->
  exists data, d = eventsChart data.
Proof.
  unfold fetchSeparateEventsRegistrations, awaitImport, awaitSelect.
  destruct (importSupabase w AtEventsSeparate); cbn [bind try_catch];
    [|intros [= <-]; eauto].
  destruct (select w "events" "*") as [|events e1]; cbn [bind try_catch];
    [intros [= <-]; eauto|].
  destruct (select w "registrations" "*") as [|registrations e2];
    cbn [bind try_catch fst snd]; [intros [= <-]; eauto|].
  destruct (e1 || e2); cbn [bind try_catch]; intros [= <-]; eauto.
Qed.

Lemma fetchEvents_shape w d :
  fetchEventsRegistrationsData w = Returned d ->
  exists data, d = eventsChart data.
Proof.
  unfold fetchEventsRegistrationsData, awaitImport, awaitSelect.
  destruct (importSupabase w AtEventsJoin); cbn [bind try_catch];
    [|apply fetchSeparate_shape].
  destruct (select w "events"
              "id,title,name,registrations:registrations(count)")
    as [|events err]; cbn [bind try_catch fst snd];
    [apply fetchSeparate_shape|].
  destruct err.
  - destruct (fetchSeparateEventsRegistrations w) eqn:E; cbn [try_catch].
    + intros [= <-]. exact (fetchSeparate_shape w _ E).
    + discriminate.
  - cbn [try_catch]. intros [= <-]. eauto.
Qed.

Section FetchShape.

Variable ToNumber : option Value -> option Q.
Variable ToString : option Value -> string.
Variable relationships : list Rel.t.
Variable w : World.

(** The three kinds of dataset a fetch delivers. *)
Lemma fetchTableData_cases tableNames d :
  fetchTableData ToNumber ToString relationships w tableNames = Returned d ->
  (isEventsPair tableNames = true /\ exists data, d = eventsChart data) \/
  (isEventsPair tableNames = false /\
   exists j,
     createJoinQuery ToNumber ToString relationships w tableNames
     = Returned (Some j) /\
     d = ChartData.mk tableNames (JoinResult.data j) None
           (Some (JoinResult.type j)) (Some (JoinResult.title j))
           (Some (JoinResult.subtitle j)) (Some (JoinResult.xAxisField j))
           (Some (JoinResult.yAxisField j))
           (Some (JoinResult.yAxisLabel j))) \/
  (isEventsPair tableNames = false /\
   exists data,
     d = ChartData.plain tableNames data /\
     (data = flat_map (keptRows w) tableNames \/
      data = demoData w tableNames)).
Proof.
  unfold fetchTableData, isEventsPair.
  destruct (_ && _ && (List.length tableNames =? 2)%nat).
  - intros H. left. split; [reflexivity|]. now apply fetchEvents_shape in H.
  - intros H. right.
    assert (Hgeneric :
      try_catch
        (_ <- awaitImport w AtGenericFetch ;;
         Returned
           (ChartData.plain tableNames
              (fold_left (fetchInto w) tableNames [])))
        (Returned (ChartData.plain tableNames (demoData w tableNames)))
      = Returned d ->
      exists data,
        d = ChartData.plain tableNames data /\
        (data = flat_map (keptRows w) tableNames \/
         data = demoData w tableNames)).
    { unfold awaitImport.
      destruct (importSupabase w AtGenericFetch); cbn [bind try_catch];
        intros [= <-]; eexists; split; try reflexivity.
      - left. now rewrite fold_fetchInto.
      - now right. }
    destruct (_ && _)%bool.
    + destruct (createJoinQuery ToNumber ToString relationships w tableNames)
        as [[j|]|] eqn:Ej; cbn [bind] in H.
      * left. split; [reflexivity|]. exists j. split; [reflexivity|].
        now injection H as <-.
      * right. split; [reflexivity|]. now apply Hgeneric.
      * discriminate.
    + cbn [bind] in H. right. split; [reflexivity|]. now apply Hgeneric.
Qed.

End FetchShape.

(* ================================================================== *)
(** ** The join layout *)

Section JoinLayout.

Variable dateKey : option Value -> string.
Variable dateTime : option Value -> Q.

Lemma numField_addTo key amount item q :
  numField key item = Some q ->
  numField key (addTo key amount item) = Some (q + amount).
Proof.
  unfold addTo, numField. intros H.
  destruct (getField key item) as [[p|s|b| |n]|] eqn:E; try discriminate.
  injection H as ->. now rewrite getField_setField_same.
Qed.

Lemma numField_increment_other key other item :
  String.eqb other key = false ->
  numField key (increment other item) = numField key item.
Proof.
  intros Hne. unfold increment, numField.
  destruct (getField other item) as [[p|s|b| |n]|]; try reflexivity.
  now rewrite getField_setField_other.
Qed.

Lemma mapAdjust_Forall (P : option Value * ChartDataItem -> Prop) key f m :
  (forall k v, P (k, v) -> P (k, f v)) ->
  Forall P m -> Forall P (mapAdjust key f m).
Proof.
  intros Hf. induction 1 as [|[k v] m Hv Hm IH]; simpl; [constructor|].
  destruct (sameValue k key); constructor;
    first [now apply Hf | assumption].
Qed.

(** Grouping rows that hold 0 at the y-axis field gives groups that hold
    0 there. *)
Lemma joinDateGroups_zero xField yField data :
  String.eqb "count" yField = false ->
  Forall (fun row => numberField yField row == 0) data ->
  forall groups,
    Forall (fun e => exists q, numField yField (snd e) = Some q /\ q == 0)
      groups ->
    Forall (fun e => exists q, numField yField (snd e) = Some q /\ q == 0)
      (fold_left (joinDateGroup dateKey xField yField) data groups).
Proof.
  intros Hy. induction 1 as [|row data Hrow _ IH]; intros groups Hg;
    simpl; [exact Hg|].
  apply IH. unfold joinDateGroup.
  destruct (groupableDate (getField xField row)); [|exact Hg].
  apply mapAdjust_Forall.
  - intros k v (q & Hq & Hz). cbn [snd] in *.
    exists (q + numberField yField row). split.
    + rewrite numField_increment_other by exact Hy.
      now apply numField_addTo.
    + rewrite Hz, Hrow. reflexivity.
  - destruct (negb (mapHas _ groups)); [|exact Hg].
    apply Forall_mapSet; [|exact Hg]. intros k. exists 0. split;
      [|reflexivity].
    cbn [snd]. unfold numField.
    rewrite getField_setField_other by exact Hy.
    now rewrite getField_setField_same.
Qed.

Lemma numberField_of_numField key item q :
  numField key item = Some q -> numberField key item = q.
Proof. unfold numberField. now intros ->. Qed.

(** When every record holds 0 at the y-axis field, the join layout draws
    only bars of height 0. *)
Lemma join_layout_flat width height chartData y :
  ChartData.yAxisField chartData = Some y ->
  String.eqb y EmptyString = false ->
  String.eqb "count" y = false ->
  ChartData.data chartData <> [] ->
  Forall (fun row => numField y row = Some 0) (ChartData.data chartData) ->
  exists bars,
    renderJoinQueryChart dateKey dateTime width height chartData
    = Some (Bars bars) /\
    Forall (fun bar => Bar.height bar = 0 /\ Bar.value bar == 0) bars.
Proof.
  intros Hy Hne Hcount Hdata Hzero.
  unfold renderJoinQueryChart. rewrite Hy. cbn [orDefault].
  unfold isEmptyString. rewrite Hne.
  set (data := ChartData.data chartData) in *.
  set (xField := orDefault (ChartData.xAxisField chartData) "name").
  assert (Htyped : numbersOrNothingAt y data = true).
  { unfold numbersOrNothingAt. apply forallb_forall. intros row Hrow.
    rewrite Forall_forall in Hzero. specialize (Hzero row Hrow).
    unfold numField in Hzero.
    now destruct (getField y row) as [[p|s|b| |n]|]. }
  rewrite Htyped. cbn [negb].
  destruct (List.length data =? 0)%nat eqn:E.
  { apply Nat.eqb_eq in E. destruct data; [contradiction | discriminate]. }
  match goal with
  | |- context [firstn _ ?p] => set (processedData := p)
  end.
  assert (Hprocessed : Forall (fun row => numberField y row == 0)
                         processedData).
  { unfold processedData.
    destruct (array_includes dateFields xField); apply Array_sort_Forall.
    - unfold mapValues. apply Forall_map.
      assert (Hrows : Forall (fun row => numberField y row == 0) data).
      { eapply Forall_impl; [|exact Hzero]. intros row Hrow.
        now rewrite (numberField_of_numField _ _ _ Hrow). }
      pose proof (joinDateGroups_zero xField y data Hcount Hrows []
                    (Forall_nil _)) as Hgroups.
      eapply Forall_impl; [|exact Hgroups].
      intros e (q & Hq & Hz). now rewrite (numberField_of_numField _ _ _ Hq).
    - eapply Forall_impl; [|exact Hzero]. intros row Hrow.
      now rewrite (numberField_of_numField _ _ _ Hrow). }
  set (maxValue := Math_max_list (map (numberField y) processedData)).
  assert (Hmax : gtb maxValue 0 = false).
  { unfold gtb. apply ltb_ge.
    destruct processedData as [|p ps] eqn:Ep; [unfold maxValue; simpl; lra|].
    destruct (Math_max_list_spec (map (numberField y) (p :: ps)))
      as [_ Hin]; [discriminate|].
    fold maxValue in Hin. apply in_map_iff in Hin as (row & Hrow & Hin).
    rewrite Forall_forall in Hprocessed. rewrite <- Hrow.
    rewrite (Hprocessed row Hin). lra. }
  eexists. split; [reflexivity|].
  unfold Array_mapi. apply mapFrom_Forall. intros row i Hi.
  cbn [Bar.height Bar.value]. rewrite Hmax. split; [reflexivity|].
  rewrite Forall_forall in Hprocessed. apply Hprocessed.
  eapply nth_error_In. rewrite nth_error_firstn in Hi.
  destruct (i <? _)%nat; [exact Hi | discriminate].
Qed.

End JoinLayout.

(** A schema join of the kind "user_activity" or "category_distribution"
    is drawn flat: the dataset the fetch delivers for it goes to the join
    layout, and since the plotted counter is 0 in every row, every bar has
    height 0 and the value 0 (whether the rows are sorted by value or
    grouped by date); with no rows the chart says "NO DATA AVAILABLE". *)
Theorem schema_join_without_counts_is_drawn_flat :
  forall ToNumber ToString relationships w dateKey dateTime width height
         tableNames d,
    fetchTableData ToNumber ToString relationships w tableNames
    = Returned d ->
    ChartData.joinType d = Some "user_activity"%string \/
    ChartData.joinType d = Some "category_distribution"%string ->
    (ChartData.data d = [] /\
     chartContent ToString dateKey dateTime width height false d
     = NoDataLayout) \/
    (exists bars,
        chartContent ToString dateKey dateTime width height false d
        = JoinLayout (Some (Bars bars)) /\
        Forall (fun bar => Bar.height bar = 0 /\ Bar.value bar == 0) bars).
Proof.
  intros ToNumber ToString relationships w dateKey dateTime width height
         tableNames d Hfetch Hkind.
  destruct (fetchTableData_cases _ _ _ _ _ _ Hfetch)
    as [(_ & data & ->) | [(_ & j & Hj & ->) | (_ & data & -> & _)]].
  - destruct Hkind; discriminate.
  - cbn [ChartData.joinType] in Hkind.
    assert (Hrows : exists y,
              JoinResult.yAxisField j = y /\
              String.eqb y EmptyString = false /\
              String.eqb "count" y = false /\
              Forall (fun row => numField y row = Some 0)
                (JoinResult.data j)).
    { unfold createJoinQuery in Hj.
      destruct tableNames as [|a [|b [|c r]]]; try discriminate.
      destruct (findSchemaRelationship relationships a b) as [rel|];
        [|discriminate].
      unfold awaitImport in Hj.
      destruct (importSupabase w AtJoinQuery); cbn [bind try_catch] in Hj;
        [|discriminate].
      join_cases Hj.
      all: injection Hj as <-;
        cbn [JoinResult.type JoinResult.yAxisField JoinResult.data] in *.
      all: try (destruct Hkind; discriminate).
      all: eexists; split; [reflexivity|]; split; [reflexivity|];
        split; [reflexivity|];
        apply Forall_map, Forall_forall; intros row _;
        now apply joinRow_shape. }
    destruct Hrows as (y & Hy & Hne & Hcount & Hzero).
    unfold chartContent.
    cbn [ChartData.data ChartData.isEventsRegistrations ChartData.joinType].
    destruct (JoinResult.data j) as [|row rows] eqn:Edata.
    + left. split; reflexivity.
    + right. cbn [List.length Nat.ltb Nat.leb].
      assert (Htruthy : truthy (Some (JoinResult.type j)) = true)
        by (destruct Hkind as [[= ->] | [= ->]]; reflexivity).
      rewrite Htruthy.
      destruct (join_layout_flat dateKey dateTime width height
                  (ChartData.mk tableNames (row :: rows) None
                     (Some (JoinResult.type j)) (Some (JoinResult.title j))
                     (Some (JoinResult.subtitle j))
                     (Some (JoinResult.xAxisField j))
                     (Some (JoinResult.yAxisField j))
                     (Some (JoinResult.yAxisLabel j)))
                  y) as (bars & Hbars & Hflat);
        try assumption.
      * cbn [ChartData.yAxisField]. now rewrite Hy.
      * discriminate.
      * exists bars. split; [now rewrite Hbars | exact Hflat].
  - destruct Hkind; discriminate.
Qed.

Lemma schema_join_without_counts_is_drawn_flat_witness :
  exists bars,
    chartContent sampleString noDateKey noDateTime 1280 720 false
      (ChartData.mk ["users"; "posts"]%string
         (map (joinRow noNumber "activity_count" "users") userRows)
         None (Some "user_activity"%string) (Some "USERS ACTIVITY"%string)
         (Some "posts per users"%string) (Some "name"%string)
         (Some "activity_count"%string) (Some "POSTS"%string))
    = JoinLayout (Some (Bars bars)) /\
    Forall (fun bar => Bar.height bar = 0 /\ Bar.value bar == 0) bars.
Proof.
  destruct (schema_join_without_counts_is_drawn_flat noNumber sampleString
              forumSchema forumWorld noDateKey noDateTime 1280 720
              ["users"; "posts"]%string _ eq_refl (or_introl eq_refl))
    as [[Hdata _] | H].
  - discriminate Hdata.
  - exact H.
Defined.

(* ================================================================== *)
(** ** The generic layout *)

Lemma upsert_Forall {V} (P : V -> Prop) key init (update : V -> V) m :
  (forall v, P v -> P (update v)) -> P (update init) ->
  Forall (fun e => P (snd e)) m ->
  Forall (fun e => P (snd e)) (upsert key init update m).
Proof.
  intros Hu Hi. induction 1 as [|[k v] m Hv Hm IH]; simpl.
  - constructor; [exact Hi | constructor].
  - destruct (String.eqb k key); constructor;
      first [now apply Hu | assumption].
Qed.

Lemma upsert_total {V} (f : V -> Q) key init (update : V -> V) m :
  (forall v, f (update v) == f v + 1) -> f (update init) == 1 ->
  total (map (fun e => f (snd e)) (upsert key init update m))
  == total (map (fun e => f (snd e)) m) + 1.
Proof.
  intros Hu Hi. induction m as [|[k v] m IH]; simpl.
  - rewrite Hi. ring.
  - destruct (String.eqb k key); simpl.
    + rewrite Hu. ring.
    + rewrite IH. ring.
Qed.

Lemma upsert_length {V} key init (update : V -> V) m :
  (List.length (upsert key init update m) <= S (List.length m))%nat.
Proof.
  induction m as [|[k v] m IH]; simpl; [lia|].
  destruct (String.eqb k key); simpl; lia.
Qed.

Lemma prefix_empty s : String.prefix EmptyString s = true.
Proof. now destruct s. Qed.

Lemma beforeSeparator_append t r :
  plainName t -> beforeSeparator (t ++ ", " ++ r) = t.
Proof.
  unfold plainName. induction t as [|c t IH]; intros Hplain.
  - cbn [append beforeSeparator]. unfold startsWith.
    cbn [String.prefix]. simpl. now rewrite prefix_empty.
  - change ((String c t ++ ", " ++ r)%string)
      with (String c (t ++ ", " ++ r)%string).
    cbn [beforeSeparator] in Hplain |- *.
    destruct (startsWith (String c t) ", ") eqn:E; [discriminate|].
    injection Hplain as Hplain.
    assert (E' : startsWith (String c (t ++ ", " ++ r)) ", " = false).
    { unfold startsWith in *. cbn [String.prefix] in E |- *.
      destruct (Ascii.ascii_dec "," c) as [Hc|Hc]; [|reflexivity].
      destruct t as [|c' t].
      - cbn [append String.prefix]. simpl. reflexivity.
      - cbn [append String.prefix] in E |- *.
        destruct (Ascii.ascii_dec " " c') as [Hc'|Hc']; [|reflexivity].
        now rewrite prefix_empty in E. }
    rewrite E'. now rewrite IH.
Qed.

Lemma indexFrom_In arr s : forall k,
  In s arr -> (k <= indexFrom k arr s)%Z.
Proof.
  induction arr as [|a arr IH]; intros k; simpl; [easy|].
  intros Hin. destruct (String.eqb a s) eqn:E; [lia|].
  destruct Hin as [->|Hin]; [now rewrite String.eqb_refl in E|].
  specialize (IH (k + 1)%Z Hin). lia.
Qed.

Lemma colorSetOf_drawable tables group :
  drawableGroup tables group ->
  exists c, colorSetOf tables group = Returned c /\ (c < 4)%nat.
Proof.
  intros (_ & table & Ht & Hin). unfold colorSetOf. rewrite Ht.
  pose proof (indexFrom_In tables _ 0%Z Hin) as Hidx.
  fold (Array_indexOf tables (beforeSeparator table)) in Hidx.
  set (index := Array_indexOf tables (beforeSeparator table)) in *.
  assert (E : (if (index =? 0)%Z then 0%Z else index) = index).
  { destruct (index =? 0)%Z eqn:E0; [|reflexivity].
    apply Z.eqb_eq in E0. now rewrite E0. }
  rewrite E.
  destruct (index <? 0)%Z eqn:Eneg; [apply Z.ltb_lt in Eneg; lia|].
  eexists. split; [reflexivity|].
  pose proof (Z.mod_pos_bound index 4 ltac:(lia)). lia.
Qed.

Lemma collect_mapFrom {A B} (f : A -> nat -> Outcome B) (g : A -> nat -> B)
    l :
  forall k,
    (forall a i, nth_error l i = Some a ->
                 f a (k + i)%nat = Returned (g a (k + i)%nat)) ->
    collect (mapFrom f k l) = Returned (mapFrom g k l).
Proof.
  induction l as [|a l IH]; intros k H; simpl; [reflexivity|].
  pose proof (H a 0%nat eq_refl) as H0. rewrite Nat.add_0_r in H0.
  rewrite H0. cbn [bind]. rewrite (IH (S k)); [reflexivity|].
  intros b i Hb. specialize (H b (S i) Hb).
  now rewrite Nat.add_succ_r in H.
Qed.

Section GenericLayout.

Variable ToString : option Value -> string.
Variable dateKey : option Value -> string.
Variable dateTime : option Value -> Q.
Variable tables : list string.
Hypothesis tables_plain : Forall plainName tables.

Lemma tagged_plain item :
  taggedWith tables item ->
  exists table,
    getField "_table" item = Some (VStr table) /\ In table tables /\
    plainName table.
Proof.
  intros (table & Ht & Hin). exists table. split; [exact Ht|].
  split; [exact Hin|]. rewrite Forall_forall in tables_plain.
  now apply tables_plain.
Qed.

(** Grouping by value counts every record once. *)
Lemma groupByValue_groups xAxisField data :
  Forall (taggedWith tables) data ->
  Forall (drawableGroup tables) (groupByValue ToString xAxisField data) /\
  (List.length (groupByValue ToString xAxisField data)
   <= List.length data)%nat /\
  total (map Group.count (groupByValue ToString xAxisField data))
  == Q_of_nat (List.length data).
Proof.
  intros Hdata. unfold groupByValue.
  set (step := fun valueGroups item => upsert _ _ _ valueGroups).
  set (ok := fun v : Q * option Value =>
               1 <= fst v /\
               exists table, snd v = Some (VStr table) /\
                             In (beforeSeparator table) tables).
  assert (Hfold : forall groups,
             Forall (fun e => ok (snd e)) groups ->
             Forall (fun e => ok (snd e)) (fold_left step data groups) /\
             (List.length (fold_left step data groups)
              <= List.length groups + List.length data)%nat /\
             total (map (fun e => fst (snd e)) (fold_left step data groups))
             == total (map (fun e => fst (snd e)) groups) +
                Q_of_nat (List.length data)).
  { induction Hdata as [|item data Hitem _ IH]; intros groups Hg.
    - simpl. split; [exact Hg|]. split; [lia|]. unfold Q_of_nat. simpl.
      ring.
    - destruct (tagged_plain item Hitem) as (table & Ht & Hin & Hplain).
      assert (Hstep : Forall (fun e => ok (snd e)) (step groups item)).
      { unfold step. apply upsert_Forall; [| |exact Hg].
        - intros v [Hc Htab]. split; [cbn [fst]; lra | exact Htab].
        - split; [cbn [fst]; lra|]. exists table. cbn [snd].
          split; [exact Ht|]. now rewrite Hplain. }
      destruct (IH _ Hstep) as (H1 & H2 & H3).
      cbn [fold_left]. split; [exact H1|]. split.
      + assert (Hlen : (List.length (step groups item)
                         <= S (List.length groups))%nat)
          by (unfold step; apply upsert_length).
        cbn [List.length]. lia.
      + assert (Hsum :
          total (map (fun e => fst (snd e)) (step groups item))
          == total (map (fun e => fst (snd e)) groups) + 1).
        { unfold step.
          apply (upsert_total (fun v : Q * option Value => fst v));
            [intros v; reflexivity | cbn [fst]; ring]. }
        rewrite H3, Hsum. cbn [List.length]. rewrite Q_of_nat_S. ring. }
  destruct (Hfold [] (Forall_nil _)) as (H1 & H2 & H3).
  split; [|split].
  - apply Forall_map. eapply Forall_impl; [|exact H1].
    intros e [Hc Htab]. split; assumption.
  - rewrite length_map. simpl in H2. exact H2.
  - rewrite map_map. cbn [Group.count]. rewrite H3. simpl. ring.
Qed.

Lemma setAdd_head v t rest :
  exists rest', setAdd v (t :: rest) = t :: rest'.
Proof.
  unfold setAdd. destruct (existsb _ (t :: rest)); eauto.
  exists (rest ++ [v]). reflexivity.
Qed.

(** Grouping by date gives groups that count at least one record each
    and name a table first. *)
Lemma groupByDate_groups xAxisField data :
  Forall (taggedWith tables) data ->
  Forall (drawableGroup tables)
    (groupByDate ToString dateKey dateTime xAxisField data) /\
  (List.length (groupByDate ToString dateKey dateTime xAxisField data)
   <= List.length data)%nat.
Proof.
  intros Hdata. unfold groupByDate.
  set (step := fun dateGroups item =>
                 if groupableDate (getField xAxisField item)
                 then upsert _ _ _ dateGroups else dateGroups).
  set (ok := fun v : Q * list (option Value) =>
               1 <= fst v /\
               exists table rest,
                 snd v = Some (VStr table) :: rest /\
                 In table tables /\ plainName table).
  assert (Hfold : forall groups,
             Forall (fun e => ok (snd e)) groups ->
             Forall (fun e => ok (snd e)) (fold_left step data groups) /\
             (List.length (fold_left step data groups)
              <= List.length groups + List.length data)%nat).
  { induction Hdata as [|item data Hitem _ IH]; intros groups Hg.
    - simpl. split; [exact Hg | lia].
    - destruct (tagged_plain item Hitem) as (table & Ht & Hin & Hplain).
      assert (Hstep : Forall (fun e => ok (snd e)) (step groups item) /\
                      (List.length (step groups item)
                       <= S (List.length groups))%nat).
      { unfold step.
        destruct (groupableDate (getField xAxisField item));
          [|split; [exact Hg | lia]].
        split; [|apply upsert_length].
        apply upsert_Forall; [| |exact Hg].
        - intros v (Hc & t & rest & Hv & Hint & Hp).
          split; [cbn [fst]; lra|]. cbn [snd]. rewrite Hv.
          destruct (setAdd_head (getField "_table" item) (Some (VStr t))
                      rest) as [rest' ->].
          now exists t, rest'.
        - split; [cbn [fst]; lra|]. exists table, []. cbn [snd]. rewrite Ht.
          now split. }
      destruct Hstep as [Hs1 Hs2].
      destruct (IH _ Hs1) as (H1 & H2).
      cbn [fold_left]. split; [exact H1|]. cbn [List.length]. lia. }
  destruct (Hfold [] (Forall_nil _)) as (H1 & H2).
  split.
  - apply Array_sort_Forall, Forall_map.
    eapply Forall_impl; [|exact H1].
    intros e (Hc & table & rest & Hv & Hin & Hplain).
    split; [exact Hc|]. cbn [Group.table]. rewrite Hv.
    eexists. split; [reflexivity|]. cbn [map joined print].
    destruct (map (joined ToString) rest) as [|r rs] eqn:Er.
    + cbn [Array_join]. now rewrite Hplain.
    + cbn [Array_join]. now rewrite beforeSeparator_append.
  - rewrite Array_sort_length, length_map. simpl in H2. exact H2.
Qed.

End GenericLayout.

(** On records tagged with the tables of the chart (whose names hold no
    ", "), as every dataset of the generic fetch and every demo dataset
    is, the generic layout does not throw: it draws one bar per group, in
    one of the four colour sets, standing on the base line at 70% of the
    canvas height and at most 40% of it tall.  Up to 30 groups all bars
    lie between 10% and 98% of the canvas width; every bar after the 31st
    lies entirely right of the canvas.  When the groups are formed by
    value, every record is counted in exactly one bar. *)
Theorem generic_layout_draws_every_group :
  forall ToString dateKey dateTime width height chartData,
    0 < width -> 0 < height ->
    ChartData.data chartData <> [] ->
    Forall plainName (ChartData.tables chartData) ->
    Forall (taggedWith (ChartData.tables chartData))
      (ChartData.data chartData) ->
    exists bars,
      renderGenericChart ToString dateKey dateTime width height chartData
      = Returned bars /\
      (List.length bars <= List.length (ChartData.data chartData))%nat /\
      Forall (fun b =>
                (TableBar.colorSet b < 4)%nat /\
                1 <= Bar.value (TableBar.bar b) /\
                0 < Bar.height (TableBar.bar b) /\
                Bar.height (TableBar.bar b) <= 0.4 * height /\
                Bar.y (TableBar.bar b) + Bar.height (TableBar.bar b)
                == 0.7 * height /\
                0.1 * width <= Bar.x (TableBar.bar b))
        bars /\
      ((List.length bars <= 30)%nat ->
       Forall (fun b =>
                 Bar.x (TableBar.bar b) + Bar.width (TableBar.bar b)
                 <= 0.98 * width)
         bars) /\
      (forall i b,
          nth_error bars i = Some b -> (30 < i)%nat ->
          width < Bar.x (TableBar.bar b)) /\
      (snd (chooseXAxis (hd [] (ChartData.data chartData))) <> XDate ->
       total (map (fun b => Bar.value (TableBar.bar b)) bars)
       == Q_of_nat (List.length (ChartData.data chartData))).
Proof.
  intros ToString dateKey dateTime width height chartData HW HH Hne
         Hplain Htagged.
  set (tables := ChartData.tables chartData) in *.
  set (data := ChartData.data chartData) in *.
  unfold renderGenericChart. fold data tables.
  destruct data as [|first rest] eqn:Edata; [contradiction|].
  rewrite <- Edata in *. cbn [hd].
  assert (Hfirst : hd [] data = first) by now rewrite Edata.
  rewrite Hfirst.
  set (xAxisField := fst (chooseXAxis first)).
  set (groupedData :=
         match snd (chooseXAxis first) with
         | XDate => groupByDate ToString dateKey dateTime xAxisField data
         | _ => groupByValue ToString xAxisField data
         end).
  assert (Hgroups :
    Forall (drawableGroup tables) groupedData /\
    (List.length groupedData <= List.length data)%nat /\
    (snd (chooseXAxis first) <> XDate ->
     total (map Group.count groupedData) == Q_of_nat (List.length data))).
  { unfold groupedData.
    destruct (groupByValue_groups ToString tables Hplain xAxisField data
                Htagged) as (V1 & V2 & V3).
    destruct (groupByDate_groups ToString dateKey dateTime tables Hplain
                xAxisField data Htagged) as (D1 & D2).
    destruct (snd (chooseXAxis first)); (split; [|split]);
      try assumption; try (intros _; assumption).
    intros H. now contradiction H. }
  destruct Hgroups as (Hdraw & Hlen & Htotal).
  set (maxItems := Nat.min (List.length groupedData) 30).
  set (barWidth := (width * 0.8) / Q_of_nat maxItems).
  set (maxValue := Math_max_list (map Group.count groupedData)).
  set (color := fun group =>
                  match colorSetOf tables group with
                  | Returned c => c
                  | Thrown => 0%nat
                  end).
  set (draw := fun group i =>
         TableBar.mk
           (Bar.mk
              (width * 0.1 + Q_of_nat i * (barWidth + barWidth * 0.1))
              (height * 0.7 -
               (Group.count group / maxValue) * (height * 0.5) * 0.8)
              (barWidth * 0.8)
              ((Group.count group / maxValue) * (height * 0.5) * 0.8)
              (Group.count group))
           (color group)).
  assert (Hin : forall i group,
             nth_error groupedData i = Some group ->
             drawableGroup tables group /\
             (i < List.length groupedData)%nat).
  { intros i group Hi. split.
    - rewrite Forall_forall in Hdraw. eapply Hdraw, nth_error_In, Hi.
    - apply nth_error_Some. congruence. }
  exists (mapFrom draw 0 groupedData).
  split.
  { unfold Array_mapi. apply collect_mapFrom. intros group i Hi.
    destruct (Hin i group Hi) as [Hg _].
    destruct (colorSetOf_drawable tables group Hg) as (c & Hc & _).
    unfold draw, color. rewrite Hc. reflexivity. }
  split; [now rewrite mapFrom_length|].
  assert (Hbw : 0 <= barWidth).
  { unfold barWidth.
    destruct maxItems as [|m].
    - unfold Q_of_nat. simpl. unfold Qdiv. simpl. rewrite Qmult_0_r. lra.
    - apply Qle_shift_div_l; [apply Q_of_nat_pos; lia | lra]. }
  assert (Hmax : forall group,
             In group groupedData ->
             Group.count group <= maxValue /\ 1 <= maxValue).
  { intros group Hg.
    destruct (Math_max_list_spec (map Group.count groupedData))
      as [Hall Hmem].
    - destruct groupedData; [contradiction | discriminate].
    - fold maxValue in Hall, Hmem. rewrite Forall_map in Hall.
      rewrite Forall_forall in Hall. split; [now apply Hall|].
      apply in_map_iff in Hmem as (g' & <- & Hg').
      rewrite Forall_forall in Hdraw. now apply Hdraw. }
  split; [|split; [|split]].
  - apply mapFrom_Forall. intros group i Hi. cbn [Nat.add].
    destruct (Hin i group Hi) as [Hg Hlt].
    pose proof (nth_error_In _ _ Hi) as Hmem.
    destruct (Hmax group Hmem) as [Hle Hone].
    destruct (colorSetOf_drawable tables group Hg) as (c & Hc & Hc4).
    destruct Hg as [Hcount _].
    unfold draw.
    cbn [TableBar.colorSet TableBar.bar Bar.x Bar.y Bar.width Bar.height
         Bar.value].
    split; [unfold color; now rewrite Hc|]. split; [exact Hcount|].
    assert (Hch : 0 <= height * 0.5) by lra.
    assert (Hmpos : 0 < maxValue) by lra.
    destruct (bar_height_within (Group.count group) maxValue (height * 0.5))
      as [_ Hup]; try assumption; try lra.
    assert (Hratio : 0 < Group.count group / maxValue)
      by (apply Qlt_shift_div_l; [exact Hmpos | lra]).
    assert (Hprod : 0 < (Group.count group / maxValue) * (height * 0.5)).
    { apply Qmult_lt_0_compat; [exact Hratio | lra]. }
    split; [lra|]. split; [lra|]. split; [ring|].
    assert (Hi0 : 0 <= Q_of_nat i) by (apply (Q_of_nat_le 0); lia).
    assert (0 <= Q_of_nat i * (barWidth + barWidth * 0.1))
      by (apply Qmult_le_0_compat; lra).
    lra.
  - intros Hfew. rewrite mapFrom_length in Hfew.
    apply mapFrom_Forall. intros group i Hi. cbn [Nat.add].
    destruct (Hin i group Hi) as [_ Hlt].
    assert (Hm : maxItems = List.length groupedData)
      by (unfold maxItems; lia).
    assert (Hspan : 0 <= width * 0.8) by lra.
    assert (Hlt' : (i < maxItems)%nat) by lia.
    destruct (bar_within (width * 0.8) (width * 0.1) maxItems i Hspan Hlt')
      as (_ & _ & Hx).
    cbv zeta in Hx. fold barWidth in Hx.
    unfold draw. cbn [TableBar.bar Bar.x Bar.width]. lra.
  - intros i b Hb Hi. rewrite mapFrom_nth in Hb. cbn [Nat.add] in Hb.
    destruct (nth_error groupedData i) as [group|] eqn:Eg; [|discriminate].
    injection Hb as <-.
    destruct (Hin i group Eg) as [_ Hlt].
    assert (Hm : maxItems = 30%nat) by (unfold maxItems; lia).
    unfold draw. cbn [TableBar.bar Bar.x].
    assert (Hbw30 : barWidth * 30 == width * 0.8).
    { unfold barWidth. rewrite Hm. unfold Q_of_nat. simpl. field. }
    assert (H31 : 31 <= Q_of_nat i).
    { unfold Q_of_nat. rewrite <- (Zle_Qle 31). lia. }
    assert (Hprod : 31 * (barWidth + barWidth * 0.1)
                    <= Q_of_nat i * (barWidth + barWidth * 0.1)).
    { apply Qmult_le_compat_r; [exact H31 | lra]. }
    lra.
  - intros Hvalue. specialize (Htotal Hvalue).
    rewrite (mapFrom_map draw (fun b => Bar.value (TableBar.bar b))
               Group.count) by reflexivity.
    exact Htotal.
Qed.

Lemma generic_layout_draws_every_group_witness :
  exists bars,
    renderGenericChart sampleString noDateKey noDateTime 1280 720
      sampleGenericChart
    = Returned bars /\
    (List.length bars <= 6)%nat /\
    total (map (fun b => Bar.value (TableBar.bar b)) bars) == 6.
Proof.
  destruct (generic_layout_draws_every_group sampleString noDateKey
              noDateTime 1280 720 sampleGenericChart)
    as (bars & Hbars & Hlen & _ & _ & _ & Htotal).
  - reflexivity.
  - reflexivity.
  - discriminate.
  - repeat constructor.
  - repeat constructor; eexists; (split; [reflexivity | simpl; tauto]).
  - exists bars. split; [exact Hbars|]. split; [exact Hlen|].
    apply Htotal. discriminate.
Defined.

Example generic_layout_sample :
  match renderGenericChart sampleString noDateKey noDateTime 1280 720
          sampleGenericChart with
  | Returned bars =>
      map (fun b => (Qred (Bar.x (TableBar.bar b)),
                     Qred (Bar.height (TableBar.bar b)),
                     TableBar.colorSet b))
        bars
  | Thrown => []
  end
  = [ (128, 288, 0%nat); (4736 # 15, 288, 0%nat); (7552 # 15, 288, 0%nat);
      (3456 # 5, 288, 0%nat); (13184 # 15, 288, 1%nat);
      (3200 # 3, 288, 1%nat) ].
Proof. vm_compute. reflexivity. Qed.

(** A record without a table tag makes the generic layout throw. *)
Example generic_layout_untagged_record_throws :
  renderGenericChart sampleString noDateKey noDateTime 1280 720
    (ChartData.plain ["users"]%string [[("id"%string, VNum 1)]])
  = Thrown /\
  renderGenericChart sampleString noDateKey noDateTime 1280 720
    (ChartData.plain ["users"]%string
       [[("id"%string, VNum 1); ("_table"%string, VStr "posts")]])
  = Thrown.
Proof. split; reflexivity. Qed.

(* ================================================================== *)
(** ** The relationship layout *)

Lemma find_existsb {A} (p : A -> bool) l :
  existsb p l = match find p l with Some _ => true | None => false end.
Proof.
  induction l as [|a l IH]; simpl; [reflexivity|].
  now destruct (p a).
Qed.

Lemma sumField_perm key l l' :
  Permutation l l' -> sumField key l == sumField key l'.
Proof.
  induction 1 as [|x l l' _ IH|x y l|l l' l'' _ IH1 _ IH2]; simpl.
  - reflexivity.
  - destruct (numField key x); rewrite IH; reflexivity.
  - destruct (numField key x), (numField key y); ring.
  - now rewrite IH1.
Qed.

Lemma total_numberField key l :
  total (map (numberField key) l) == sumField key l.
Proof.
  induction l as [|x l IH]; simpl; [reflexivity|].
  unfold numberField at 1. destruct (numField key x); rewrite IH; ring.
Qed.

(** Counting one more record under a key. *)
Lemma tally key init m :
  sameValue key key = true ->
  numField "count" init = Some 0 ->
  Forall (fun e => exists q, numField "count" (snd e) = Some q /\ 1 <= q)
    m ->
  let m' :=
    mapAdjust key (increment "count")
      (if negb (mapHas key m) then mapSet key init m else m) in
  Forall (fun e => exists q, numField "count" (snd e) = Some q /\ 1 <= q)
    m' /\
  sumField "count" (mapValues m') == sumField "count" (mapValues m) + 1.
Proof.
  intros Hkey Hinit Hm. cbv zeta.
  destruct (mapHas key m) eqn:Hhas; cbn [negb].
  - clear Hinit. revert Hhas Hm. unfold mapHas, mapValues.
    induction m as [|[k g] m IH]; simpl; intros Hhas Hall; [discriminate|].
    inversion Hall as [|? ? Hg Hrest]; subst. simpl in Hg.
    destruct (sameValue k key) eqn:E; simpl.
    + destruct Hg as (q & Hq & Hone).
      pose proof (numField_increment "count" g q Hq) as Hn.
      split.
      * constructor; [|assumption]. exists (q + 1). split; [exact Hn | lra].
      * rewrite Hn, Hq. ring.
    + simpl in Hhas. destruct (IH Hhas Hrest) as [IH1 IH2].
      split; [constructor; assumption|].
      destruct (numField "count" g); rewrite IH2; ring.
  - rewrite (mapSet_fresh _ _ _ Hhas).
    rewrite (mapAdjust_fresh _ _ _ _ Hhas Hkey).
    pose proof (numField_increment "count" init 0 Hinit) as Hn.
    split.
    + apply Forall_app. split; [exact Hm|]. constructor; [|constructor].
      exists (0 + 1). split; [exact Hn | lra].
    + unfold mapValues. rewrite map_app, sumField_app. cbn [map snd].
      rewrite (sumField_single _ _ _ Hn). ring.
Qed.

Section RelationshipLayout.

Variable ToString : option Value -> string.

Lemma countRelationship_fold relationship field items : forall counts,
  Forall (fun e => exists q, numField "count" (snd e) = Some q /\ 1 <= q)
    counts ->
  let counts' :=
    fold_left (countRelationship ToString relationship field) items counts
  in
  Forall (fun e => exists q, numField "count" (snd e) = Some q /\ 1 <= q)
    counts' /\
  sumField "count" (mapValues counts')
  == sumField "count" (mapValues counts) +
     Q_of_nat (List.length (filter (references relationship) items)).
Proof.
  induction items as [|item items IH]; intros counts Hc; cbv zeta.
  - simpl. split; [exact Hc|]. unfold Q_of_nat. simpl. ring.
  - cbn [fold_left filter].
    assert (Hstep :
      Forall (fun e => exists q, numField "count" (snd e) = Some q /\ 1 <= q)
        (countRelationship ToString relationship field counts item) /\
      sumField "count"
        (mapValues (countRelationship ToString relationship field counts
                      item))
      == sumField "count" (mapValues counts) +
         (if references relationship item then 1 else 0)).
    { unfold countRelationship, references. rewrite find_existsb.
      destruct (find _ (Detected.referencedData relationship))
        as [referencedItem|].
      - apply tally; [apply String.eqb_refl | reflexivity | exact Hc].
      - split; [exact Hc | ring]. }
    destruct Hstep as [S1 S2].
    destruct (IH _ S1) as [H1 H2]. cbv zeta in H1, H2.
    split; [exact H1|]. rewrite H2, S2.
    destruct (references relationship item).
    + cbn [List.length]. rewrite Q_of_nat_S. ring.
    + ring.
Qed.


End RelationshipLayout.


(* ================================================================== *)
(** ** From the fetch to the chart *)

Lemma events_layout_draws width height chartData :
  ChartData.data chartData <> [] ->
  Forall countedEvent (ChartData.data chartData) ->
  exists bars,
    renderEventsRegistrationsChart width height chartData
    = Some (Bars bars).
Proof.
  intros Hne Hall. unfold renderEventsRegistrationsChart.
  rewrite filter_all.
  - assert (Htyped : numbersAt "registration_count"
                       (ChartData.data chartData) = true).
    { unfold numbersAt. apply forallb_forall. intros e He.
      rewrite Forall_forall in Hall.
      destruct (countedEvent_number e (Hall e He)) as (_ & -> & _).
      reflexivity. }
    rewrite Htyped. cbn [negb].
    destruct (ChartData.data chartData); [contradiction|].
    cbn [List.length Nat.eqb]. eauto.
  - eapply Forall_impl; [|exact Hall].
    intros e He. now apply countedEvent_number.
Qed.

Lemma fetchEvents_counted w d :
  randomInUnitInterval w ->
  fetchEventsRegistrationsData w = Returned d ->
  exists data, d = eventsChart data /\ Forall countedEvent data.
Proof.
  intros Hrandom.
  destruct (fetchSeparate_counted w Hrandom) as (sep & Hsep & Hcounted).
  unfold fetchEventsRegistrationsData, awaitImport, awaitSelect.
  rewrite Hsep.
  destruct (importSupabase w AtEventsJoin); cbn [bind try_catch];
    [|intros [= <-]; eauto].
  destruct (select w "events"
              "id,title,name,registrations:registrations(count)")
    as [|events err]; cbn [bind try_catch fst snd];
    [intros [= <-]; eauto|].
  destruct err; cbn [try_catch]; intros [= <-]; [eauto|].
  eexists. split; [reflexivity|].
  apply Forall_map, Forall_forall. intros event _. split.
  - unfold fromTable. now rewrite getField_setField_same.
  - exists (lengthOr0 (getField "registrations" event)). split.
    + unfold numField. rewrite getField_setField_other by reflexivity.
      now rewrite getField_setField_same.
    + apply lengthOr0_nonneg.
Qed.

Section JoinData.

Variable ToNumber : option Value -> option Q.
Variable ToString : option Value -> string.
Variable relationships : list Rel.t.
Variable w : World.

Lemma countReference_numeric table fk rows : forall counts,
  Forall (fun e => exists q, numField "count" (snd e) = Some q) counts ->
  Forall (fun e => exists q, numField "count" (snd e) = Some q)
    (fold_left (countReference ToNumber ToString table fk) rows counts).
Proof.
  induction rows as [|row rows IH]; intros counts Hc; simpl; [exact Hc|].
  apply IH. unfold countReference.
  destruct (truthyValue (getField fk row)); [|exact Hc].
  apply mapAdjust_Forall.
  - intros k v (q & Hq). cbn [snd] in *. exists (q + 1).
    now apply numField_increment.
  - destruct (negb (mapHas _ counts)); [|exact Hc].
    apply Forall_mapSet; [|exact Hc]. intros k. now exists 0.
Qed.

(** The rows of a schema join hold a number at the y-axis field. *)
Lemma createJoinQuery_numbers tableNames j :
  createJoinQuery ToNumber ToString relationships w tableNames
  = Returned (Some j) ->
  String.eqb (JoinResult.type j) EmptyString = false /\
  String.eqb (JoinResult.yAxisField j) EmptyString = false /\
  Forall (fun row => exists q, numField (JoinResult.yAxisField j) row = Some q)
    (JoinResult.data j).
Proof.
  intros Hj. unfold createJoinQuery in Hj.
  destruct tableNames as [|a [|b [|c r]]]; try discriminate.
  destruct (findSchemaRelationship relationships a b) as [rel|];
    [|discriminate].
  unfold awaitImport in Hj.
  destruct (importSupabase w AtJoinQuery); cbn [bind try_catch] in Hj;
    [|discriminate].
  join_cases Hj.
  all: injection Hj as <-;
    cbn [JoinResult.type JoinResult.yAxisField JoinResult.data].
  all: split; [reflexivity|]; split; [reflexivity|].
  all: try (apply Forall_map, Forall_forall; intros row _; exists 0;
            now apply joinRow_shape).
  all: unfold mapValues; apply Forall_map;
    apply countReference_numeric; constructor.
Qed.

End JoinData.

Lemma join_layout_draws dateKey dateTime width height chartData y :
  ChartData.yAxisField chartData = Some y ->
  String.eqb y EmptyString = false ->
  ChartData.data chartData <> [] ->
  Forall (fun row => exists q, numField y row = Some q)
    (ChartData.data chartData) ->
  exists bars,
    renderJoinQueryChart dateKey dateTime width height chartData
    = Some (Bars bars).
Proof.
  intros Hy Hne Hdata Hnum. unfold renderJoinQueryChart.
  rewrite Hy. cbn [orDefault]. unfold isEmptyString. rewrite Hne.
  assert (Htyped : numbersOrNothingAt y (ChartData.data chartData) = true).
  { unfold numbersOrNothingAt. apply forallb_forall. intros row Hrow.
    rewrite Forall_forall in Hnum. destruct (Hnum row Hrow) as [q Hq].
    unfold numField in Hq.
    now destruct (getField y row) as [[p|s|b| |n]|]. }
  rewrite Htyped. cbn [negb].
  destruct (ChartData.data chartData); [contradiction|].
  cbn [List.length Nat.eqb]. eauto.
Qed.

Lemma generic_layout_returns ToString dateKey dateTime width height
    chartData :
  Forall plainName (ChartData.tables chartData) ->
  Forall (taggedWith (ChartData.tables chartData))
    (ChartData.data chartData) ->
  exists bars,
    renderGenericChart ToString dateKey dateTime width height chartData
    = Returned bars.
Proof.
  intros Hplain Htagged. unfold renderGenericChart.
  destruct (ChartData.data chartData) as [|first rest] eqn:Edata; [eauto|].
  rewrite <- Edata in *.
  set (tables := ChartData.tables chartData) in *.
  set (data := ChartData.data chartData) in *.
  match goal with
  | |- context [Array_mapi ?f ?groups] =>
      set (draw := f); set (groupedData := groups)
  end.
  assert (Hdraw : Forall (drawableGroup tables) groupedData).
  { unfold groupedData.
    destruct (snd (chooseXAxis first));
      first [now apply groupByDate_groups | now apply groupByValue_groups]. }
  set (color := fun group =>
                  match colorSetOf tables group with
                  | Returned c => c
                  | Thrown => 0%nat
                  end).
  eexists. unfold Array_mapi.
  apply (collect_mapFrom draw
           (fun group i =>
              match draw group i with
              | Returned b => b
              | Thrown => TableBar.mk (Bar.mk 0 0 0 0 0) 0
              end)).
  intros group i Hi. cbn [Nat.add].
  rewrite Forall_forall in Hdraw.
  destruct (colorSetOf_drawable tables group
              (Hdraw group (nth_error_In _ _ Hi))) as (c & Hc & _).
  unfold draw. rewrite Hc. reflexivity.
Qed.

Lemma keptRows_taggedWith w tableNames :
  Forall (taggedWith tableNames) (flat_map (keptRows w) tableNames).
Proof.
  apply Forall_forall. intros row Hrow.
  apply in_flat_map in Hrow as (table & Hin & Hrow).
  pose proof (keptRows_tagged w table) as Htag.
  rewrite Forall_forall in Htag. exists table. split; [|exact Hin].
  now apply Htag.
Qed.

Lemma demoRecord_taggedWith w tableNames table tableIndex i k :
  getField "_table" (fst (demoRecord w tableNames table tableIndex i k))
  = Some (VStr table).
Proof.
  unfold demoRecord. cbv zeta.
  destruct ((List.length tableNames =? 2)%nat && (tableIndex =? 1)%nat);
    cbn [fst]; [|reflexivity].
  now rewrite getField_setField_other by apply foreignKeyField_not_tag.
Qed.

Lemma demoData_taggedWith w tableNames :
  Forall (taggedWith tableNames) (demoData w tableNames).
Proof.
  unfold demoData.
  assert (H : forall tables tableIndex k,
             incl tables tableNames ->
             Forall (taggedWith tableNames)
               (demoDataFrom w tableNames tables tableIndex k)).
  { induction tables as [|t ts IH]; intros tableIndex k Hincl;
      [constructor|].
    cbn [demoDataFrom]. apply Forall_app. split.
    - apply demoRecordsFrom_Forall. intros i k'. exists t.
      split; [apply demoRecord_taggedWith | apply Hincl; now left].
    - apply IH. intros x Hx. apply Hincl. now right. }
  apply H, incl_refl.
Qed.

(** What the chart shows once a fetch has delivered its dataset (with
    [Math.random] in [0, 1) and table names without ", "): "NO DATA
    AVAILABLE" exactly when the dataset is empty; the events layout with
    bars for the events pair; the join layout with bars when a schema join
    was produced; otherwise the relationship layout (two tables) or the
    generic layout, which does not throw.  The messages "NO EVENTS WITH
    REGISTRATIONS FOUND" and "NO DATA FOUND IN JOIN QUERY" are never
    shown. *)
Theorem layout_after_fetch :
  forall ToNumber ToString relationships w dateKey dateTime width height
         tableNames d,
    randomInUnitInterval w ->
    Forall plainName tableNames ->
    fetchTableData ToNumber ToString relationships w tableNames
    = Returned d ->
    match chartContent ToString dateKey dateTime width height false d with
    | LoadingLayout => False
    | NoDataLayout => ChartData.data d = []
    | EventsLayout drawing =>
        isEventsPair tableNames = true /\
        exists bars, drawing = Some (Bars bars)
    | JoinLayout drawing =>
        isEventsPair tableNames = false /\
        (exists j,
            createJoinQuery ToNumber ToString relationships w tableNames
            = Returned (Some j)) /\
        exists bars, drawing = Some (Bars bars)
    | RelationshipLayout _ =>
        isEventsPair tableNames = false /\
        List.length tableNames = 2%nat /\
        ChartData.joinType d = None
    | GenericLayout bars =>
        isEventsPair tableNames = false /\
        ChartData.joinType d = None /\
        exists drawn, bars = Returned drawn
    end.
Proof.
  intros ToNumber ToString relationships w dateKey dateTime width height
         tableNames d Hrandom Hplain Hfetch.
  destruct (fetchTableData_cases _ _ _ _ _ _ Hfetch)
    as [(Hpair & data & ->) | [(Hpair & j & Hj & ->) |
                                (Hpair & data & -> & Hdata)]].
  - assert (Hcounted : Forall countedEvent data).
    { unfold fetchTableData, isEventsPair in *. rewrite Hpair in Hfetch.
      destruct (fetchEvents_counted w _ Hrandom Hfetch)
        as (data' & Hd & Hc).
      injection Hd as ->. exact Hc. }
    unfold chartContent. cbn [ChartData.data eventsChart
                               ChartData.isEventsRegistrations].
    destruct data as [|e es] eqn:Edata; [reflexivity|].
    cbn [List.length Nat.ltb Nat.leb].
    split; [exact Hpair|].
    apply events_layout_draws; [discriminate | exact Hcounted].
  - destruct (createJoinQuery_numbers _ _ _ _ _ _ Hj)
      as (Htype & Hy & Hnum).
    unfold chartContent.
    cbn [ChartData.data ChartData.isEventsRegistrations ChartData.joinType].
    destruct (JoinResult.data j) as [|row rows] eqn:Edata; [reflexivity|].
    cbn [List.length Nat.ltb Nat.leb truthy]. rewrite Htype. cbn [negb].
    split; [exact Hpair|]. split; [now exists j|].
    apply (join_layout_draws dateKey dateTime width height _
             (JoinResult.yAxisField j)); try assumption;
      [reflexivity | discriminate].
  - assert (Htagged : Forall (taggedWith tableNames) data).
    { destruct Hdata as [-> | ->];
        [apply keptRows_taggedWith | apply demoData_taggedWith]. }
    assert (Hgeneric :
      exists drawn,
        renderGenericChart ToString dateKey dateTime width height
          (ChartData.plain tableNames data) = Returned drawn)
      by now apply generic_layout_returns.
    unfold chartContent.
    cbn [ChartData.plain ChartData.data ChartData.isEventsRegistrations
         ChartData.joinType ChartData.tables truthy].
    destruct data as [|row rows] eqn:Edata; [reflexivity|].
    cbn [List.length Nat.ltb Nat.leb].
    fold (ChartData.plain tableNames (row :: rows)).
    destruct (detectTableRelationships tableNames (row :: rows))
      as [relationship|].
    + destruct (List.length tableNames =? 2)%nat eqn:E2.
      * apply Nat.eqb_eq in E2. now repeat split.
      * now repeat split.
    + now repeat split.
Qed.

Lemma layout_after_fetch_witness :
  match chartContent sampleString noDateKey noDateTime 1280 720 false
          sampleGenericChart with
  | GenericLayout bars => exists drawn, bars = Returned drawn
  | _ => False
  end.
Proof.
  assert (Hrandom : randomInUnitInterval eventsWorld)
    by (intros n; split; [discriminate | reflexivity]).
  assert (Hplain : Forall plainName
                     ["registrations"; "events"; "users"]%string)
    by (repeat constructor).
  pose proof (layout_after_fetch noNumber sampleString [] eventsWorld
                noDateKey noDateTime 1280 720
                ["registrations"; "events"; "users"]%string
                sampleGenericChart Hrandom Hplain eq_refl) as H.
  destruct (chartContent sampleString noDateKey noDateTime 1280 720 false
              sampleGenericChart) eqn:E;
    try (vm_compute in E; discriminate E).
  now destruct H as (_ & _ & Hdrawn).
Defined.

(* ================================================================== *)
(** ** The chart view is modal *)



(* ================================================================== *)
(** ** The demo dataset of two tables on the chart *)

Lemma prefix_append (x y : string) : String.prefix x (x ++ y) = true.
Proof.
  induction x as [|c x IH]; simpl; [apply prefix_empty|].
  destruct (Ascii.ascii_dec c c); [exact IH | contradiction].
Qed.

Lemma includes_prefix (x y : string) : includes (x ++ y) x = true.
Proof.
  destruct x as [|c x]; simpl.
  - destruct y; reflexivity.
  - destruct (Ascii.ascii_dec c c); [|contradiction].
    now rewrite prefix_append.
Qed.

Lemma toLowerCase_append (x y : string) :
  toLowerCase (x ++ y) = (toLowerCase x ++ toLowerCase y)%string.
Proof. induction x as [|c x IH]; simpl; [reflexivity | now rewrite IH]. Qed.

Lemma Object_keys_setField_fresh key v item :
  Forall (fun k => String.eqb k key = false) (Object_keys item) ->
  Object_keys (setField key v item) = Object_keys item ++ [key].
Proof.
  unfold Object_keys. induction item as [|[k x] item IH]; simpl;
    intros H; [reflexivity|].
  inversion H as [|? ? Hk Hrest]; subst. rewrite Hk. simpl.
  now rewrite IH.
Qed.

(** What [demoName] gives for the columns of the demo rows. *)
Lemma demoName_columns table :
  demoName table = true ->
  startsWith (table ++ "_id") "_" = false /\
  table <> EmptyString /\
  Forall (fun col => refersTo table col = false)
    ["id"; "value"; "name"; "title"]%string /\
  refersTo table (table ++ "_id") = true /\
  Forall (fun col => String.eqb col (table ++ "_id") = false) baseKeys.
Proof.
  unfold demoName. intros H. apply andb_prop in H as [Hstart Hcols].
  apply negb_true_iff in Hstart.
  rewrite forallb_forall in Hcols.
  assert (Hne : table <> EmptyString).
  { intros ->. specialize (Hcols "id"%string (or_introl eq_refl)).
    discriminate. }
  assert (Hcol : forall col,
             In col ["id"; "value"; "name"; "title"]%string ->
             includes col (toLowerCase table) = false /\
             toLowerCase col = col).
  { intros col Hin. split.
    - apply negb_true_iff. now apply Hcols.
    - simpl in Hin.
      destruct Hin as [<-|[<-|[<-|[<-|[]]]]]; reflexivity. }
  assert (Hsuffix : forall col suffix,
             In col ["id"; "value"; "name"; "title"]%string ->
             String.eqb col (toLowerCase table ++ suffix) = false).
  { intros col suffix Hin. destruct (Hcol col Hin) as [Hinc _].
    destruct (String.eqb col (toLowerCase table ++ suffix)) eqn:E;
      [|reflexivity].
    apply String.eqb_eq in E. rewrite E, includes_prefix in Hinc.
    discriminate. }
  split; [|split; [exact Hne|split; [|split]]].
  - destruct table as [|c t]; [contradiction|].
    unfold startsWith in *. cbn [append String.prefix] in Hstart |- *.
    destruct (Ascii.ascii_dec "_" c); [|reflexivity].
    now rewrite prefix_empty in Hstart.
  - apply Forall_forall. intros col Hin. unfold refersTo.
    destruct (Hcol col Hin) as [Hinc ->].
    now rewrite Hinc, !Hsuffix.
  - unfold refersTo. rewrite toLowerCase_append.
    now rewrite includes_prefix.
  - unfold baseKeys. apply Forall_forall. intros col Hin.
    destruct (String.eqb col (table ++ "_id")) eqn:E; [|reflexivity].
    apply String.eqb_eq in E. simpl in Hin.
    destruct Hin as [Hc|[Hc|[Hc|[Hc|[Hc|[]]]]]]; subst col.
    5: { symmetry in E. apply String.eqb_eq in E.
         rewrite foreignKeyField_not_tag in E. discriminate. }
    all: apply (f_equal toLowerCase) in E;
      rewrite toLowerCase_append in E; cbn [toLowerCase] in E;
      match type of E with
      | ?col = _ =>
          assert (H : String.eqb col (toLowerCase table ++ "_id") = false)
            by (apply Hsuffix; simpl; tauto);
          apply String.eqb_neq in H; exfalso; apply H; exact E
      end.
Qed.

Section DemoRelationship.

Variable w : World.
Hypothesis random_ok : randomInUnitInterval w.
Variables a b : string.
Hypothesis a_ok : demoName a = true.
Hypothesis b_ok : demoName b = true.
Hypothesis a_b : String.eqb a b = false.

Lemma demoRecord_id tableNames table tableIndex i k :
  getField "id" (fst (demoRecord w tableNames table tableIndex i k))
  = Some (VNum (inject_Z (Z.of_nat (i + 1)))).
Proof.
  unfold demoRecord. cbv zeta.
  destruct ((List.length tableNames =? 2)%nat && (tableIndex =? 1)%nat);
    cbn [fst]; [|reflexivity].
  destruct (String.eqb (nth 0 tableNames EmptyString ++ "_id") "id") eqn:E.
  - apply String.eqb_eq in E. apply (f_equal String.length) in E.
    rewrite string_length_append in E. simpl in E. lia.
  - now rewrite getField_setField_other by exact E.
Qed.

Lemma demoRecordsFrom_ids tableNames table tableIndex n : forall i k,
  map (getField "id")
    (fst (demoRecordsFrom w tableNames table tableIndex i n k))
  = map (fun j => Some (VNum (inject_Z (Z.of_nat (j + 1))))) (seq i n).
Proof.
  induction n as [|n IH]; intros i k; simpl; [reflexivity|].
  now rewrite demoRecord_id, IH.
Qed.

(** The rows of the referenced and of the referencing table. *)
Lemma demoData_rows :
  exists rowA rowsA rowB rowsB,
    demoData w [a; b] = (rowA :: rowsA) ++ (rowB :: rowsB) /\
    List.length (rowB :: rowsB) = 5%nat /\
    Forall (fun row => getField "_table" row = Some (VStr a))
      (rowA :: rowsA) /\
    Forall (fun row => getField "_table" row = Some (VStr b))
      (rowB :: rowsB) /\
    Object_keys rowA = baseKeys /\
    Object_keys rowB = baseKeys ++ [(a ++ "_id")%string] /\
    map (getField "id") (rowA :: rowsA)
    = map (fun j => Some (VNum (inject_Z (Z.of_nat (j + 1))))) (seq 0 5) /\
    Forall (fun row =>
              exists v, getField (a ++ "_id") row = Some (VNum (inject_Z v))
                        /\ (1 <= v <= 5)%Z)
      (rowB :: rowsB).
Proof.
  destruct (demoName_columns a a_ok) as (_ & _ & _ & _ & Hfresh).
  unfold demoData. cbn [demoDataFrom]. rewrite app_nil_r.
  set (rA := demoRecordsFrom w [a; b] a 0 0 5 0).
  set (rB := demoRecordsFrom w [a; b] b 1 0 5 (snd rA)).
  assert (HA : fst rA = fst (demoRecord w [a; b] a 0 0 0) :: tl (fst rA))
    by reflexivity.
  assert (HB : fst rB
               = fst (demoRecord w [a; b] b 1 0 (snd rA)) :: tl (fst rB))
    by reflexivity.
  assert (TA : Forall (fun row => getField "_table" row = Some (VStr a))
                 (fst rA)).
  { apply demoRecordsFrom_Forall. intros i k. apply demoRecord_taggedWith. }
  assert (TB : Forall (fun row => getField "_table" row = Some (VStr b))
                 (fst rB)).
  { apply demoRecordsFrom_Forall. intros i k. apply demoRecord_taggedWith. }
  assert (IA : map (getField "id") (fst rA)
               = map (fun j => Some (VNum (inject_Z (Z.of_nat (j + 1)))))
                   (seq 0 5)) by apply demoRecordsFrom_ids.
  assert (KB : Forall (fun row =>
                  exists v,
                    getField (a ++ "_id") row = Some (VNum (inject_Z v)) /\
                    (1 <= v <= 5)%Z) (fst rB)).
  { apply demoRecordsFrom_Forall. intros i k.
    destruct (demoRecord_keyed w random_ok a b i k) as (_ & v & Hv & Hr).
    exists v. split; [|exact Hr]. unfold numField in Hv.
    destruct (getField (a ++ "_id") _) as [[q|s|x| |n]|]; try discriminate.
    now injection Hv as ->. }
  assert (LB : List.length (fst rB) = 5%nat)
    by apply demoRecordsFrom_length.
  rewrite HA in TA, IA |- *. rewrite HB in TB, KB, LB |- *.
  eexists _, _, _, _. split; [reflexivity|].
  split; [exact LB|]. split; [exact TA|]. split; [exact TB|].
  split; [reflexivity|]. split; [|split; [exact IA | exact KB]].
  unfold demoRecord. cbv zeta. cbn [List.length Nat.eqb andb fst nth].
  now rewrite Object_keys_setField_fresh by exact Hfresh.
Qed.

(** The demo rows of the second table reference those of the first
    through [<first>_id], and the detection finds exactly that. *)
Lemma demoData_detected :
  exists rowsA rowsB,
    detectTableRelationships [a; b] (demoData w [a; b])
    = Some (Detected.mk (a ++ "_id") b a rowsB rowsA) /\
    demoData w [a; b] <> [] /\
    List.length rowsB = 5%nat /\
    map (getField "id") rowsA
    = map (fun j => Some (VNum (inject_Z (Z.of_nat (j + 1))))) (seq 0 5) /\
    Forall (fun row =>
              exists v, getField (a ++ "_id") row = Some (VNum (inject_Z v))
                        /\ (1 <= v <= 5)%Z)
      rowsB.
Proof.
  destruct demoData_rows
    as (rowA & rowsA & rowB & rowsB & Hdata & HlenB & TA & TB & KA & KB &
        IA & FB).
  destruct (demoName_columns a a_ok) as (Hstart & Hna & HcolsA & HfkA & _).
  destruct (demoName_columns b b_ok) as (_ & Hnb & HcolsB & _ & _).
  exists (rowA :: rowsA), (rowB :: rowsB).
  split; [|split; [rewrite Hdata; discriminate|now repeat split]].
  rewrite Hdata. unfold detectTableRelationships.
  assert (Hba : String.eqb b a = false) by now rewrite String.eqb_sym.
  rewrite !filter_app.
  rewrite (filter_fromTable_tagged a a _ TA),
          (filter_fromTable_tagged a b _ TB),
          (filter_fromTable_tagged b a _ TA),
          (filter_fromTable_tagged b b _ TB).
  rewrite !String.eqb_refl, a_b, Hba. rewrite !app_nil_r.
  change ([] ++ rowB :: rowsB) with (rowB :: rowsB).
  cbn [List.length Nat.eqb orb].
  unfold columnsOf. cbn [hd]. rewrite KA, KB.
  assert (Hfilter4 :
    filter (fun key => negb (startsWith key "_")) baseKeys
    = ["id"; "value"; "name"; "title"]%string) by reflexivity.
  assert (Hfilter1 :
    filter (fun key => negb (startsWith key "_")) [(a ++ "_id")%string]
    = [(a ++ "_id")%string]) by (cbn [filter]; now rewrite Hstart).
  rewrite filter_app, Hfilter4, Hfilter1.
  rewrite (filter_none (refersTo b)).
  2: { intros x Hx. rewrite Forall_forall in HcolsB. now apply HcolsB. }
  rewrite filter_app, (filter_none (refersTo a)).
  2: { intros x Hx. rewrite Forall_forall in HcolsA. now apply HcolsA. }
  cbn [filter app]. rewrite HfkA.
  change ([] ++ [(a ++ "_id")%string]) with [(a ++ "_id")%string].
  cbv beta iota.
  rewrite (isEmptyString_false (a ++ "_id")) by now apply append_nonempty.
  rewrite (isEmptyString_false b Hnb), (isEmptyString_false a Hna).
  cbn [orb]. now rewrite !String.eqb_refl, Hba.
Qed.

End DemoRelationship.

Lemma existsb_map {A B} (f : A -> B) (q : B -> bool) l :
  existsb (fun x => q (f x)) l = existsb q (map f l).
Proof. induction l as [|x l IH]; simpl; [reflexivity | now rewrite IH]. Qed.

Lemma countRelationship_length ToString relationship field items :
  forall counts,
    (List.length
       (fold_left (countRelationship ToString relationship field) items
          counts)
     <= List.length counts + List.length items)%nat.
Proof.
  induction items as [|item items IH]; intros counts; simpl; [lia|].
  specialize (IH (countRelationship ToString relationship field counts
                    item)).
  assert (Hstep : (List.length
                     (countRelationship ToString relationship field counts
                        item)
                   <= S (List.length counts))%nat).
  { unfold countRelationship.
    destruct (find _ (Detected.referencedData relationship)); [|lia].
    rewrite length_mapAdjust.
    destruct (negb (mapHas _ counts)); [apply length_mapSet | lia]. }
  lia.
Qed.

(** Without a data client, the demo dataset of two tables (whose names
    give no accidental reference) is drawn by the relationship layout:
    the second table is detected as referencing the first through
    [<first>_id], every one of its five rows references a row of the
    first table, and the one to five bars drawn count these five rows. *)
Theorem offline_demo_of_two_tables_is_a_relationship_chart :
  forall ToNumber ToString relationships w dateKey dateTime width height
         a b,
    randomInUnitInterval w ->
    demoName a = true -> demoName b = true -> String.eqb a b = false ->
    isEventsPair [a; b] = false ->
    createJoinQuery ToNumber ToString relationships w [a; b]
    = Returned None ->
    importSupabase w AtGenericFetch = false ->
    exists d rowsA rowsB bars,
      fetchTableData ToNumber ToString relationships w [a; b] = Returned d /\
      detectTableRelationships (ChartData.tables d) (ChartData.data d)
      = Some (Detected.mk (a ++ "_id") b a rowsB rowsA) /\
      chartContent ToString dateKey dateTime width height false d
      = RelationshipLayout (Bars bars) /\
      total (map Bar.value bars) == 5 /\
      (1 <= List.length bars <= 5)%nat.
Proof.
  intros ToNumber ToString relationships w dateKey dateTime width height
         a b Hrandom Ha Hb Hab Hpair Hjoin Himport.
  destruct (demoData_detected w Hrandom a b Ha Hb Hab)
    as (rowsA & rowsB & Hdetect & Hne & HlenB & Hids & Hfk).
  exists (ChartData.plain [a; b] (demoData w [a; b])), rowsA, rowsB.
  set (relationship := Detected.mk (a ++ "_id") b a rowsB rowsA) in *.
  assert (Hall : filter (references relationship) rowsB = rowsB).
  { apply filter_all. eapply Forall_impl; [|exact Hfk].
    intros row (v & Hv & Hrange). unfold references.
    cbn [relationship Detected.foreignKey Detected.referencedData].
    rewrite Hv.
    rewrite (existsb_map (getField "id")
               (fun id => strictEquals id (Some (VNum (inject_Z v))))).
    rewrite Hids. cbn [seq map existsb].
    assert (Hv5 : v = 1%Z \/ v = 2%Z \/ v = 3%Z \/ v = 4%Z \/ v = 5%Z)
      by lia.
    destruct Hv5 as [->|[->|[->|[->| ->]]]]; reflexivity. }
  destruct (countRelationship_fold ToString relationship
              (getTitleField (Detected.referencedData relationship))
              (Detected.referencingData relationship) [] (Forall_nil _))
    as [Hgroups Hsum].
  pose proof (countRelationship_length ToString relationship
                (getTitleField (Detected.referencedData relationship))
                (Detected.referencingData relationship) []) as Hlen.
  cbv zeta in Hgroups, Hsum.
  change (Detected.referencingData relationship) with rowsB
    in Hgroups, Hsum, Hlen.
  rewrite Hall, HlenB in Hsum. rewrite HlenB in Hlen.
  cbn [List.length Nat.add] in Hlen.
  set (cnt := numberField "count").
  match type of Hgroups with
  | Forall _ ?m => set (relationshipCounts := m) in *
  end.
  set (relationships' :=
         Array_sort (fun x y => cnt y - cnt x) (mapValues relationshipCounts)).
  assert (Hperm : Permutation relationships' (mapValues relationshipCounts))
    by apply Array_sort_perm.
  assert (Hn : List.length relationships' = List.length relationshipCounts).
  { unfold relationships', mapValues.
    now rewrite Array_sort_length, length_map. }
  assert (Htotal : total (map cnt relationships') == 5).
  { unfold cnt. rewrite total_numberField, (sumField_perm _ _ _ Hperm).
    rewrite Hsum. reflexivity. }
  assert (Hpos : (0 < List.length relationships')%nat).
  { destruct relationships' as [|g gs]; [|simpl; lia].
    simpl in Htotal. exfalso. revert Htotal. clear. intros H.
    apply Qeq_bool_iff in H. discriminate. }
  assert (Hfetch :
    fetchTableData ToNumber ToString relationships w [a; b]
    = Returned (ChartData.plain [a; b] (demoData w [a; b]))).
  { unfold fetchTableData. unfold isEventsPair in Hpair.
    rewrite Hpair, Hjoin. unfold awaitImport. rewrite Himport.
    destruct ((List.length [a; b] =? 2)%nat
              && (0 <? List.length relationships)%nat); reflexivity. }
  eexists. split; [exact Hfetch|].
  cbn [ChartData.plain ChartData.tables ChartData.data].
  split; [exact Hdetect|].
  unfold chartContent.
  cbn [ChartData.plain ChartData.tables ChartData.data
       ChartData.isEventsRegistrations ChartData.joinType truthy].
  rewrite Hdetect.
  destruct (demoData w [a; b]) as [|row rows] eqn:Edata; [contradiction|].
  cbn [List.length Nat.ltb Nat.leb Nat.eqb].
  unfold renderRelationshipChart. fold cnt.
  change (Detected.referencingData relationship) with rowsB.
  fold relationshipCounts. fold relationships'.
  destruct (List.length relationships' =? 0)%nat eqn:E0;
    [apply Nat.eqb_eq in E0; lia|].
  split; [reflexivity|].
  assert (Hmin : Nat.min (List.length relationships') 25
                 = List.length relationships') by lia.
  split.
  - unfold Array_mapi. rewrite (mapFrom_map _ Bar.value cnt) by reflexivity.
    rewrite Hmin, firstn_all. exact Htotal.
  - unfold Array_mapi. rewrite mapFrom_length, Hmin, firstn_all. lia.
Qed.

Lemma offline_demo_of_two_tables_is_a_relationship_chart_witness :
  exists d rowsA rowsB bars,
    fetchTableData noNumber sampleString [] offlineWorld
      ["users"; "posts"]%string = Returned d /\
    detectTableRelationships (ChartData.tables d) (ChartData.data d)
    = Some (Detected.mk "users_id" "posts" "users" rowsB rowsA) /\
    chartContent sampleString noDateKey noDateTime 1280 720 false d
    = RelationshipLayout (Bars bars) /\
    total (map Bar.value bars) == 5 /\
    (1 <= List.length bars <= 5)%nat.
Proof.
  apply (offline_demo_of_two_tables_is_a_relationship_chart noNumber
           sampleString [] offlineWorld noDateKey noDateTime 1280 720
           "users" "posts"); try reflexivity.
  intros n. cbn [random offlineWorld]. split.
  - apply Qle_shift_div_l; [reflexivity|]. rewrite Qmult_0_l.
    rewrite <- (Zle_Qle 0). lia.
  - apply Qlt_shift_div_r; [reflexivity|]. rewrite Qmult_1_l.
    change 10 with (inject_Z 10). rewrite <- Zlt_Qlt.
    pose proof (Nat.mod_upper_bound n 10). lia.
Defined.

Example offline_demo_sample :
  match chartContent sampleString noDateKey noDateTime 1280 720 false
          (ChartData.plain ["users"; "posts"]%string
             (demoData offlineWorld ["users"; "posts"]%string)) with
  | RelationshipLayout (Bars bars) => map (fun b => Qred (Bar.value b)) bars
  | _ => []
  end
  = [1; 1; 1; 1; 1].
Proof. vm_compute. reflexivity. Qed.

(* ================================================================== *)
(** ** Generate with tables dropped, and toasts *)

Lemma nth_error_snoc2 {A} (l : list A) (x y : A) :
  nth_error (l ++ [x; y]) (S (List.length l)) = Some y.
Proof. induction l as [|a l IH]; simpl; [reflexivity | exact IH]. Qed.

Lemma firstn_skipn_snoc2 {A} (l : list A) (x y : A) :
  firstn (S (List.length l)) (l ++ [x; y])
  ++ skipn (S (S (List.length l))) (l ++ [x; y])
  = l ++ [x].
Proof.
  induction l as [|a l IH]; simpl; [reflexivity|].
  simpl in IH. now rewrite IH.
Qed.

(** Pinching Generate with tables dropped announces the chart, asks for
    the data of exactly the dropped tables and queues the chart: the chart
    is not shown before 500 ms have passed, and when its timer runs it
    enters, with the toast still up and the dropped tables kept. *)
Theorem generate_with_tables_dropped :
  forall now s,
    buttonClickedRef s = false ->
    droppedTablesRef s <> [] ->
    let s1 := pressGenerate now s in
    let k := S (List.length (timers s)) in
    toast s1
    = Some (("Creating chart with " ++
             string_of_nat (List.length (droppedTablesRef s)) ++
             " table(s)")%string, info) /\
    fetchCalls s1 = fetchCalls s ++ [droppedTablesRef s] /\
    timers s1
    = timers s ++ [((now + 3000)%Z, ClearToast); ((now + 500)%Z, ShowChart)]
    /\
    buttonClickedRef s1 = true /\
    showChart s1 = showChart s /\
    (forall t, (t < now + 500)%Z -> fireTimer t k s1 = s1) /\
    (forall t, (now + 500 <= t)%Z ->
       let s2 := fireTimer t k s1 in
       showChart s2 = true /\
       chartAnimationState s2 = entering /\
       chartAnimationStartRef s2 = t /\
       timers s2
       = timers s ++ [((now + 3000)%Z, ClearToast);
                      ((t + 800)%Z, BecomeVisible)] /\
       toast s2 = toast s1 /\
       droppedTablesRef s2 = droppedTablesRef s /\
       fetchCalls s2 = fetchCalls s1).
Proof.
  intros now s Hlatch Hdropped s1 k. subst s1 k.
  unfold pressGenerate. st. rewrite Hlatch. cbn [negb]. st.
  destruct (droppedTablesRef s) as [|d ds] eqn:Ed; [contradiction|].
  cbn [List.length Nat.eqb]. st.
  rewrite <- app_assoc. cbn [Datatypes.app].
  split; [reflexivity|]. split; [reflexivity|]. split; [reflexivity|].
  split; [reflexivity|]. split; [reflexivity|]. split.
  - intros t Ht. unfold fireTimer. st.
    rewrite <- app_assoc. cbn [Datatypes.app]. rewrite nth_error_snoc2.
    destruct (now + 500 <=? t)%Z eqn:E; [|reflexivity].
    apply Z.leb_le in E. lia.
  - intros t Ht. unfold fireTimer. st.
    rewrite <- !app_assoc. cbn [Datatypes.app]. rewrite nth_error_snoc2.
    assert (E : (now + 500 <=? t)%Z = true) by now apply Z.leb_le.
    rewrite E. cbn [runTimer]. st.
    rewrite firstn_skipn_snoc2, <- app_assoc. cbn [Datatypes.app].
    now repeat split.
Qed.

Lemma generate_with_tables_dropped_witness :
  let s := run dropUsersTwice freshState in
  let s1 := pressGenerate 600 s in
  fetchCalls s1 = fetchCalls s ++ [droppedTablesRef s] /\
  showChart (fireTimer 1100 (S (List.length (timers s))) s1) = true.
Proof.
  intros s s1.
  destruct (generate_with_tables_dropped 600 s eq_refl)
    as (_ & H2 & _ & _ & _ & _ & H7).
  - vm_compute. discriminate.
  - split; [exact H2|].
    destruct (H7 1100%Z) as [H _]; [vm_compute; discriminate | exact H].
Defined.

(** A toast is not given its own three seconds when an earlier toast is
    still up: the timer of the earlier toast is not cancelled and clears
    the later toast when it runs. *)
Theorem toast_is_cleared_by_the_earlier_timer :
  forall s now1 message1 type1 now2 message2 type2 t,
    (now1 <= now2)%Z ->
    (now1 + 3000 <= t < now2 + 3000)%Z ->
    let s1 := showToast now1 message1 type1 s in
    let s2 := showToast now2 message2 type2 s1 in
    toast s2 = Some (message2, type2) /\
    nth_error (timers s2) (List.length (timers s))
    = Some ((now1 + 3000)%Z, ClearToast) /\
    toast (fireTimer t (List.length (timers s)) s2) = None /\
    (t - now2 < 3000)%Z.
Proof.
  intros s now1 message1 type1 now2 message2 type2 t Hle Ht s1 s2.
  subst s1 s2. st.
  assert (Hnth : nth_error
                   ((timers s ++ [((now1 + 3000)%Z, ClearToast)]) ++
                    [((now2 + 3000)%Z, ClearToast)])
                   (List.length (timers s))
                 = Some ((now1 + 3000)%Z, ClearToast)).
  { rewrite nth_error_app1 by (rewrite length_app; simpl; lia).
    apply nth_error_snoc. }
  split; [reflexivity|]. split; [exact Hnth|]. split; [|lia].
  unfold fireTimer. st. rewrite Hnth.
  assert (E : (now1 + 3000 <=? t)%Z = true) by (apply Z.leb_le; lia).
  rewrite E. reflexivity.
Qed.

Lemma toast_is_cleared_by_the_earlier_timer_witness :
  let s2 :=
    showToast 2000 "Creating chart with 1 table(s)" info
      (showToast 0 "Please drop at least one table into the drop zone"
         error freshState) in
  toast s2 = Some ("Creating chart with 1 table(s)"%string, info) /\
  toast (fireTimer 3000 0 s2) = None.
Proof.
  intros s2.
  destruct (toast_is_cleared_by_the_earlier_timer freshState 0
              "Please drop at least one table into the drop zone" error
              2000 "Creating chart with 1 table(s)" info 3000)
    as (H1 & _ & H3 & _); [lia | lia |].
  exact (conj H1 H3).
Defined.

(* ================================================================== *)
(** ** The two x-axis heuristics *)

Lemma find_ext_in {A} (f g : A -> bool) (l : list A) :
  (forall x, In x l -> f x = g x) -> find f l = find g l.
Proof.
  induction l as [|a l IH]; simpl; intros H; [reflexivity|].
  rewrite (H a) by now left. rewrite IH; [reflexivity|].
  intros x Hx. apply H. now right.
Qed.

Lemma find_filter_implied {A} (p q : A -> bool) (l : list A) :
  (forall x, p x = true -> q x = true) ->
  find p (filter q l) = find p l.
Proof.
  intros H. induction l as [|a l IH]; simpl; [reflexivity|].
  destruct (q a) eqn:Eq; simpl.
  - now rewrite IH.
  - destruct (p a) eqn:Ep; [|exact IH].
    apply H in Ep. congruence.
Qed.

Lemma hd_error_filter {A} (p : A -> bool) (l : list A) :
  hd_error (filter p l) = find p l.
Proof.
  induction l as [|a l IH]; simpl; [reflexivity|].
  now destruct (p a).
Qed.

Lemma filter_filter_implied {A} (p q : A -> bool) (l : list A) :
  (forall x, In x l -> p x = true -> q x = true) ->
  filter p (filter q l) = filter p l.
Proof.
  induction l as [|a l IH]; simpl; intros H; [reflexivity|].
  assert (IH' : filter p (filter q l) = filter p l).
  { apply IH. intros x Hx. apply H. now right. }
  destruct (q a) eqn:Eq; simpl.
  - now rewrite IH'.
  - destruct (p a) eqn:Ep; [|exact IH'].
    rewrite (H a (or_introl eq_refl) Ep) in Eq. discriminate.
Qed.

Lemma hasField_In key item :
  hasField key item = true <-> In key (Object_keys item).
Proof.
  unfold hasField, Object_keys. induction item as [|[k v] item IH]; simpl.
  - split; [discriminate | intros []].
  - destruct (String.eqb k key) eqn:E.
    + apply String.eqb_eq in E. split; [now left | reflexivity].
    + rewrite IH. split; [now right|]. intros [H|H]; [|exact H].
      apply String.eqb_neq in E. contradiction.
Qed.

(** A key that does not start with the tag marker is a key of the record
    exactly when it is one of its visible keys. *)
Lemma hasField_visible key item :
  startsWith key "_" = false ->
  hasField key item = array_includes (visibleKeys item) key.
Proof.
  intros Hkey.
  destruct (array_includes (visibleKeys item) key) eqn:E.
  - apply array_includes_In in E. apply hasField_In.
    now apply visible_key_is_key in E.
  - destruct (hasField key item) eqn:Eh; [|reflexivity].
    apply hasField_In in Eh.
    assert (Hin : In key (visibleKeys item)).
    { unfold visibleKeys. apply filter_In. split; [exact Eh|].
      now rewrite Hkey. }
    apply array_includes_In in Hin. congruence.
Qed.

(** On a record whose tag keys mention neither a name nor a title and
    that has no empty key, the generic layout of [renderChartView] picks
    the x-axis field that [getBestXAxisField] picks. *)
Theorem x_axis_heuristics_agree :
  forall first rest,
    plainKeys first = true ->
    fst (chooseXAxis first) = getBestXAxisField (first :: rest).
Proof.
  intros first rest Hplain. unfold plainKeys in Hplain.
  apply andb_prop in Hplain as [Htags Hempty].
  rewrite forallb_forall in Htags. apply negb_true_iff in Hempty.
  set (keys := Object_keys first) in *.
  set (vis := visibleKeys first).
  set (nameOrTitle := fun key => mentions "name" key || mentions "title" key).
  assert (Hvisible : forall key,
             In key keys -> nameOrTitle key = true ->
             negb (startsWith key "_") = true).
  { intros key Hin Hnt. specialize (Htags key Hin).
    destruct (negb (startsWith key "_")); [reflexivity|].
    simpl in Htags. apply andb_prop in Htags as [Hn Ht].
    apply negb_true_iff in Hn, Ht. unfold nameOrTitle in Hnt.
    rewrite Hn, Ht in Hnt. discriminate. }
  assert (HnameFields : filter nameOrTitle keys = filter nameOrTitle vis).
  { unfold vis, visibleKeys. fold keys. symmetry.
    now apply filter_filter_implied. }
  assert (Hdate : find (fun field => hasField field first) dateFields
                  = find (fun field => array_includes vis field) dateFields).
  { apply find_ext_in. intros d Hd. apply hasField_visible.
    simpl in Hd.
    destruct Hd as [<-|[<-|[<-|[<-|[<-|[<-|[<-|[]]]]]]]]; reflexivity. }
  assert (Hid : hasField "id" first = array_includes vis "id")
    by now apply hasField_visible.
  unfold chooseXAxis, getBestXAxisField.
  change (filter (fun key => negb (startsWith key "_")) (Object_keys first))
    with vis.
  change (fun f => includes (toLowerCase f) "title") with (mentions "title").
  change (fun f => includes (toLowerCase f) "name") with (mentions "name").
  fold keys. fold nameOrTitle. rewrite Hdate, HnameFields.
  destruct (find (fun field => array_includes vis field) dateFields);
    [reflexivity|].
  assert (Htitle : find (mentions "title") (filter nameOrTitle vis)
                   = find (mentions "title") vis).
  { apply find_filter_implied. intros x Hx. unfold nameOrTitle.
    now rewrite Hx, Bool.orb_true_r. }
  destruct (find (mentions "title") vis) as [t|] eqn:Et.
  - destruct (find_In _ _ _ Et) as [Hin Ht].
    assert (Hmember : In t (filter nameOrTitle vis)).
    { apply filter_In. split; [exact Hin|]. unfold nameOrTitle.
      now rewrite Ht, Bool.orb_true_r. }
    destruct (filter nameOrTitle vis) as [|fn fns] eqn:Ef; [contradiction|].
    cbn [fst]. rewrite Htitle. cbn [orDefault].
    assert (Hne : t <> EmptyString)
      by (intros ->; discriminate Ht).
    now rewrite (isEmptyString_false t Hne).
  - assert (Hnames : filter nameOrTitle vis = filter (mentions "name") vis).
    { apply filter_ext_in. intros x Hx. unfold nameOrTitle.
      rewrite (find_none_all _ _ Et x Hx). apply Bool.orb_false_r. }
    pose proof (hd_error_filter (mentions "name") vis) as Hhd.
    rewrite <- Hnames in Hhd.
    destruct (filter nameOrTitle vis) as [|fn fns] eqn:Ef.
    + simpl in Hhd. rewrite <- Hhd. rewrite <- Hid.
      destruct (hasField "id" first) eqn:Eid; [reflexivity|].
      assert (Havailable :
        filter (fun key => negb (startsWith key "_") &&
                           negb (String.eqb key "id")) keys = vis).
      { unfold vis, visibleKeys. fold keys. apply filter_ext_in.
        intros x Hx.
        destruct (String.eqb x "id") eqn:Ex; [|apply Bool.andb_true_r].
        apply String.eqb_eq in Ex. subst x.
        apply hasField_In in Hx. congruence. }
      rewrite Havailable.
      destruct vis as [|f fs] eqn:Ev; [reflexivity|]. cbn [fst].
      assert (Hf : In f keys).
      { assert (Hfv : In f (visibleKeys first))
          by (fold vis; rewrite Ev; now left).
        now apply visible_key_is_key in Hfv. }
      assert (Hne : f <> EmptyString).
      { intros ->. apply array_includes_In in Hf. congruence. }
      now rewrite (isEmptyString_false f Hne).
    + simpl in Hhd. rewrite <- Hhd. cbn [fst]. rewrite Htitle.
      reflexivity.
Qed.

Lemma x_axis_heuristics_agree_witness :
  fst (chooseXAxis usersRow) = getBestXAxisField [usersRow; postsRow].
Proof.
  apply (x_axis_heuristics_agree usersRow [postsRow]). reflexivity.
Defined.

(** A key that starts with the tag marker and mentions a name makes the
    two heuristics differ: the generic layout takes it, the other one
    skips it. *)
Example x_axis_heuristics_differ_on_tag_keys :
  let first := [("id", VNum 1); ("_name", VStr "x")]%string in
  plainKeys first = false /\
  fst (chooseXAxis first) = "_name"%string /\
  getBestXAxisField [first] = "id"%string.
Proof. repeat split. Qed.

(* ================================================================== *)
(** ** The join layout for counted references *)

(** The bars of a special layout for records sorted by a non-negative
    value, largest first. *)
Lemma special_layout_bars {A} (cnt : A -> Q) (items : list A) (cap : nat)
    width height :
  0 < width -> 0 < height -> items <> [] -> (0 < cap)%nat ->
  Forall (fun e => 0 <= cnt e) items ->
  StronglySorted (fun a b => cnt b <= cnt a) items ->
  let maxItems := Nat.min (List.length items) cap in
  let barWidth := (width * 0.7) / Q_of_nat maxItems in
  let maxValue := Math_max_list (map cnt items) in
  let bars :=
    Array_mapi
      (fun item i =>
         let barHeight :=
           if gtb maxValue 0
           then (cnt item / maxValue) * (height * 0.4) * 0.8
           else 0 in
         Bar.mk (width * 0.15 + Q_of_nat i * (barWidth + barWidth * 0.1))
           (height * 0.75 - barHeight) (barWidth * 0.8) barHeight
           (cnt item))
      (firstn maxItems items) in
  map Bar.value bars = firstn cap (map cnt items) /\
  Forall (insideChartArea width height) bars /\
  (forall i a b,
      nth_error bars i = Some a -> nth_error bars (S i) = Some b ->
      Bar.x a + Bar.width a <= Bar.x b /\ Bar.height b <= Bar.height a).
Proof.
  intros HW HH Hne Hcap Hpos Hsorted maxItems barWidth maxValue bars.
  assert (Hn : (0 < List.length items)%nat)
    by (destruct items; [contradiction | simpl; lia]).
  assert (Hm : (0 < maxItems)%nat) by (unfold maxItems; lia).
  assert (Hmax : Forall (fun e => cnt e <= maxValue) items).
  { destruct (Math_max_list_spec (map cnt items)) as [H _].
    - destruct items; [contradiction | discriminate].
    - now rewrite Forall_map in H. }
  assert (Hnth : forall i e,
             nth_error (firstn maxItems items) i = Some e ->
             (i < maxItems)%nat /\ nth_error items i = Some e).
  { intros i e Hi.
    assert (Hlt : (i < List.length (firstn maxItems items))%nat)
      by (apply nth_error_Some; congruence).
    rewrite length_firstn in Hlt.
    split; [lia|]. rewrite nth_error_firstn in Hi.
    destruct (i <? maxItems)%nat eqn:E; [exact Hi|].
    apply Nat.ltb_ge in E. lia. }
  assert (Hspan : 0 <= width * 0.7) by lra.
  assert (Hch : 0 <= height * 0.4) by lra.
  split; [|split].
  - unfold bars, Array_mapi.
    rewrite (mapFrom_map _ Bar.value cnt) by reflexivity.
    unfold maxItems. rewrite firstn_min_length. now rewrite firstn_map.
  - unfold bars, Array_mapi. apply mapFrom_Forall. intros e i Hi.
    cbn [Nat.add]. destruct (Hnth i e Hi) as [Hlt He].
    destruct (bar_within (width * 0.7) (width * 0.15) maxItems i Hspan Hlt)
      as (Hbw & Hx0 & Hx1).
    cbv zeta in Hbw, Hx0, Hx1. fold barWidth in Hbw, Hx0, Hx1.
    pose proof (nth_error_In _ _ He) as Hin.
    rewrite Forall_forall in Hpos, Hmax.
    unfold insideChartArea. cbn [Bar.x Bar.y Bar.width Bar.height].
    split; [lra|]. split; [lra|].
    destruct (gtb maxValue 0) eqn:Eg.
    + unfold gtb in Eg. apply ltb_lt in Eg.
      destruct (bar_height_within (cnt e) maxValue (height * 0.4)
                  (Hpos e Hin) (Hmax e Hin) Eg Hch) as [H0 H1].
      split; [exact H0|]. split; [lra | ring].
    + split; [lra|]. split; [lra | ring].
  - intros i x y Hx Hy. unfold bars, Array_mapi in Hx, Hy.
    rewrite mapFrom_nth in Hx, Hy. cbn [Nat.add] in Hx, Hy.
    destruct (nth_error (firstn maxItems items) i) as [ea|] eqn:Ea;
      [|discriminate].
    destruct (nth_error (firstn maxItems items) (S i)) as [eb|] eqn:Eb;
      [|discriminate].
    injection Hx as <-. injection Hy as <-.
    destruct (Hnth _ _ Ea) as [Hia Hea].
    destruct (Hnth _ _ Eb) as [Hib Heb].
    destruct (bar_within (width * 0.7) (width * 0.15) maxItems i Hspan Hia)
      as (Hbw & _ & _).
    cbv zeta in Hbw. fold barWidth in Hbw.
    cbn [Bar.x Bar.y Bar.width Bar.height].
    pose proof (Q_of_nat_S i) as HS.
    assert (Hord : cnt eb <= cnt ea).
    { apply (StronglySorted_nth _ _ Hsorted i (S i) ea eb);
        [lia | exact Hea | exact Heb]. }
    split; [rewrite HS; lra|].
    destruct (gtb maxValue 0) eqn:Eg; [|lra].
    unfold gtb in Eg. apply ltb_lt in Eg.
    now apply bar_height_monotone.
Qed.

Lemma Object_keys_setField_existing key v item q :
  getField key item = Some q ->
  Object_keys (setField key v item) = Object_keys item.
Proof.
  unfold Object_keys. induction item as [|[k x] item IH]; simpl;
    [discriminate|].
  destruct (String.eqb k key); simpl; [reflexivity|].
  intros H. now rewrite IH.
Qed.

Lemma Object_keys_increment key item :
  Object_keys (increment key item) = Object_keys item.
Proof.
  unfold increment.
  destruct (getField key item) as [[q|s|b| |n]|] eqn:E; try reflexivity.
  now apply (Object_keys_setField_existing key _ item (VNum q)).
Qed.

Section CountedReferences.

Variable ToNumber : option Value -> option Q.
Variable ToString : option Value -> string.

(** The groups of strategy 3 have the keys id, name, count and the
    table tag. *)
Lemma countReference_keys table fk rows : forall counts,
  Forall (fun e => Object_keys (snd e)
                   = ["id"; "name"; "count"; "_table"]%string) counts ->
  Forall (fun e => Object_keys (snd e)
                   = ["id"; "name"; "count"; "_table"]%string)
    (fold_left (countReference ToNumber ToString table fk) rows counts).
Proof.
  induction rows as [|row rows IH]; intros counts Hc; simpl; [exact Hc|].
  apply IH. unfold countReference.
  destruct (truthyValue (getField fk row)); [|exact Hc].
  apply mapAdjust_Forall.
  - intros k v Hv. cbn [snd] in *. now rewrite Object_keys_increment.
  - destruct (negb (mapHas _ counts)); [|exact Hc].
    apply Forall_mapSet; [|exact Hc]. intros k. reflexivity.
Qed.

End CountedReferences.

(** A schema join of the kind "relationship_count" is drawn by count:
    when the foreign keys of the referencing rows are no arrays, the
    dataset the fetch delivers goes to the join layout, whose bars show
    the (at most 25) largest groups, largest first, inside the chart
    area; the counts of all groups add up to the number of referencing
    rows with a truthy foreign key.  With no such row the chart says "NO
    DATA AVAILABLE". *)
Theorem relationship_count_join_is_drawn_by_count :
  forall ToNumber ToString relationships w dateKey dateTime width height
         a b rel rows d,
    0 < width -> 0 < height ->
    findSchemaRelationship relationships a b = Some rel ->
    select w (Rel.referencingTable rel) (Rel.foreignKey rel)
    = Reply (Some rows) false ->
    Forall (fun row => scalarValue (getField (Rel.foreignKey rel) row) = true)
      rows ->
    fetchTableData ToNumber ToString relationships w [a; b] = Returned d ->
    ChartData.joinType d = Some "relationship_count"%string ->
    let referencing :=
      filter (fun row => truthyValue (getField (Rel.foreignKey rel) row))
        rows in
    (referencing = [] /\
     chartContent ToString dateKey dateTime width height false d
     = NoDataLayout) \/
    (exists bars counts,
        chartContent ToString dateKey dateTime width height false d
        = JoinLayout (Some (Bars bars)) /\
        total counts == Q_of_nat (List.length referencing) /\
        Forall (fun c => 1 <= c) counts /\
        StronglySorted (fun x y => y <= x) counts /\
        map Bar.value bars = firstn 25 counts /\
        Forall (insideChartArea width height) bars /\
        (forall i x y,
            nth_error bars i = Some x -> nth_error bars (S i) = Some y ->
            Bar.x x + Bar.width x <= Bar.x y /\
            Bar.height y <= Bar.height x)).
Proof.
  intros ToNumber ToString relationships w dateKey dateTime width height
         a b rel rows d HW HH Hrel Hsel Hscalar Hfetch Hkind referencing.
  set (cnt := numberField "count").
  destruct (fetchTableData_cases _ _ _ _ _ _ Hfetch)
    as [(_ & data & ->) | [(_ & j & Hj & ->) | (_ & data & -> & _)]];
    try discriminate Hkind.
  cbn [ChartData.joinType] in Hkind. injection Hkind as Hkind.
  set (groups :=
         fold_left
           (countReference ToNumber ToString (Rel.referencingTable rel)
              (Rel.foreignKey rel)) rows []).
  assert (Hshape :
    JoinResult.data j = mapValues groups /\
    JoinResult.yAxisField j = "count"%string /\
    JoinResult.xAxisField j = getBestXAxisField (mapValues groups)).
  { unfold createJoinQuery in Hj. rewrite Hrel in Hj.
    unfold awaitImport in Hj.
    destruct (importSupabase w AtJoinQuery); cbn [bind try_catch] in Hj;
      [|discriminate].
    join_cases Hj.
    all: injection Hj as <-;
      cbn [JoinResult.type JoinResult.data JoinResult.yAxisField
           JoinResult.xAxisField] in *;
      try discriminate.
    all: injection Hsel as ->; now repeat split. }
  destruct Hshape as (Hdata & Hy & Hx).
  destruct (countReference_fold ToNumber ToString (Rel.referencingTable rel)
              (Rel.foreignKey rel) rows [] (Forall_nil _) Hscalar)
    as [Hcounted Hsum].
  pose proof (countReference_keys ToNumber ToString
                (Rel.referencingTable rel) (Rel.foreignKey rel) rows []
                (Forall_nil _)) as Hkeys.
  fold groups in Hcounted, Hsum, Hkeys. fold referencing in Hsum.
  assert (Hone : Forall (fun g => 1 <= cnt g) (mapValues groups)).
  { unfold mapValues. apply Forall_map.
    eapply Forall_impl; [|exact Hcounted]. intros e (q & Hq & Hq1 & _).
    unfold cnt. now rewrite (numberField_of_numField _ _ _ Hq). }
  assert (Htotal : total (map cnt (mapValues groups))
                   == Q_of_nat (List.length referencing)).
  { unfold cnt. rewrite total_numberField, Hsum. unfold count, Q_of_nat.
    simpl. ring. }
  unfold chartContent.
  cbn [ChartData.data ChartData.isEventsRegistrations ChartData.joinType
       truthy].
  rewrite Hdata, Hkind.
  destruct (mapValues groups) as [|g gs] eqn:Egroups.
  - left. split; [|reflexivity].
    destruct referencing as [|r rs]; [reflexivity|]. exfalso.
    unfold total in Htotal. cbn [map fold_right List.length] in Htotal.
    rewrite Q_of_nat_S in Htotal.
    assert (0 <= Q_of_nat (List.length rs))
      by (apply (Q_of_nat_le 0); lia).
    lra.
  - right. rewrite <- Egroups in *.
    cbn [String.eqb Ascii.eqb Bool.eqb negb].
    assert (Hlen : (0 <? List.length (mapValues groups))%nat = true)
      by (rewrite Egroups; reflexivity).
    rewrite Hlen.
    assert (Hxname : getBestXAxisField (mapValues groups) = "name"%string).
    { rewrite Egroups. unfold getBestXAxisField.
      assert (Hk : Object_keys g = ["id"; "name"; "count"; "_table"]%string).
      { unfold mapValues in Egroups. destruct groups as [|[k v] rest];
          [discriminate|].
        inversion Hkeys as [|? ? Hv _]; subst.
        cbn [map snd] in Egroups. injection Egroups as <- _. exact Hv. }
      rewrite Hk. reflexivity. }
    unfold renderJoinQueryChart.
    cbn [ChartData.data ChartData.xAxisField ChartData.yAxisField orDefault].
    rewrite Hx, Hy, Hxname.
    cbn [isEmptyString String.eqb Ascii.eqb Bool.eqb orDefault].
    assert (Htyped : numbersOrNothingAt "count" (mapValues groups) = true).
    { unfold numbersOrNothingAt. apply forallb_forall. intros row Hrow.
      unfold mapValues in Hrow. apply in_map_iff in Hrow as (e & <- & He).
      rewrite Forall_forall in Hcounted.
      destruct (Hcounted e He) as (q & Hq & _). unfold numField in Hq.
      now destruct (getField "count" (snd e)) as [[p|s|x| |n]|]. }
    rewrite Htyped. cbn [negb].
    assert (E0 : (List.length (mapValues groups) =? 0)%nat = false)
      by (rewrite Egroups; reflexivity).
    rewrite E0.
    change (array_includes dateFields "name") with false. cbv iota.
    fold cnt.
    set (sorted := Array_sort (fun x y => cnt y - cnt x) (mapValues groups)).
    assert (Hperm : Permutation sorted (mapValues groups))
      by apply Array_sort_perm.
    assert (Hsorted : StronglySorted (fun x y => cnt y <= cnt x) sorted)
      by apply Array_sort_descending.
    assert (Hsone : Forall (fun g => 1 <= cnt g) sorted)
      by now apply Array_sort_Forall.
    assert (Hsne : sorted <> []).
    { intros E. apply Permutation_length in Hperm.
      rewrite E, Egroups in Hperm. discriminate. }
    destruct (special_layout_bars cnt sorted 25 width height HW HH Hsne
                ltac:(lia)) as (Hvalues & Hinside & Hnext).
    { eapply Forall_impl; [|exact Hsone]. intros e He. simpl in He. lra. }
    { exact Hsorted. }
    cbv zeta in Hvalues, Hinside, Hnext.
    eexists. exists (map cnt sorted).
    split; [reflexivity|]. split.
    { rewrite <- Htotal. unfold cnt.
      rewrite !total_numberField. now apply sumField_perm. }
    split; [now apply Forall_map|].
    split; [now apply StronglySorted_map|].
    split; [exact Hvalues|]. split; [exact Hinside | exact Hnext].
Qed.

Lemma relationship_count_join_is_drawn_by_count_witness :
  exists bars counts,
    chartContent sampleString noDateKey noDateTime 1280 720 false
      blogJoinChart
    = JoinLayout (Some (Bars bars)) /\
    total counts == 3 /\
    map Bar.value bars = firstn 25 counts /\
    Forall (insideChartArea 1280 720) bars.
Proof.
  destruct (relationship_count_join_is_drawn_by_count noNumber sampleString
              blogSchema blogWorld noDateKey noDateTime 1280 720
              "posts" "comments"
              (Rel.mk "comments" "posts" "comments" "posts" "post_id")
              commentRows blogJoinChart)
    as [[Hnone _] | (bars & counts & H1 & H2 & _ & _ & H5 & H6 & _)];
    try reflexivity.
  - repeat constructor.
  - discriminate Hnone.
  - exists bars, counts. now repeat split.
Defined.

Example relationship_count_join_sample :
  ChartData.data blogJoinChart
  = [[("id", VNum 1); ("name", VStr "comments 1");
      ("count", VNum (0 + 1 + 1)); ("_table", VStr "comments")];
     [("id", VNum 2); ("name", VStr "comments 2");
      ("count", VNum (0 + 1)); ("_table", VStr "comments")]]%string /\
  match chartContent sampleString noDateKey noDateTime 1280 720 false
          blogJoinChart with
  | JoinLayout (Some (Bars bars)) =>
      map (fun b => (Qred (Bar.value b), Qred (Bar.height b))) bars
  | _ => []
  end
  = [(2, 1152 # 5); (1, 576 # 5)].
Proof. split; vm_compute; reflexivity. Qed.
